(** * Budget-Analysis: the data pipeline of [GDB.py]

    A shallow embedding of the wide-to-long reshape ([load_data]), the
    year-range filter, the group-by aggregations (totals by year, top
    departments), the headline metrics and the per-department growth
    ([compute_growth]) of the dashboard script,
    with the properties its specification states about them.

    Conventions of the embedding.
    - A parsed CSV is a [DataFrame]: the column labels and the rows of
      cells.  [pandas.read_csv] gives distinct labels to the columns and
      pads short rows with NaN.
    - A cell is a finite number, a text that is not a number, or NaN (an
      empty cell).  Budget amounts are rationals: rounding and the
      infinities of IEEE floats are outside the model, and so is the
      wrap-around of sums in an [int64] column; what is stated of a total
      as a sum is stated of record sets whose sums stay within [int64]
      ([int64_safe]).
    - An exception is a [Raise] result of the [result] monad. *)

From Stdlib Require Import List String Ascii Bool Arith ZArith QArith Lia.
From Stdlib Require Import Sorted Permutation DecimalString DecimalZ DecimalPos DecimalFacts.
Import ListNotations.

Local Open Scope string_scope.
Local Open Scope list_scope.

(** ** Exceptions *)

Inductive exn : Type :=
| EmptyDataError   (* pandas.errors.EmptyDataError *)
| IndexError
| KeyError
| ValueError.

Inductive result (A : Type) : Type :=
| Ok (a : A)
| Raise (e : exn).

Arguments Ok {A} a.
Arguments Raise {A} e.

Definition bind {A B : Type} (m : result A) (k : A -> result B) : result B :=
  match m with
  | Ok a => k a
  | Raise e => Raise e
  end.

Notation "x <- m ;; k" := (bind m (fun x => k))
  (at level 61, m at next level, right associativity).

(** ** Cells, frames and records *)

Inductive cell : Type :=
| Num (q : Q)        (* a cell that reads as a finite number *)
| Txt (s : string)   (* a text that is not a number *)
| NaN.               (* an empty cell *)

Record DataFrame : Type := mkFrame {
  columns : list string;
  data : list (list cell)
}.

(** One row of [long_df]: Department | Year | Budget. *)
Record record : Type := mkRecord {
  Department : cell;
  Year : string;
  Budget : Q
}.

(** [cols.get_loc(c)]: the position of a label. *)
Fixpoint get_loc (cols : list string) (c : string) : option nat :=
  match cols with
  | [] => None
  | c' :: cols' =>
      if c' =? c then Some 0%nat else option_map S (get_loc cols' c)
  end.

(** [row[c]] for a row of a frame with labels [cols]. *)
Definition at_label (cols : list string) (row : list cell) (c : string) : cell :=
  match get_loc cols c with
  | Some i => nth i row NaN
  | None => NaN
  end.

(** ** [load_data] (lines 13-28) *)

(** [pd.read_csv]: a document without columns raises [EmptyDataError]. *)
Definition read_csv (path_or_file : DataFrame) : result DataFrame :=
  match columns path_or_file with
  | [] => Raise EmptyDataError
  | _ :: _ => Ok path_or_file
  end.

(** [df.columns[0]] *)
Definition first_column (df : DataFrame) : result string :=
  match columns df with
  | [] => Raise IndexError
  | c :: _ => Ok c
  end.

(** [df.rename(columns={old: new})]: every label equal to [old] is replaced. *)
Definition rename (old new : string) (df : DataFrame) : DataFrame :=
  {| columns := map (fun c => if c =? old then new else c) (columns df);
     data := data df |}.

(** [df.melt(id_vars, value_vars, ...)]: the value columns one after the
    other, each with all the rows in their order.  The id column must be
    there ([KeyError]) and be the only one of its label: with two columns
    of that label pandas cannot build the id column and raises
    [ValueError]. *)
Definition melt (df : DataFrame) (id_var : string) (value_vars : list string)
  : result (list (cell * string * cell)) :=
  match count_occ string_dec (columns df) id_var with
  | 0%nat => Raise KeyError
  | 1%nat =>
      Ok (flat_map
            (fun c =>
               map (fun row => (at_label (columns df) row id_var, c,
                                at_label (columns df) row c))
                   (data df))
            value_vars)
  | _ => Raise ValueError
  end.

(** [pd.to_numeric(x, errors="coerce")] on one value. *)
Definition to_numeric (v : cell) : option Q :=
  match v with
  | Num q => Some q
  | Txt _ => None
  | NaN => None
  end.

Definition to_numeric_budget (l : list (cell * string * cell))
  : list (cell * string * option Q) :=
  map (fun '(d, y, b) => (d, y, to_numeric b)) l.

(** [long_df.dropna(subset=["Budget"])] *)
Definition dropna_budget (l : list (cell * string * option Q)) : list record :=
  flat_map
    (fun '(d, y, b) =>
       match b with
       | Some q => [mkRecord d y q]
       | None => []
       end)
    l.

(** Line 19: every label but "Department"; whether a label is numeric is
    not tested. *)
Definition year_columns (df : DataFrame) : list string :=
  filter (fun c => negb (c =? "Department")) (columns df).

(** Line 25, [astype(str)], leaves the labels in the Year column as they
    are: the labels of a parsed CSV are [str] already. *)
Definition load_data (path_or_file : DataFrame)
  : result (DataFrame * list record * list string) :=
  df <- read_csv path_or_file ;;
  c0 <- first_column df ;;
  let df := rename c0 "Department" df in
  let year_cols := year_columns df in
  long_df <- melt df "Department" year_cols ;;
  let long_df := dropna_budget (to_numeric_budget long_df) in
  Ok (df, long_df, year_cols).

(** ** Python built-ins used by the script *)

(** [min(l)] and [max(l)] on a list of [str]: code-point order, which on
    the bytes of the text is [String.compare]; an empty list raises
    [ValueError]. *)
Definition py_min (l : list string) : result string :=
  match l with
  | [] => Raise ValueError
  | x :: t => Ok (fold_left (fun m c => if c <? m then c else m) t x)
  end.

Definition py_max (l : list string) : result string :=
  match l with
  | [] => Raise ValueError
  | x :: t => Ok (fold_left (fun m c => if m <? c then c else m) t x)
  end.

(** [str(y)] for an integer: its decimal numeral. *)
Definition py_str (y : Z) : string := NilZero.string_of_int (Z.to_int y).

(** [int(s)] on an ASCII text: white space around the numeral is dropped,
    then come an optional sign and decimal digits, which single underscores
    may separate; any other text raises [ValueError]. *)

(** The white space of [int()]: tab to carriage return, the four
    separators and the blank. *)
Definition is_space (c : ascii) : bool :=
  let n := nat_of_ascii c in
  ((9 <=? n) && (n <=? 13) || (28 <=? n) && (n <=? 32))%nat%bool.

Fixpoint lstrip (s : string) : string :=
  match s with
  | String c s' => if is_space c then lstrip s' else s
  | EmptyString => EmptyString
  end.

Fixpoint rstrip (s : string) : string :=
  match s with
  | String c s' =>
      match rstrip s' with
      | EmptyString => if is_space c then EmptyString else String c EmptyString
      | r => String c r
      end
  | EmptyString => EmptyString
  end.

Definition strip (s : string) : string := rstrip (lstrip s).

(** The digits of a numeral without its underscores; [None] when an
    underscore does not stand between two digits or there is no digit. *)
Fixpoint drop_underscores (s : string) (after_digit : bool) : option string :=
  match s with
  | String c s' =>
      if (c =? "_")%char
      then if after_digit then drop_underscores s' false else None
      else option_map (String c) (drop_underscores s' true)
  | EmptyString => if after_digit then Some EmptyString else None
  end.

Definition py_int (s : string) : result Z :=
  match strip s with
  | EmptyString => Raise ValueError
  | String c t =>
      let '(negative, body) :=
        if (c =? "-")%char then (true, t)
        else if (c =? "+")%char then (false, t)
        else (false, String c t) in
      match drop_underscores body false with
      | Some digits =>
          match NilEmpty.uint_of_string digits with
          | Some u => Ok (if negative : bool then (- Z.of_uint u)%Z else Z.of_uint u)
          | None => Raise ValueError
          end
      | None => Raise ValueError
      end
  end.

(** [range(a, b)] *)
Definition py_range (a b : Z) : list Z :=
  map (fun i => (a + Z.of_nat i)%Z) (seq 0 (Z.to_nat (b - a))).

(** ** The sidebar (lines 60-72) *)

(** Lines 60-66: the bounds of the slider. *)
Definition slider_bounds (year_cols : list string) : result (Z * Z) :=
  min_year <- py_min year_cols ;;
  max_year <- py_max year_cols ;;
  lo <- py_int min_year ;;
  hi <- py_int max_year ;;
  Ok (lo, hi).

(** Line 71 *)
Definition selected_years (year_range : Z * Z) : list string :=
  map py_str (py_range (fst year_range) (snd year_range + 1)).

(** [Series.isin] on one value. *)
Definition isin (y : string) (values : list string) : bool :=
  existsb (String.eqb y) values.

(** Line 72 *)
Definition filtered_long (long_df : list record) (year_range : Z * Z)
  : list record :=
  filter (fun r => isin (Year r) (selected_years year_range)) long_df.

(** ** Group-by and sort *)

(** The group keys of [groupby("Year")], which come sorted ([sort=True])
    and without repetition. *)
Fixpoint insert_key (k : string) (keys : list string) : list string :=
  match keys with
  | [] => [k]
  | k' :: keys' =>
      match k ?= k' with
      | Lt => k :: keys
      | Eq => keys
      | Gt => k' :: insert_key k keys'
      end
  end.

Definition group_keys (ks : list string) : list string :=
  fold_right insert_key [] ks.

(** [Series.sum()], as a sum of rationals: the sum that pandas returns as
    long as it stays within the range of the column's type ([int64_safe]
    below). *)
Definition Qsum (l : list Q) : Q := fold_left Qplus l 0%Q.

(** [groupby("Year", as_index=False)["Budget"].sum()] *)
Definition groupby_year_sum (rs : list record) : list (string * Q) :=
  map (fun k =>
         (k, Qsum (map Budget (filter (fun r => Year r =? k) rs))))
      (group_keys (map Year rs)).

(** [sort_values("Year")] on rows with a key.  Where the script sorts by
    year the keys of the rows are distinct, so that the ascending order is
    the same for every sorting algorithm ([sorted_permutation_unique]
    below); insertion is used here. *)
Section SortValues.
Context {A : Type} (key : A -> string).

Fixpoint insert_row (x : A) (l : list A) : list A :=
  match l with
  | [] => [x]
  | y :: l' => if key x <=? key y then x :: l else y :: insert_row x l'
  end.

Definition sort_values (l : list A) : list A := fold_right insert_row [] l.
End SortValues.

(** Lines 101-104 *)
Definition total_by_year (filtered : list record) : list (string * Q) :=
  sort_values fst (groupby_year_sum filtered).

(** ** Headline metrics (lines 108-111) *)

(** [s.iloc[0]] *)
Definition iloc0 {A : Type} (l : list A) : result A :=
  match l with
  | [] => Raise IndexError
  | x :: _ => Ok x
  end.

(** [total_by_year[total_by_year["Year"] == y]["Budget"]] *)
Definition budget_of_year (tby : list (string * Q)) (y : string) : list Q :=
  map snd (filter (fun p => fst p =? y) tby).

Record headline : Type := mkHeadline {
  total_budget_first : Q;
  total_budget_latest : Q;
  abs_change : Q;
  pct_change : Q
}.

Definition headline_metrics (tby : list (string * Q)) (selected : list string)
  : result headline :=
  latest_year <- py_max selected ;;
  latest <- iloc0 (budget_of_year tby latest_year) ;;
  first_year <- py_min selected ;;
  first <- iloc0 (budget_of_year tby first_year) ;;
  let abs_change := (latest - first)%Q in
  let pct_change :=
    if negb (Qeq_bool first 0) then (abs_change / first * 100)%Q else 0%Q in
  Ok (mkHeadline first latest abs_change pct_change).

(** The overview tab up to the headline metrics. *)
Definition overview (long_df : list record) (year_range : Z * Z)
  : result headline :=
  let filtered := filtered_long long_df year_range in
  headline_metrics (total_by_year filtered) (selected_years year_range).

(** ** [compute_growth] (lines 31-38) *)

(** A [float64]: a finite number or NaN. *)
Inductive float : Type :=
| Fin (q : Q)
| FNaN.

Definition fsub (x y : float) : float :=
  match x, y with
  | Fin a, Fin b => Fin (a - b)
  | _, _ => FNaN
  end.

Definition fmul (x y : float) : float :=
  match x, y with
  | Fin a, Fin b => Fin (a * b)
  | _, _ => FNaN
  end.

(** [x / y], used only where [y != 0] has been tested. *)
Definition fdiv (x y : float) : float :=
  match x, y with
  | Fin a, Fin b => Fin (a / b)
  | _, _ => FNaN
  end.

(** [x != 0]: true for NaN. *)
Definition fne0 (x : float) : bool :=
  match x with
  | Fin a => negb (Qeq_bool a 0)
  | FNaN => true
  end.

(** One element of [values.astype(float)]. *)
Definition astype_float (v : cell) : result float :=
  match v with
  | Num q => Ok (Fin q)
  | NaN => Ok FNaN
  | Txt _ => Raise ValueError
  end.

Fixpoint mapM {A B : Type} (f : A -> result B) (l : list A) : result (list B) :=
  match l with
  | [] => Ok []
  | x :: l' => y <- f x ;; ys <- mapM f l' ;; Ok (y :: ys)
  end.

(** A row taken out of a frame: labels with their values. *)
Definition Series : Type := list (string * cell).

(** [row[c]] *)
Fixpoint series_get (row : Series) (c : string) : result cell :=
  match row with
  | [] => Raise KeyError
  | (c', v) :: row' => if c' =? c then Ok v else series_get row' c
  end.

(** [values[0]] and [values[-1]] *)
Definition first_value {A : Type} (l : list A) : result A := iloc0 l.
Definition last_value {A : Type} (l : list A) : result A := iloc0 (rev l).

Record growth : Type := mkGrowth {
  g_start : float;
  g_end : float;
  g_absolute_change : float;
  g_pct_change : option float   (* [None] is Python's [None] *)
}.

Definition compute_growth (row : Series) (year_cols : list string)
  : result growth :=
  cells <- mapM (series_get row) year_cols ;;
  values <- mapM astype_float cells ;;
  start <- first_value values ;;
  end_ <- last_value values ;;
  let absolute_change := fsub end_ start in
  let pct_change :=
    if fne0 start
    then Some (fmul (fdiv absolute_change start) (Fin 100))
    else None in
  Ok (mkGrowth start end_ absolute_change pct_change).

(** ** The department tab (lines 169-189) *)

(** [a == b] on two values of a column: NaN equals nothing. *)
Definition cell_eqb (a b : cell) : bool :=
  match a, b with
  | Num p, Num q => Qeq_bool p q
  | Txt s, Txt t => s =? t
  | _, _ => false
  end.

(** [frame.set_index("Department").loc[dept]] on the rows [rows] of a frame
    with labels [cols]: without a row of that name [KeyError]; with one row
    the Series of its other columns; with several rows pandas gives a
    frame, on which [compute_growth] works with arrays: it cannot decide
    [start != 0] for two year columns or more ([ValueError]); with one year
    column the script fails two lines later, at the formatting of [start],
    and this failure too is given as the [ValueError] here. *)
Definition set_index_loc (cols : list string) (rows : list (list cell))
  (dept : cell) : result Series :=
  match filter (fun row => cell_eqb (at_label cols row "Department") dept) rows with
  | [] => Raise KeyError
  | [row] =>
      Ok (filter (fun p => negb (fst p =? "Department")) (combine cols row))
  | _ :: _ :: _ => Raise ValueError
  end.

(** The delta shown under "Latest Year Budget" (line 188). *)
Inductive delta : Type :=
| Formatted (abs_change pct_change : float)
| NA.                                       (* the text "N/A" *)

Definition growth_delta (g : growth) : delta :=
  match g_pct_change g with
  | Some p => Formatted (g_absolute_change g) p
  | None => NA
  end.

(** Lines 169-179: the records of the department in the selected years and
    its growth. *)
Definition tab_dept (df : DataFrame) (long_df : list record)
  (year_cols : list string) (year_range : Z * Z) (dept : cell)
  : result (list record * growth) :=
  let filtered := filtered_long long_df year_range in
  let dept_data_wide :=
    filter (fun row => cell_eqb (at_label (columns df) row "Department") dept)
           (data df) in
  let dept_long :=
    sort_values Year (filter (fun r => cell_eqb (Department r) dept) filtered) in
  row <- set_index_loc (columns df) dept_data_wide dept ;;
  g <- compute_growth row year_cols ;;
  Ok (dept_long, g).

(** ** Top departments of the latest year (lines 133-139) *)

(** The order of the group keys of [groupby("Department")].  A column read
    by [read_csv] holds numbers or texts, not both. *)
Definition cell_compare (a b : cell) : comparison :=
  match a, b with
  | Num p, Num q => (p ?= q)%Q
  | Num _, _ => Lt
  | _, Num _ => Gt
  | Txt s, Txt t => s ?= t
  | Txt _, NaN => Lt
  | NaN, Txt _ => Gt
  | NaN, NaN => Eq
  end.

Fixpoint insert_dept (d : cell) (keys : list cell) : list cell :=
  match keys with
  | [] => [d]
  | d' :: keys' =>
      match cell_compare d d' with
      | Lt => d :: keys
      | Eq => keys
      | Gt => d' :: insert_dept d keys'
      end
  end.

Definition isna (v : cell) : bool :=
  match v with
  | NaN => true
  | _ => false
  end.

(** The group keys: sorted, without repetition and without NaN
    ([dropna=True]). *)
Definition dept_keys (ds : list cell) : list cell :=
  fold_right insert_dept [] (filter (fun d => negb (isna d)) ds).

(** [groupby("Department", as_index=False)["Budget"].sum()] *)
Definition groupby_department_sum (rs : list record) : list (cell * Q) :=
  map (fun d =>
         (d, Qsum (map Budget (filter (fun r => cell_eqb (Department r) d) rs))))
      (dept_keys (map Department rs)).

(** Sorting by insertion, where [before x y] tells whether a row of budget
    [x] goes before a row of budget [y]. *)
Section InsertionByBudget.
Context (before : Q -> Q -> bool).

Fixpoint insert_budget (x : cell * Q) (l : list (cell * Q)) : list (cell * Q) :=
  match l with
  | [] => [x]
  | y :: l' => if before (snd x) (snd y) then x :: l else y :: insert_budget x l'
  end.

Definition insertion_sort_budget (l : list (cell * Q)) : list (cell * Q) :=
  fold_right insert_budget [] l.

End InsertionByBudget.

(** [sort_values("Budget", ascending=False)], called with the sort kind left
    at its default, "quicksort".  For the descending order pandas reverses
    the rows, sorts them in ascending order and reverses the result; numpy's
    quicksort (the generic routine, where no vectorised one takes over)
    sorts up to 16 rows by insertion, which leaves rows of equal budget in
    their order.  Together this is the insertion sort in descending order
    that keeps rows of equal budget in the order they had.  On more than 16
    rows numpy partitions them first; which order rows of equal budget then
    come in is not modelled. *)
Definition sort_values_descending : list (cell * Q) -> list (cell * Q) :=
  insertion_sort_budget (fun x y => Qle_bool y x).

(** Lines 133-139.  The sorting routine is the parameter [sort_by_budget]:
    the script runs [top5 sort_values_descending], and what holds of every
    routine that returns its rows in descending order of budget is stated
    of the parameter. *)
Definition top5 (sort_by_budget : list (cell * Q) -> list (cell * Q))
  (filtered : list record) (selected : list string)
  : result (list (cell * Q)) :=
  latest_year <- py_max selected ;;
  let latest_year_df := filter (fun r => Year r =? latest_year) filtered in
  Ok (firstn 5 (sort_by_budget (groupby_department_sum latest_year_df))).

(** Line 117: [filtered_long["Department"].nunique()], the number of
    distinct values of the column, NaN left out. *)
Definition nunique_departments (rs : list record) : nat :=
  List.length (dept_keys (map Department rs)).

(** * Notions used in the statements *)

(** The order in which Python and pandas compare two labels. *)
Definition label_lt (s t : string) : Prop := (s ?= t) = Lt.
Definition label_le (s t : string) : Prop := (s <=? t) = true.

(** The order of rows by their keys. *)
Section KeyOrder.
Context {A : Type} (key : A -> string).

Definition key_lt (x y : A) : Prop := label_lt (key x) (key y).

Definition key_le (x y : A) : Prop := label_le (key x) (key y).

End KeyOrder.

(** What [read_csv] guarantees of the parsed document, and what [melt] needs
    of it: the labels are distinct, no column but the first is labelled
    "Department", and every row has a cell per column. *)
Definition well_formed (doc : DataFrame) : Prop :=
  NoDup (columns doc) /\
  ~ In "Department" (tl (columns doc)) /\
  Forall (fun row => List.length row = List.length (columns doc)) (data doc).

(** The record of one cell of the table, when its value is a number. *)
Definition cell_record (cols : list string) (row : list cell) (c : string)
  : list record :=
  match to_numeric (at_label cols row c) with
  | Some q => [mkRecord (hd NaN row) c q]
  | None => []
  end.

Definition long_records (doc : DataFrame) : list record :=
  flat_map (fun c => flat_map (fun row => cell_record (columns doc) row c) (data doc))
           (tl (columns doc)).

(** The cell in row [i] and column [j] of the document. *)
Definition cell_at (doc : DataFrame) (i j : nat) : cell :=
  nth j (nth i (data doc) []) NaN.

(** The record that the cell in row [i] and column [j] contributes. *)
Definition record_at (doc : DataFrame) (i j : nat) : list record :=
  match cell_at doc i j with
  | Num q => [mkRecord (cell_at doc i 0) (nth j (columns doc) "") q]
  | Txt _ => []
  | NaN => []
  end.

(** Column after column, and in each column row after row. *)
Definition records_by_cell (doc : DataFrame) : list record :=
  flat_map
    (fun j => flat_map (fun i => record_at doc i j) (seq 0 (List.length (data doc))))
    (seq 1 (List.length (columns doc) - 1)).

(** The document with the cell in row [i] and column [j] replaced. *)
Fixpoint set_nth {A : Type} (n : nat) (x : A) (l : list A) : list A :=
  match l, n with
  | [], _ => []
  | _ :: l', O => x :: l'
  | y :: l', S n' => y :: set_nth n' x l'
  end.

Definition set_cell (doc : DataFrame) (i j : nat) (v : cell) : DataFrame :=
  {| columns := columns doc;
     data := set_nth i (set_nth j v (nth i (data doc) [])) (data doc) |}.

(** The (department, year) pair of a record. *)
Definition key (r : record) : cell * string := (Department r, Year r).

(** The names in the first column. *)
Definition departments (doc : DataFrame) : list cell :=
  map (hd NaN) (data doc).

(** Whether the integer that a label denotes lies in [[a, b]]. *)
Definition year_in_range (a b : Z) (label : string) : bool :=
  match py_int label with
  | Ok y => ((a <=? y)%Z && (y <=? b)%Z)%bool
  | Raise _ => false
  end.

(** Texts of decimal digits. *)
Definition is_digit (c : ascii) : bool :=
  let n := nat_of_ascii c in ((48 <=? n) && (n <=? 57))%nat%bool.

Fixpoint digits_only (s : string) : bool :=
  match s with
  | String c s' => is_digit c && digits_only s'
  | EmptyString => true
  end.

(** The number a sequence of decimal digits denotes, most significant digit
    first, after the digits already read ([acc]). *)
Fixpoint uint_value (d : Decimal.uint) (acc : N) : N :=
  match d with
  | Decimal.Nil => acc
  | Decimal.D0 l => uint_value l (10 * acc)
  | Decimal.D1 l => uint_value l (10 * acc + 1)
  | Decimal.D2 l => uint_value l (10 * acc + 2)
  | Decimal.D3 l => uint_value l (10 * acc + 3)
  | Decimal.D4 l => uint_value l (10 * acc + 4)
  | Decimal.D5 l => uint_value l (10 * acc + 5)
  | Decimal.D6 l => uint_value l (10 * acc + 6)
  | Decimal.D7 l => uint_value l (10 * acc + 7)
  | Decimal.D8 l => uint_value l (10 * acc + 8)
  | Decimal.D9 l => uint_value l (10 * acc + 9)
  end.

Fixpoint pow10 (n : nat) : N :=
  match n with
  | O => 1
  | S n' => 10 * pow10 n'
  end.

(** The float that [astype(float)] makes of a cell that holds no text. *)
Definition float_of (v : cell) : float :=
  match v with
  | Num q => Fin q
  | _ => FNaN
  end.

(** The growth of the department in row [i] over all the year columns of
    the document. *)
Definition full_range_growth (doc : DataFrame) (i : nat) : growth :=
  let start := float_of (cell_at doc i 1) in
  let end_ := float_of (cell_at doc i (List.length (columns doc) - 1)) in
  let absolute_change := fsub end_ start in
  mkGrowth start end_ absolute_change
    (if fne0 start
     then Some (fmul (fdiv absolute_change start) (Fin 100))
     else None).

(** Years whose numerals all have the same number of digits. *)
Definition same_length_years (ys : list Z) : Prop :=
  (forall y, In y ys -> (0 <= y)%Z) /\
  (forall y y', In y ys -> In y' ys ->
                String.length (py_str y) = String.length (py_str y')).

(** The order of two labels by the integers they denote. *)
Definition year_lt (s t : string) : Prop :=
  exists y y', py_int s = Ok y /\ py_int t = Ok y' /\ (y < y')%Z.

(** The order of two labels by the integers they denote, equal years
    allowed. *)
Definition year_le (s t : string) : Prop :=
  exists y y', py_int s = Ok y /\ py_int t = Ok y' /\ (y <= y')%Z.

(** Whether a label is the numeral [str(y)] of a year it denotes in
    [[a, b]]. *)
Definition numeral_in_range (a b : Z) (label : string) : bool :=
  match py_int label with
  | Ok y => ((a <=? y)%Z && (y <=? b)%Z && (py_str y =? label))%bool
  | Raise _ => false
  end.

(** Record sets whose sums the model gives as [Series.sum] does.  A Budget
    column read from integers only is an [int64] column, whose sums and
    differences wrap around at 2^63; with budgets that are not negative and
    whose sum over all the records is below 2^63, no sum over some of the
    records and no difference of two such sums wraps. *)
Definition int64_safe (rs : list record) : Prop :=
  (forall r, In r rs -> (0 <= Budget r)%Q) /\
  (Qsum (map Budget rs) < inject_Z (2 ^ 63))%Q.

(** Departments A and B with budgets 100, 200 and 50, 150 in 2014, 2015. *)
Definition example_doc : DataFrame :=
  mkFrame ["Dept"; "2014"; "2015"]
          [[Txt "A"; Num 100; Num 200]; [Txt "B"; Num 50; Num 150]].

(** A department without a budget in the first year. *)
Definition doc_missing_first_year : DataFrame :=
  mkFrame ["Department"; "2014"; "2015"] [[Txt "A"; NaN; Num 200]].

(** A department with a text in a year cell. *)
Definition doc_text_cell : DataFrame :=
  mkFrame ["Department"; "2014"; "2015"]
          [[Txt "A"; Txt "TBD"; Num 200]; [Txt "B"; Num 10; Num 20]].

(** A document with the department column only. *)
Definition one_column_doc : DataFrame :=
  mkFrame ["Department"] [[Txt "A"]; [Txt "B"]].

(** A department that starts at 0 and ends at 100, and a year without
    budget followed by a year with one. *)
Definition zero_start_doc : DataFrame :=
  mkFrame ["Department"; "2014"; "2015"]
          [[Txt "A"; Num 0; Num 100]; [Txt "B"; Num 0; Num 50]].

(** A header line written with a blank after the comma:
    [Department, 2014,2015] gives the labels " 2014" and "2015". *)
Definition blank_header_doc : DataFrame :=
  mkFrame ["Department"; " 2014"; "2015"] [[Txt "A"; Num 100; Num 200]].

(** Years of three and of four digits. *)
Definition years_999_1000_doc : DataFrame :=
  mkFrame ["Department"; "999"; "1000"] [[Txt "A"; Num 1; Num 2]].

(** A document whose second column is labelled "Department". *)
Definition second_department_doc : DataFrame :=
  mkFrame ["Name"; "Department"; "2014"] [[Txt "A"; Txt "X"; Num 1]].

(** A document whose year cells hold no number. *)
Definition no_number_doc : DataFrame :=
  mkFrame ["Department"; "2014"; "2015"] [[Txt "A"; Txt "n/a"; NaN]].

(** Years 2014 to 2016 in three columns. *)
Definition three_year_doc : DataFrame :=
  mkFrame ["Department"; "2014"; "2015"; "2016"]
          [[Txt "A"; Num 1; Num 2; Num 3]].

(** Rows in descending order of budget. *)
Definition descending (l : list (cell * Q)) : Prop :=
  StronglySorted (fun x y => (snd y <= snd x)%Q) l.

(** What [sort_values("Budget", ascending=False)] promises whatever the sort
    kind: the same rows, in descending order of budget. *)
Definition sorts_descending (sort : list (cell * Q) -> list (cell * Q)) : Prop :=
  (forall l, Permutation l (sort l)) /\ (forall l, descending (sort l)).

(** A sort in descending order of budget that keeps rows of equal budget
    in their order. *)
Definition sort_ties_kept : list (cell * Q) -> list (cell * Q) :=
  insertion_sort_budget (fun x y => Qle_bool y x).

(** Departments A and B with the same budget in 2015. *)
Definition tied_records : list record :=
  [mkRecord (Txt "A") "2015" 5; mkRecord (Txt "B") "2015" 5].


(** The order of the rows of a group-by on the departments. *)
Definition cell_lt (a b : cell) : Prop := cell_compare a b = Lt.


(** * Properties *)

(** ** Labels and positions *)

Lemma get_loc_some (cols : list string) (c : string) (i : nat) :
  get_loc cols c = Some i -> (i < List.length cols)%nat /\ nth i cols "" = c.
Proof.
  revert i; induction cols as [|c' cols IH]; intros i; simpl; [discriminate|].
  destruct (String.eqb_spec c' c) as [->|Hne].
  - intros [= <-]. split; [lia | reflexivity].
  - destruct (get_loc cols c) as [k|]; simpl; [|discriminate].
    intros [= <-]. destruct (IH k eq_refl). split; [lia | assumption].
Qed.

Lemma get_loc_nth (cols : list string) (j : nat) :
  NoDup cols -> (j < List.length cols)%nat -> get_loc cols (nth j cols "") = Some j.
Proof.
  intros Hnd; revert j; induction Hnd as [|c cols Hnotin Hnd IH]; intros j Hj;
    simpl in *; [lia|].
  destruct j as [|j].
  - now rewrite String.eqb_refl.
  - destruct (String.eqb_spec c (nth j cols "")) as [->|Hne].
    + exfalso. apply Hnotin, nth_In. lia.
    + rewrite IH by lia. reflexivity.
Qed.

Lemma at_label_head (c0 : string) (cols : list string) (row : list cell) :
  at_label (c0 :: cols) row c0 = hd NaN row.
Proof.
  unfold at_label; simpl. rewrite String.eqb_refl. now destruct row.
Qed.

Lemma at_label_tail (a b c : string) (cols : list string) (row : list cell) :
  c <> a -> c <> b -> at_label (a :: cols) row c = at_label (b :: cols) row c.
Proof.
  intros Ha Hb. unfold at_label; simpl.
  destruct (String.eqb_spec a c); [congruence|].
  destruct (String.eqb_spec b c); [congruence|]. reflexivity.
Qed.

(** ** The frame and the records that [load_data] returns *)

Lemma rename_first (c0 new : string) (cols : list string) :
  ~ In c0 cols ->
  map (fun c => if c =? c0 then new else c) (c0 :: cols) = new :: cols.
Proof.
  intros Hnotin; simpl. rewrite String.eqb_refl. f_equal.
  induction cols as [|c cols IH]; simpl; [reflexivity|].
  destruct (String.eqb_spec c c0) as [->|_].
  - exfalso; apply Hnotin; now left.
  - f_equal. apply IH. intros H; apply Hnotin; now right.
Qed.

Lemma year_columns_tail (cols : list string) :
  ~ In "Department" cols ->
  filter (fun c => negb (c =? "Department")) ("Department" :: cols) = cols.
Proof.
  intros Hnotin; simpl.
  induction cols as [|c cols IH]; simpl; [reflexivity|].
  destruct (String.eqb_spec c "Department") as [->|_]; simpl.
  - exfalso; apply Hnotin; now left.
  - f_equal. apply IH. intros H; apply Hnotin; now right.
Qed.

Lemma dropna_flat_map {A : Type} (f : A -> list (cell * string * cell)) (l : list A) :
  dropna_budget (to_numeric_budget (flat_map f l)) =
  flat_map (fun x => dropna_budget (to_numeric_budget (f x))) l.
Proof.
  unfold dropna_budget, to_numeric_budget.
  induction l as [|x l IH]; simpl; [reflexivity|].
  rewrite map_app, flat_map_app, IH. reflexivity.
Qed.

Lemma flat_map_ext_In {A B : Type} (f g : A -> list B) (l : list A) :
  (forall x, In x l -> f x = g x) -> flat_map f l = flat_map g l.
Proof.
  induction l as [|x l IH]; intros H; simpl; [reflexivity|].
  rewrite (H x (or_introl eq_refl)), IH; [reflexivity|].
  intros y Hy; apply H; now right.
Qed.

Lemma load_data_loads (doc : DataFrame) (c0 : string) (cols : list string) :
  columns doc = c0 :: cols -> ~ In c0 cols -> ~ In "Department" cols ->
  load_data doc =
  Ok ({| columns := "Department" :: cols; data := data doc |},
      long_records doc, cols).
Proof.
  intros Hcols Hnotin Hdep.
  unfold load_data, read_csv, first_column, long_records, bind.
  destruct doc as [cols' rows]; cbn [columns data] in *. subst cols'.
  cbv beta iota. unfold rename, year_columns; cbn [columns data tl].
  rewrite (rename_first c0 "Department" cols Hnotin).
  rewrite (year_columns_tail cols Hdep).
  unfold melt; cbn [columns data count_occ].
  destruct (string_dec "Department" "Department") as [_|Hne]; [|congruence].
  rewrite (proj1 (count_occ_not_In string_dec cols "Department") Hdep).
  f_equal. f_equal. f_equal.
  rewrite dropna_flat_map.
  apply flat_map_ext_In. intros c Hc.
  assert (Hc0 : c <> c0) by (intros ->; contradiction).
  assert (HcD : c <> "Department") by (intros ->; contradiction).
  induction rows as [|row rows IH]; [reflexivity|].
  cbn [map flat_map to_numeric_budget dropna_budget app] in *.
  unfold to_numeric_budget, dropna_budget in IH. rewrite IH. f_equal.
  unfold cell_record. rewrite at_label_head.
  rewrite (at_label_tail "Department" c0 c cols row HcD Hc0).
  destruct (to_numeric (at_label (c0 :: cols) row c)); reflexivity.
Qed.

Lemma load_data_ambiguous (doc : DataFrame) (c0 : string) (cols : list string) :
  columns doc = c0 :: cols -> In c0 cols \/ In "Department" cols ->
  load_data doc = Raise ValueError.
Proof.
  intros Hcols Hin. unfold load_data, read_csv, first_column, bind.
  destruct doc as [cols' rows]; cbn [columns data] in *. subst cols'.
  cbv beta iota. unfold rename, melt; cbn [columns data map count_occ].
  rewrite String.eqb_refl.
  destruct (string_dec "Department" "Department") as [_|Hne]; [|congruence].
  assert (Hd : In "Department"
                 (map (fun c => if c =? c0 then "Department" else c) cols)).
  { apply in_map_iff. destruct Hin as [H|H].
    - exists c0. now rewrite String.eqb_refl.
    - exists "Department". split; [|assumption].
      now destruct ("Department" =? c0). }
  apply (count_occ_In string_dec) in Hd.
  destruct (count_occ string_dec _ "Department") as [|n]; [lia|]. reflexivity.
Qed.

Lemma load_data_eq (doc : DataFrame) :
  well_formed doc -> columns doc <> [] ->
  load_data doc =
  Ok ({| columns := "Department" :: tl (columns doc); data := data doc |},
      long_records doc, tl (columns doc)).
Proof.
  intros (Hnd & Hdep & _) Hne.
  destruct (columns doc) as [|c0 cols] eqn:Hcols; [congruence|].
  cbn [tl] in *. inversion Hnd; subst.
  now apply (load_data_loads doc c0 cols).
Qed.

(** ** The records, cell by cell *)

Lemma map_nth_seq {A : Type} (l : list A) (d : A) :
  map (fun i => nth i l d) (seq 0 (List.length l)) = l.
Proof.
  induction l as [|x l IH]; simpl; [reflexivity|].
  f_equal. rewrite <- seq_shift, map_map. exact IH.
Qed.

Lemma tl_nth_seq (cols : list string) :
  tl cols = map (fun j => nth j cols "") (seq 1 (List.length cols - 1)).
Proof.
  destruct cols as [|c0 cols]; simpl; [reflexivity|].
  rewrite Nat.sub_0_r, <- seq_shift, map_map. simpl.
  symmetry. apply map_nth_seq.
Qed.

Lemma flat_map_map {A B C : Type} (f : A -> B) (g : B -> list C) (l : list A) :
  flat_map g (map f l) = flat_map (fun x => g (f x)) l.
Proof.
  induction l as [|x l IH]; simpl; [reflexivity | now rewrite IH].
Qed.

Lemma long_records_by_cell (doc : DataFrame) :
  well_formed doc -> long_records doc = records_by_cell doc.
Proof.
  intros (Hnd & _ & _). unfold long_records, records_by_cell.
  rewrite tl_nth_seq, flat_map_map.
  apply flat_map_ext_In. intros j Hj. apply in_seq in Hj.
  rewrite <- (map_nth_seq (data doc) []) at 1. rewrite flat_map_map.
  apply flat_map_ext_In. intros i _.
  unfold cell_record, record_at, cell_at, at_label.
  rewrite get_loc_nth by (assumption || lia).
  destruct (nth i (data doc) []) as [|d row]; cbn [hd]; [now destruct j|].
  now destruct (nth j (d :: row) NaN).
Qed.

Lemma in_records_by_cell (doc : DataFrame) (r : record) :
  In r (records_by_cell doc) <->
  exists i j q,
    (i < List.length (data doc))%nat /\
    (1 <= j < List.length (columns doc))%nat /\
    cell_at doc i j = Num q /\
    r = mkRecord (cell_at doc i 0) (nth j (columns doc) "") q.
Proof.
  unfold records_by_cell. rewrite in_flat_map. split.
  - intros (j & Hj & Hr). apply in_flat_map in Hr. destruct Hr as (i & Hi & Hr).
    apply in_seq in Hj. apply in_seq in Hi. unfold record_at in Hr.
    destruct (cell_at doc i j) as [q| |] eqn:Hq; try contradiction.
    destruct Hr as [<-|[]]. exists i, j, q. repeat split; trivial; lia.
  - intros (i & j & q & Hi & Hj & Hq & ->). exists j. split.
    + apply in_seq. lia.
    + apply in_flat_map. exists i. split; [apply in_seq; lia|].
      unfold record_at. rewrite Hq. now left.
Qed.

Lemma length_flat_map_const {A B : Type} (f : A -> list B) (l : list A) (n : nat) :
  (forall x, In x l -> List.length (f x) = n) ->
  List.length (flat_map f l) = (List.length l * n)%nat.
Proof.
  induction l as [|x l IH]; intros H; simpl; [reflexivity|].
  rewrite length_app, IH, (H x); [lia | now left | intros; apply H; now right].
Qed.

Lemma length_records_all_numeric (doc : DataFrame) :
  (forall i j, (i < List.length (data doc))%nat ->
               (1 <= j < List.length (columns doc))%nat ->
               exists q, cell_at doc i j = Num q) ->
  List.length (records_by_cell doc) =
  (List.length (data doc) * (List.length (columns doc) - 1))%nat.
Proof.
  intros Hnum. unfold records_by_cell.
  rewrite (length_flat_map_const _ _ (List.length (data doc))).
  - rewrite length_seq. lia.
  - intros j Hj. apply in_seq in Hj.
    rewrite (length_flat_map_const _ _ 1%nat).
    + rewrite length_seq. lia.
    + intros i Hi. apply in_seq in Hi. unfold record_at.
      destruct (Hnum i j ltac:(lia) ltac:(lia)) as [q ->]. reflexivity.
Qed.

Lemma in_keys_column (doc : DataFrame) (j : nat) (rows : list nat) (k : cell * string) :
  In k (map key (flat_map (fun i => record_at doc i j) rows)) ->
  exists i, In i rows /\ k = (cell_at doc i 0, nth j (columns doc) "").
Proof.
  rewrite in_map_iff. intros (r & <- & Hr). apply in_flat_map in Hr.
  destruct Hr as (i & Hi & Hr). exists i. split; [assumption|].
  unfold record_at in Hr. destruct (cell_at doc i j); try contradiction.
  now destruct Hr as [<-|[]].
Qed.

Lemma departments_nth (doc : DataFrame) (i : nat) :
  nth i (departments doc) NaN = cell_at doc i 0.
Proof.
  unfold departments, cell_at.
  transitivity (hd NaN (nth i (data doc) [])).
  - exact (map_nth (hd NaN) (data doc) [] i).
  - now destruct (nth i (data doc) []).
Qed.

Lemma NoDup_keys_column (doc : DataFrame) (j : nat) (rows : list nat) :
  NoDup (departments doc) -> NoDup rows ->
  (forall i, In i rows -> (i < List.length (data doc))%nat) ->
  NoDup (map key (flat_map (fun i => record_at doc i j) rows)).
Proof.
  intros Hdep Hnd Hlt. induction Hnd as [|i rows Hnotin Hnd IH]; simpl; [constructor|].
  rewrite map_app. apply NoDup_app.
  - unfold record_at. destruct (cell_at doc i j); simpl;
      repeat constructor; simpl; tauto.
  - apply IH. intros; apply Hlt; now right.
  - intros k Hk Hk'. apply in_keys_column in Hk'. destruct Hk' as (i' & Hi' & ->).
    unfold record_at in Hk. destruct (cell_at doc i j); try contradiction.
    destruct Hk as [Hk|[]]. unfold key in Hk. simpl in Hk. injection Hk as Hk.
    rewrite <- !departments_nth in Hk.
    assert (i = i'); [|subst; contradiction].
    apply (proj1 (NoDup_nth (departments doc) NaN) Hdep);
      unfold departments; rewrite ?length_map; auto.
    + apply Hlt; now left.
    + apply Hlt; now right.
Qed.

Lemma NoDup_keys_records (doc : DataFrame) :
  NoDup (columns doc) -> NoDup (departments doc) ->
  NoDup (map key (records_by_cell doc)).
Proof.
  intros Hcols Hdep. unfold records_by_cell.
  assert (Hlt : forall j, In j (seq 1 (List.length (columns doc) - 1)) ->
                          (j < List.length (columns doc))%nat)
    by (intros j Hj; apply in_seq in Hj; lia).
  assert (Hnd := seq_NoDup (List.length (columns doc) - 1) 1).
  induction Hnd as [|j cols' Hnotin Hnd IH]; simpl; [constructor|].
  rewrite map_app. apply NoDup_app.
  - apply NoDup_keys_column; [assumption | apply seq_NoDup|].
    intros i Hi. apply in_seq in Hi. lia.
  - apply IH. intros; apply Hlt; now right.
  - intros k Hk Hk'. apply in_keys_column in Hk. destruct Hk as (i & _ & ->).
    apply in_map_iff in Hk'. destruct Hk' as (r & Hkey & Hr).
    apply in_flat_map in Hr. destruct Hr as (j' & Hj' & Hr).
    assert (Hk : In (key r) (map key (flat_map (fun i => record_at doc i j')
                                        (seq 0 (List.length (data doc))))))
      by now apply in_map.
    apply in_keys_column in Hk. destruct Hk as (i' & _ & Hk).
    rewrite Hkey in Hk. injection Hk as _ Hk.
    assert (j = j'); [|subst; contradiction].
    apply (proj1 (NoDup_nth (columns doc) "") Hcols); auto.
    + apply Hlt; now left.
    + apply Hlt; now right.
Qed.

(** *** Replacing one cell *)

Lemma length_set_nth {A : Type} (n : nat) (x : A) (l : list A) :
  List.length (set_nth n x l) = List.length l.
Proof.
  revert n; induction l as [|y l IH]; intros [|n]; simpl; auto.
Qed.

Lemma nth_set_nth {A : Type} (n k : nat) (x d : A) (l : list A) :
  (n < List.length l)%nat ->
  nth k (set_nth n x l) d = if Nat.eqb k n then x else nth k l d.
Proof.
  revert n k; induction l as [|y l IH]; intros n k Hn; simpl in Hn; [lia|].
  destruct n as [|n], k as [|k]; simpl; trivial. apply IH. lia.
Qed.

Lemma cell_at_set_cell (doc : DataFrame) (i j i' j' : nat) (v : cell) :
  (i < List.length (data doc))%nat ->
  (j < List.length (nth i (data doc) []))%nat ->
  cell_at (set_cell doc i j v) i' j' =
  if (Nat.eqb i' i && Nat.eqb j' j)%bool then v else cell_at doc i' j'.
Proof.
  intros Hi Hj. unfold cell_at, set_cell; cbn [data].
  rewrite nth_set_nth by assumption.
  destruct (Nat.eqb_spec i' i) as [->|_]; simpl; [|reflexivity].
  now rewrite nth_set_nth by assumption.
Qed.

Lemma well_formed_set_cell (doc : DataFrame) (i j : nat) (v : cell) :
  well_formed doc -> well_formed (set_cell doc i j v).
Proof.
  intros (Hnd & Hdep & Hlen). repeat split; trivial. cbn [set_cell columns data].
  rewrite Forall_forall in *. intros row Hrow.
  destruct (In_nth _ _ [] Hrow) as (k & Hk & <-).
  rewrite length_set_nth in Hk.
  destruct (Nat.lt_ge_cases i (List.length (data doc))) as [Hi|Hi].
  - rewrite nth_set_nth by assumption. destruct (Nat.eqb k i).
    + rewrite length_set_nth. apply Hlen, nth_In, Hi.
    + apply Hlen, nth_In, Hk.
  - clear Hrow. revert i k Hi Hk. induction (data doc) as [|y l IH]; intros i k Hi Hk;
      simpl in *; [lia|].
    destruct i as [|i]; [lia|]. destruct k as [|k]; simpl.
    + apply Hlen; now left.
    + apply IH; try lia. intros; apply Hlen; now right.
Qed.

Lemma record_at_set_cell (doc : DataFrame) (i j i' j' : nat) (v : cell) :
  (i < List.length (data doc))%nat ->
  (1 <= j < List.length (nth i (data doc) []))%nat ->
  (forall q, v <> Num q) ->
  record_at (set_cell doc i j v) i' j' =
  if (Nat.eqb i' i && Nat.eqb j' j)%bool then [] else record_at doc i' j'.
Proof.
  intros Hi Hj Hv. unfold record_at.
  rewrite !cell_at_set_cell by (assumption || lia).
  replace (Nat.eqb 0 j) with false by (symmetry; apply Nat.eqb_neq; lia).
  rewrite andb_false_r. cbn [set_cell columns].
  destruct (Nat.eqb i' i && Nat.eqb j' j)%bool; [|reflexivity].
  destruct v as [q| |]; [now destruct (Hv q) | reflexivity | reflexivity].
Qed.

Lemma length_flat_map_one_less {A : Type} (f f' : nat -> list A) (n : nat) (l : list nat) :
  NoDup l -> In n l ->
  (forall k, k <> n -> List.length (f' k) = List.length (f k)) ->
  (List.length (f' n) + 1 = List.length (f n))%nat ->
  (List.length (flat_map f' l) + 1 = List.length (flat_map f l))%nat.
Proof.
  intros Hnd Hin Hsame Hless.
  induction Hnd as [|k l Hnotin Hnd IH]; simpl; [contradiction|].
  rewrite !length_app. destruct Hin as [->|Hin].
  - assert (List.length (flat_map f' l) = List.length (flat_map f l)); [|lia].
    rewrite !length_flat_map. f_equal. apply map_ext_in.
    intros k Hk. apply Hsame. intros ->. contradiction.
  - specialize (IH Hin). rewrite (Hsame k); [lia|]. intros ->. contradiction.
Qed.

Lemma length_records_set_cell (doc : DataFrame) (i j : nat) (q : Q) (v : cell) :
  (i < List.length (data doc))%nat ->
  (1 <= j < List.length (columns doc))%nat ->
  cell_at doc i j = Num q ->
  (forall q', v <> Num q') ->
  (List.length (records_by_cell (set_cell doc i j v)) + 1 =
   List.length (records_by_cell doc))%nat.
Proof.
  intros Hi Hj Hq Hv.
  assert (Hj' : (1 <= j < List.length (nth i (data doc) []))%nat).
  { split; [lia|]. destruct (Nat.lt_ge_cases j (List.length (nth i (data doc) [])))
      as [H|H]; [assumption|].
    unfold cell_at in Hq. rewrite nth_overflow in Hq by assumption. discriminate. }
  unfold records_by_cell. cbn [set_cell columns data]. rewrite length_set_nth.
  apply (length_flat_map_one_less _ _ j).
  - apply seq_NoDup.
  - apply in_seq. lia.
  - intros k Hk. f_equal. apply flat_map_ext_In. intros i' _.
    rewrite record_at_set_cell by assumption.
    replace (Nat.eqb k j) with false by (symmetry; now apply Nat.eqb_neq).
    now rewrite andb_false_r.
  - apply (length_flat_map_one_less _ _ i).
    + apply seq_NoDup.
    + apply in_seq. lia.
    + intros k Hk. rewrite record_at_set_cell by assumption.
      replace (Nat.eqb k i) with false by (symmetry; now apply Nat.eqb_neq).
      reflexivity.
    + rewrite record_at_set_cell by assumption. rewrite !Nat.eqb_refl. simpl.
      unfold record_at. now rewrite Hq.
Qed.

Lemma in_records_set_cell (doc : DataFrame) (i j : nat) (q : Q) (v : cell) (r : record) :
  NoDup (columns doc) -> NoDup (departments doc) ->
  (i < List.length (data doc))%nat ->
  (1 <= j < List.length (columns doc))%nat ->
  cell_at doc i j = Num q ->
  (forall q', v <> Num q') ->
  In r (records_by_cell (set_cell doc i j v)) <->
  In r (records_by_cell doc) /\
  ~ (Department r = cell_at doc i 0 /\ Year r = nth j (columns doc) "").
Proof.
  intros Hcols Hdep Hi Hj Hq Hv.
  assert (Hj' : (1 <= j < List.length (nth i (data doc) []))%nat).
  { split; [lia|]. destruct (Nat.lt_ge_cases j (List.length (nth i (data doc) [])))
      as [H|H]; [assumption|].
    unfold cell_at in Hq. rewrite nth_overflow in Hq by assumption. discriminate. }
  assert (Hrec : forall i' j', In r (record_at (set_cell doc i j v) i' j') <->
                   In r (record_at doc i' j') /\ ~ (i' = i /\ j' = j)).
  { intros i' j'. rewrite record_at_set_cell by assumption.
    destruct (Nat.eqb_spec i' i), (Nat.eqb_spec j' j); simpl; tauto. }
  assert (Hkey : forall i' j', (i' < List.length (data doc))%nat ->
                   (j' < List.length (columns doc))%nat ->
                   In r (record_at doc i' j') ->
                   (Department r = cell_at doc i 0 /\ Year r = nth j (columns doc) "" <->
                    i' = i /\ j' = j)).
  { intros i' j' Hi' Hj'' Hr. unfold record_at in Hr.
    destruct (cell_at doc i' j'); try contradiction.
    destruct Hr as [<-|[]]. simpl. split.
    - intros [Hd Hy]. split.
      + rewrite <- !departments_nth in Hd.
        apply (proj1 (NoDup_nth (departments doc) NaN) Hdep);
          unfold departments; rewrite ?length_map; auto.
      + apply (proj1 (NoDup_nth (columns doc) "") Hcols); auto; lia.
    - now intros [-> ->]. }
  unfold records_by_cell. cbn [set_cell columns data]. rewrite length_set_nth.
  rewrite !in_flat_map. split.
  - intros (j' & Hjs & Hr). apply in_flat_map in Hr. destruct Hr as (i' & His & Hr).
    apply Hrec in Hr. destruct Hr as [Hr Hne].
    pose proof (proj1 (in_seq _ _ _) Hjs). pose proof (proj1 (in_seq _ _ _) His).
    split.
    + exists j'. split; [assumption|]. apply in_flat_map. now exists i'.
    + rewrite (Hkey i' j') by (assumption || lia). assumption.
  - intros [(j' & Hjs & Hr) Hne]. apply in_flat_map in Hr. destruct Hr as (i' & His & Hr).
    pose proof (proj1 (in_seq _ _ _) Hjs). pose proof (proj1 (in_seq _ _ _) His).
    exists j'. split; [assumption|]. apply in_flat_map. exists i'. split; [assumption|].
    apply Hrec. split; [assumption|].
    rewrite <- (Hkey i' j') by (assumption || lia). assumption.
Qed.

(** ** Year labels and the year-range filter *)

Lemma digits_only_string_of_uint (u : Decimal.uint) :
  digits_only (NilEmpty.string_of_uint u) = true.
Proof. induction u; simpl; auto. Qed.

Lemma is_digit_plain (c : ascii) :
  is_digit c = true ->
  is_space c = false /\ (c =? "_")%char = false /\
  (c =? "-")%char = false /\ (c =? "+")%char = false.
Proof.
  destruct c as [[] [] [] [] [] [] [] []]; cbv; intros H; try discriminate H; auto.
Qed.

Lemma lstrip_digits (s : string) : digits_only s = true -> lstrip s = s.
Proof.
  destruct s as [|c s]; [reflexivity|]. cbn [digits_only lstrip].
  intros H. apply andb_true_iff in H. destruct H as [H _].
  apply is_digit_plain in H. destruct H as [-> _]. reflexivity.
Qed.

Lemma rstrip_digits (s : string) : digits_only s = true -> rstrip s = s.
Proof.
  induction s as [|c s IH]; [reflexivity|]. cbn [digits_only rstrip].
  intros H. apply andb_true_iff in H. destruct H as [Hc Hs].
  rewrite (IH Hs). apply is_digit_plain in Hc. destruct Hc as [-> _].
  now destruct s.
Qed.

Lemma drop_underscores_digits (s : string) (b : bool) :
  digits_only s = true -> s <> "" -> drop_underscores s b = Some s.
Proof.
  revert b. induction s as [|c s IH]; intros b H Hne; [congruence|].
  cbn [digits_only] in H. apply andb_true_iff in H. destruct H as [Hc Hs].
  cbn [drop_underscores]. destruct (is_digit_plain c Hc) as (_ & -> & _).
  destruct s as [|c' s']; [reflexivity|].
  rewrite (IH true Hs) by discriminate. reflexivity.
Qed.

Lemma py_int_digits (u : Decimal.uint) :
  u <> Decimal.Nil ->
  py_int (NilEmpty.string_of_uint u) = Ok (Z.of_uint u) /\
  py_int (String "-" (NilEmpty.string_of_uint u)) = Ok (- Z.of_uint u)%Z.
Proof.
  intros Hu. pose proof (digits_only_string_of_uint u) as Hd.
  assert (Hne : NilEmpty.string_of_uint u <> "") by (destruct u; simpl; congruence).
  unfold py_int, strip. split.
  - rewrite (lstrip_digits _ Hd), (rstrip_digits _ Hd).
    destruct (NilEmpty.string_of_uint u) as [|c t] eqn:E; [congruence|].
    assert (Hc : is_digit c = true)
      by (cbn [digits_only] in Hd; now apply andb_true_iff in Hd).
    destruct (is_digit_plain c Hc) as (_ & _ & -> & ->).
    rewrite (drop_underscores_digits _ false Hd) by discriminate.
    rewrite <- E, NilEmpty.usu. reflexivity.
  - cbn [lstrip]. replace (is_space "-") with false by reflexivity.
    cbn [rstrip]. rewrite (rstrip_digits _ Hd).
    destruct (NilEmpty.string_of_uint u) as [|c t] eqn:E; [congruence|].
    replace (is_space "-") with false by reflexivity.
    replace ("-" =? "-")%char with true by reflexivity.
    rewrite (drop_underscores_digits _ false Hd) by discriminate.
    rewrite <- E, NilEmpty.usu. reflexivity.
Qed.

Lemma py_int_str (y : Z) : py_int (py_str y) = Ok y.
Proof.
  unfold py_str. destruct y as [|p|p].
  - reflexivity.
  - cbn [Z.to_int NilZero.string_of_int].
    pose proof (DecimalPos.Unsigned.to_uint_nonnil p) as Hp.
    assert (E : NilZero.string_of_uint (Pos.to_uint p) = NilEmpty.string_of_uint (Pos.to_uint p))
      by (destruct (Pos.to_uint p); try reflexivity; congruence).
    rewrite E, (proj1 (py_int_digits (Pos.to_uint p) Hp)).
    f_equal; unfold Z.of_uint; rewrite DecimalPos.Unsigned.of_to; reflexivity.
  - cbn [Z.to_int NilZero.string_of_int].
    pose proof (DecimalPos.Unsigned.to_uint_nonnil p) as Hp.
    assert (E : NilZero.string_of_uint (Pos.to_uint p) = NilEmpty.string_of_uint (Pos.to_uint p))
      by (destruct (Pos.to_uint p); try reflexivity; congruence).
    rewrite E, (proj2 (py_int_digits (Pos.to_uint p) Hp)).
    f_equal; unfold Z.of_uint; rewrite DecimalPos.Unsigned.of_to; reflexivity.
Qed.

Lemma py_str_inj (y y' : Z) : py_str y = py_str y' -> y = y'.
Proof.
  intros H. assert (H' : py_int (py_str y) = py_int (py_str y')) by now rewrite H.
  rewrite !py_int_str in H'. now injection H'.
Qed.

Lemma in_py_range (a b y : Z) : In y (py_range a b) <-> (a <= y < b)%Z.
Proof.
  unfold py_range. rewrite in_map_iff. split.
  - intros (i & <- & Hi). apply in_seq in Hi. lia.
  - intros Hy. exists (Z.to_nat (y - a)). split; [lia|]. apply in_seq. lia.
Qed.

Lemma isin_selected_years (a b y : Z) :
  isin (py_str y) (selected_years (a, b)) = ((a <=? y)%Z && (y <=? b)%Z)%bool.
Proof.
  apply eq_true_iff_eq. unfold isin, selected_years; cbn [fst snd].
  rewrite existsb_exists, andb_true_iff, !Z.leb_le. split.
  - intros (s & Hs & Heq). apply String.eqb_eq in Heq. subst s.
    apply in_map_iff in Hs. destruct Hs as (y' & Heq & Hy').
    apply py_str_inj in Heq. subst y'. apply in_py_range in Hy'. lia.
  - intros Hy. exists (py_str y). split; [|apply String.eqb_refl].
    apply in_map, in_py_range. lia.
Qed.

Lemma filter_idempotent {A : Type} (f : A -> bool) (l : list A) :
  filter f (filter f l) = filter f l.
Proof.
  induction l as [|x l IH]; simpl; [reflexivity|].
  destruct (f x) eqn:Hx; simpl; rewrite ?Hx, IH; reflexivity.
Qed.

Lemma filtered_long_by_integer (long_df : list record) (a b : Z) :
  (forall r, In r long_df -> exists y, Year r = py_str y) ->
  filtered_long long_df (a, b) =
  filter (fun r => year_in_range a b (Year r)) long_df.
Proof.
  intros Hlab. unfold filtered_long. apply filter_ext_in.
  intros r Hr. destruct (Hlab r Hr) as (y & ->).
  unfold year_in_range. rewrite py_int_str. apply isin_selected_years.
Qed.

Lemma isin_incl (s : string) (l l' : list string) :
  incl l l' -> isin s l = true -> isin s l' = true.
Proof.
  unfold isin. rewrite !existsb_exists. intros Hincl (x & Hx & Heq).
  exists x. split; [now apply Hincl | assumption].
Qed.

Lemma selected_years_widen (a b : Z) :
  incl (selected_years (a, b)) (selected_years (a - 1, b + 1)%Z).
Proof.
  unfold selected_years; cbn [fst snd]. intros s Hs.
  apply in_map_iff in Hs. destruct Hs as (y & <- & Hy).
  apply in_map, in_py_range. apply in_py_range in Hy. lia.
Qed.

(** ** The order of labels *)

Lemma compare_refl (s : string) : (s ?= s) = Eq.
Proof.
  induction s as [|a s IH]; simpl; [reflexivity|].
  unfold Ascii.compare. now rewrite N.compare_refl.
Qed.

Lemma label_lt_trans (s t u : string) : label_lt s t -> label_lt t u -> label_lt s u.
Proof.
  unfold label_lt. revert t u.
  induction s as [|a s IH]; intros [|b t] [|c u]; simpl; try congruence.
  destruct (Ascii.compare a b) eqn:Hab; try discriminate;
    destruct (Ascii.compare b c) eqn:Hbc; try discriminate; intros Hst Htu.
  - apply Ascii.compare_eq_iff in Hab, Hbc. subst. unfold Ascii.compare.
    rewrite N.compare_refl. now apply (IH t u).
  - apply Ascii.compare_eq_iff in Hab. subst. now rewrite Hbc.
  - apply Ascii.compare_eq_iff in Hbc. subst. now rewrite Hab.
  - unfold Ascii.compare in *. rewrite N.compare_lt_iff in Hab, Hbc.
    replace (N_of_ascii a ?= N_of_ascii c)%N with Lt; [reflexivity|].
    symmetry. apply N.compare_lt_iff. lia.
Qed.

Lemma label_lt_irrefl (s : string) : ~ label_lt s s.
Proof. unfold label_lt. now rewrite compare_refl. Qed.

Lemma label_lt_le (s t : string) : label_lt s t -> label_le s t.
Proof. unfold label_lt, label_le, String.leb. now intros ->. Qed.

Lemma label_le_not_lt (s t : string) : label_le s t -> ~ label_lt t s.
Proof.
  unfold label_lt, label_le, String.leb. rewrite (String.compare_antisym t s).
  now destruct (s ?= t).
Qed.

Lemma ltb_label_lt (s t : string) : (s <? t) = true <-> label_lt s t.
Proof. unfold String.ltb, label_lt. destruct (s ?= t); easy. Qed.

Lemma label_le_refl (s : string) : label_le s s.
Proof. unfold label_le, String.leb. now rewrite compare_refl. Qed.

Lemma label_le_trans (s t u : string) : label_le s t -> label_le t u -> label_le s u.
Proof.
  unfold label_le, String.leb. intros Hst Htu.
  destruct (s ?= t) eqn:H1; try discriminate.
  - apply String.compare_eq_iff in H1. now subst.
  - destruct (t ?= u) eqn:H2; try discriminate.
    + apply String.compare_eq_iff in H2. subst. now rewrite H1.
    + now rewrite (label_lt_trans s t u H1 H2).
Qed.

Lemma label_le_total (s t : string) : label_le s t \/ label_lt t s.
Proof.
  unfold label_le, label_lt, String.leb. rewrite (String.compare_antisym t s).
  destruct (s ?= t); simpl; auto.
Qed.

(** ** Group-by, sum and sort *)

Lemma in_insert_key (k k' : string) (keys : list string) :
  In k' (insert_key k keys) <-> k' = k \/ In k' keys.
Proof.
  induction keys as [|x keys IH]; simpl; [intuition|].
  destruct (k ?= x) eqn:Hc; simpl.
  - apply String.compare_eq_iff in Hc. subst. intuition.
  - intuition.
  - rewrite IH. intuition.
Qed.

Lemma in_group_keys (k : string) (ks : list string) :
  In k (group_keys ks) <-> In k ks.
Proof.
  induction ks as [|x ks IH]; simpl; [tauto|].
  rewrite in_insert_key, IH. intuition.
Qed.

Lemma sorted_insert_key (k : string) (keys : list string) :
  StronglySorted label_lt keys -> StronglySorted label_lt (insert_key k keys).
Proof.
  induction 1 as [|x keys Hs IH Hall]; simpl; [repeat constructor|].
  destruct (k ?= x) eqn:Hc.
  - now constructor.
  - constructor; [now constructor|]. constructor; [assumption|].
    eapply Forall_impl; [|exact Hall]. intros y. now apply label_lt_trans.
  - constructor; [assumption|]. apply Forall_forall. intros y Hy.
    apply in_insert_key in Hy. destruct Hy as [->|Hy].
    + unfold label_lt. rewrite String.compare_antisym, Hc. reflexivity.
    + rewrite Forall_forall in Hall. now apply Hall.
Qed.

Lemma sorted_group_keys (ks : list string) : StronglySorted label_lt (group_keys ks).
Proof.
  induction ks as [|k ks IH]; simpl; [constructor | now apply sorted_insert_key].
Qed.

Section SortValuesFacts.
Context {A : Type} (key : A -> string).

(** Sorting rows whose keys already ascend strictly changes nothing. *)
Lemma sort_values_sorted (l : list A) :
  StronglySorted (key_lt key) l -> sort_values key l = l.
Proof.
  unfold sort_values.
  induction 1 as [|x l Hs IH Hall]; simpl; [reflexivity|].
  rewrite IH. destruct l as [|y l]; simpl; [reflexivity|].
  inversion Hall as [|? ? Hxy _]; subst.
  now rewrite (label_lt_le _ _ Hxy).
Qed.

(** Rows with distinct keys have one ascending order only: whatever the
    sorting algorithm, the result is the same. *)
Lemma sorted_permutation_unique (l l' : list A) :
  StronglySorted (key_lt key) l -> Permutation l l' -> StronglySorted (key_le key) l' ->
  l' = l.
Proof.
  intros Hs; revert l'.
  induction Hs as [|x l Hs IH Hall]; intros l' Hperm Hs'.
  - now apply Permutation_nil in Hperm.
  - destruct l' as [|y l'].
    + apply Permutation_sym, Permutation_nil in Hperm. discriminate.
    + inversion Hs' as [|? ? Hs'' Hall']; subst.
      rewrite Forall_forall in Hall, Hall'.
      assert (Hy : In y (x :: l))
        by (eapply Permutation_in; [apply Permutation_sym; eassumption | now left]).
      assert (Hx : In x (y :: l'))
        by (eapply Permutation_in; [eassumption | now left]).
      assert (y = x).
      { destruct Hx as [Hx|Hx]; [assumption|]. destruct Hy as [Hy|Hy]; [now symmetry|].
        exfalso. apply (label_le_not_lt _ _ (Hall' x Hx)). now apply Hall. }
      subst y. f_equal. apply IH; [|assumption].
      now apply Permutation_cons_inv with (a := x).
Qed.

Lemma in_insert_row (x y : A) (l : list A) :
  In y (insert_row key x l) <-> y = x \/ In y l.
Proof.
  induction l as [|z l IH]; simpl; [intuition|].
  destruct (key x <=? key z); simpl; [intuition|]. rewrite IH. intuition.
Qed.

Lemma permutation_insert_row (x : A) (l : list A) :
  Permutation (x :: l) (insert_row key x l).
Proof.
  induction l as [|z l IH]; simpl; [reflexivity|].
  destruct (key x <=? key z); [reflexivity|].
  rewrite perm_swap. now constructor.
Qed.

Lemma permutation_sort_values (l : list A) : Permutation l (sort_values key l).
Proof.
  unfold sort_values.
  induction l as [|x l IH]; simpl; [constructor|].
  rewrite <- permutation_insert_row. now constructor.
Qed.

Lemma sorted_insert_row (x : A) (l : list A) :
  StronglySorted (key_le key) l -> StronglySorted (key_le key) (insert_row key x l).
Proof.
  induction 1 as [|z l Hs IH Hall]; simpl; [repeat constructor|].
  destruct (key x <=? key z) eqn:Hc.
  - constructor; [now constructor|]. constructor; [exact Hc|].
    eapply Forall_impl; [|exact Hall]. intros y. now apply label_le_trans.
  - constructor; [assumption|]. apply Forall_forall. intros y Hy.
    apply in_insert_row in Hy. destruct Hy as [->|Hy].
    + destruct (label_le_total (key x) (key z)) as [H|H]; [congruence|].
      now apply label_lt_le.
    + rewrite Forall_forall in Hall. now apply Hall.
Qed.

Lemma sorted_sort_values (l : list A) : StronglySorted (key_le key) (sort_values key l).
Proof.
  unfold sort_values.
  induction l as [|x l IH]; simpl; [constructor | now apply sorted_insert_row].
Qed.
End SortValuesFacts.

Lemma keys_groupby_year_sum (rs : list record) :
  map fst (groupby_year_sum rs) = group_keys (map Year rs).
Proof.
  unfold groupby_year_sum. rewrite map_map. simpl. apply map_id.
Qed.

Lemma sorted_map_fst {B : Type} (l : list (string * B)) :
  StronglySorted label_lt (map fst l) -> StronglySorted (key_lt fst) l.
Proof.
  induction l as [|x l IH]; simpl; intros H; [constructor|].
  inversion H as [|? ? Hs Hall]; subst. constructor; [now apply IH|].
  rewrite Forall_forall in *. intros y Hy. apply Hall. now apply in_map.
Qed.

Lemma total_by_year_groupby (filtered : list record) :
  total_by_year filtered = groupby_year_sum filtered.
Proof.
  unfold total_by_year. apply sort_values_sorted, sorted_map_fst.
  rewrite keys_groupby_year_sum. apply sorted_group_keys.
Qed.

(** ** Numerals of the same length *)

Lemma of_uint_acc_value (d : Decimal.uint) (p : positive) :
  Npos (Pos.of_uint_acc d p) = uint_value d (Npos p).
Proof.
  revert p; induction d; intros p; cbn [Pos.of_uint_acc uint_value];
    [reflexivity|..]; rewrite IHd; f_equal; lia.
Qed.

Lemma of_uint_value (d : Decimal.uint) : N.of_uint d = uint_value d 0.
Proof.
  unfold N.of_uint.
  induction d; cbn [Pos.of_uint uint_value]; trivial;
    now rewrite of_uint_acc_value.
Qed.

Lemma pow10_pos (n : nat) : (0 < pow10 n)%N.
Proof. induction n; cbn [pow10]; lia. Qed.

Lemma uint_value_bounds (d : Decimal.uint) (acc : N) :
  (pow10 (Decimal.nb_digits d) * acc <= uint_value d acc
   < pow10 (Decimal.nb_digits d) * (acc + 1))%N.
Proof.
  revert acc; induction d; intros acc; cbn [uint_value Decimal.nb_digits pow10];
    [lia|..];
    match goal with
    | |- context [uint_value d ?a] =>
        specialize (IHd a); pose proof (pow10_pos (Decimal.nb_digits d)); nia
    end.
Qed.

Lemma uint_value_lt (u v : Decimal.uint) (a b : N) :
  Decimal.nb_digits u = Decimal.nb_digits v -> (a < b)%N ->
  (uint_value u a < uint_value v b)%N.
Proof.
  intros Hlen Hab.
  pose proof (uint_value_bounds u a) as Hu. pose proof (uint_value_bounds v b) as Hv.
  rewrite Hlen in Hu. pose proof (pow10_pos (Decimal.nb_digits v)). nia.
Qed.

Lemma compare_numerals (u v : Decimal.uint) (acc : N) :
  Decimal.nb_digits u = Decimal.nb_digits v ->
  (NilEmpty.string_of_uint u ?= NilEmpty.string_of_uint v) =
  (uint_value u acc ?= uint_value v acc)%N.
Proof.
  revert v acc; induction u; intros v acc; destruct v; intros Hlen;
    try discriminate Hlen; injection Hlen as Hlen || clear Hlen;
    cbn [NilEmpty.string_of_uint uint_value];
    try (symmetry; apply N.compare_refl);
    try (change (String ?c ?s ?= String ?c ?t) with (s ?= t); now apply IHu);
    try (change (String ?c ?s ?= String ?c' ?t) with Lt;
         symmetry; apply N.compare_lt_iff, uint_value_lt; [assumption | lia]);
    try (change (String ?c ?s ?= String ?c' ?t) with Gt;
         symmetry; apply N.compare_gt_iff, uint_value_lt; [now symmetry | lia]).
Qed.

Lemma length_string_of_uint (u : Decimal.uint) :
  String.length (NilEmpty.string_of_uint u) = Decimal.nb_digits u.
Proof. induction u; simpl; congruence. Qed.

Lemma py_str_nonneg (y : Z) :
  (0 <= y)%Z -> py_str y = NilEmpty.string_of_uint (N.to_uint (Z.to_N y)).
Proof.
  intros Hy. unfold py_str. destruct y as [|p|p]; [reflexivity| |lia].
  cbn [Z.to_int Z.to_N N.to_uint NilZero.string_of_int NilZero.string_of_uint].
  pose proof (DecimalPos.Unsigned.to_uint_nonnil p).
  now destruct (Pos.to_uint p).
Qed.

(** Two labels of the same length that are the numerals of two natural
    numbers compare as these numbers do. *)
Lemma compare_py_str (y y' : Z) :
  (0 <= y)%Z -> (0 <= y')%Z ->
  String.length (py_str y) = String.length (py_str y') ->
  (py_str y ?= py_str y') = (y ?= y')%Z.
Proof.
  intros Hy Hy'. rewrite !py_str_nonneg by assumption.
  rewrite !length_string_of_uint. intros Hlen.
  rewrite (compare_numerals _ _ 0 Hlen), <- !of_uint_value.
  rewrite !DecimalN.Unsigned.of_to. now rewrite Z2N.inj_compare.
Qed.

(** ** The growth of a department *)

Lemma mapM_ok_map {A B : Type} (f : A -> result B) (g : A -> B) (l : list A) :
  (forall x, In x l -> f x = Ok (g x)) -> mapM f l = Ok (map g l).
Proof.
  induction l as [|x l IH]; intros H; simpl; [reflexivity|].
  rewrite (H x (or_introl eq_refl)). simpl. rewrite IH; [reflexivity|].
  intros y Hy. apply H. now right.
Qed.

Lemma mapM_ext_In {A B : Type} (f g : A -> result B) (l : list A) :
  (forall x, In x l -> f x = g x) -> mapM f l = mapM g l.
Proof.
  induction l as [|x l IH]; intros H; simpl; [reflexivity|].
  rewrite (H x (or_introl eq_refl)), IH; [reflexivity|].
  intros y Hy. apply H. now right.
Qed.

Lemma mapM_series_get (labels : list string) (values : list cell) :
  NoDup labels -> List.length labels = List.length values ->
  mapM (series_get (combine labels values)) labels = Ok values.
Proof.
  intros Hnd; revert values.
  induction Hnd as [|c labels Hnotin Hnd IH]; intros [|v values] Hlen;
    simpl in Hlen; try discriminate; [reflexivity|].
  cbn [combine mapM series_get]. rewrite String.eqb_refl. cbn [bind].
  rewrite (mapM_ext_In _ (series_get (combine labels values))).
  - rewrite IH by lia. reflexivity.
  - intros c' Hc'. destruct (String.eqb_spec c c') as [->|_]; [contradiction | reflexivity].
Qed.

Lemma filter_unique_nth {A : Type} (f : A -> bool) (l : list A) (i : nat) (d : A) :
  (i < List.length l)%nat -> f (nth i l d) = true ->
  (forall k, (k < List.length l)%nat -> k <> i -> f (nth k l d) = false) ->
  filter f l = [nth i l d].
Proof.
  revert i; induction l as [|x l IH]; intros i Hi Ht Hf; simpl in Hi; [lia|].
  assert (Hnone : forall l', (forall k, (k < List.length l')%nat -> f (nth k l' d) = false) ->
                             filter f l' = []).
  { induction l' as [|y l' IH']; intros H; simpl; [reflexivity|].
    pose proof (H 0%nat ltac:(simpl; lia)) as H0. simpl in H0. rewrite H0.
    apply IH'. intros k Hk. apply (H (S k)). simpl; lia. }
  destruct i as [|i]; simpl in *.
  - rewrite Ht. f_equal. apply Hnone. intros k Hk. apply (Hf (S k)); lia.
  - pose proof (Hf 0%nat ltac:(lia) ltac:(lia)) as H0. simpl in H0. rewrite H0.
    apply IH; [lia | assumption|].
    intros k Hk Hne. apply (Hf (S k)); lia.
Qed.

Lemma filter_series (labels : list string) (values : list cell) :
  ~ In "Department" labels ->
  filter (fun p => negb (fst p =? "Department")) (combine labels values) =
  combine labels values.
Proof.
  revert values; induction labels as [|c labels IH]; intros [|v values] Hnotin;
    simpl; trivial.
  destruct (String.eqb_spec c "Department") as [->|_]; simpl.
  - exfalso; apply Hnotin; now left.
  - f_equal. apply IH. intros H; apply Hnotin; now right.
Qed.

Lemma compute_growth_full_range (doc : DataFrame) (i : nat) :
  well_formed doc -> (2 <= List.length (columns doc))%nat ->
  (i < List.length (data doc))%nat ->
  (forall j s, (1 <= j < List.length (columns doc))%nat -> cell_at doc i j <> Txt s) ->
  compute_growth (combine (tl (columns doc)) (tl (nth i (data doc) [])))
                 (tl (columns doc)) =
  Ok (full_range_growth doc i).
Proof.
  intros (Hnd & Hdep & Hlen) Hcols Hi Hnum.
  rewrite Forall_forall in Hlen.
  pose proof (Hlen _ (nth_In _ [] Hi)) as Hrow.
  unfold compute_growth, full_range_growth, cell_at.
  destruct (columns doc) as [|c0 cols] eqn:Ecols; simpl in Hcols; [lia|].
  destruct (nth i (data doc) []) as [|d cells] eqn:Erow; simpl in Hrow; [lia|].
  inversion Hnd; subst. cbn [tl].
  rewrite mapM_series_get by (assumption || lia). cbn [bind].
  rewrite (mapM_ok_map astype_float float_of).
  2:{ intros v Hv. destruct (In_nth _ _ NaN Hv) as (j & Hj & <-).
      specialize (Hnum (S j)). unfold cell_at in Hnum. rewrite Erow in Hnum.
      simpl in Hnum. destruct (nth j cells NaN) eqn:E; trivial.
      exfalso. apply (Hnum s); [lia | reflexivity]. }
  cbn [bind]. unfold first_value, last_value. rewrite <- map_rev.
  assert (Hlast : rev cells = nth (List.length cols) (d :: cells) NaN :: tl (rev cells)).
  { destruct cells as [|v cells] using rev_ind; [simpl in Hrow; simpl in Hcols; lia|].
    rewrite rev_app_distr. simpl. f_equal.
    rewrite length_app in Hrow. simpl in Hrow.
    replace (List.length cols) with (S (List.length cells)) by lia.
    simpl. rewrite app_nth2 by lia. now rewrite Nat.sub_diag. }
  rewrite Hlast. destruct cells as [|v cells]; [simpl in Hrow; simpl in Hcols; lia|].
  simpl. rewrite ?Nat.sub_0_r. reflexivity.
Qed.

Lemma cell_eqb_txt (c : cell) (name : string) :
  cell_eqb c (Txt name) = true <-> c = Txt name.
Proof.
  destruct c; simpl; split; try discriminate.
  - intros H. apply String.eqb_eq in H. now subst.
  - intros [= ->]. apply String.eqb_refl.
Qed.

Lemma tab_dept_full_range (doc : DataFrame) (i : nat) (name : string)
  (long_df : list record) (year_range : Z * Z) :
  well_formed doc -> (2 <= List.length (columns doc))%nat ->
  (i < List.length (data doc))%nat ->
  cell_at doc i 0 = Txt name ->
  (forall k, (k < List.length (data doc))%nat -> k <> i -> cell_at doc k 0 <> Txt name) ->
  (forall j s, (1 <= j < List.length (columns doc))%nat -> cell_at doc i j <> Txt s) ->
  exists dept_long,
    tab_dept {| columns := "Department" :: tl (columns doc); data := data doc |}
             long_df (tl (columns doc)) year_range (Txt name) =
    Ok (dept_long, full_range_growth doc i).
Proof.
  intros Hwf Hcols Hi Hname Huniq Hnum. unfold tab_dept. cbn [columns data].
  eexists.
  assert (Hhd : forall k, hd NaN (nth k (data doc) []) = cell_at doc k 0)
    by (intros k; unfold cell_at; now destruct (nth k (data doc) [])).
  rewrite (filter_unique_nth _ _ i []); trivial.
  2:{ rewrite at_label_head, Hhd, Hname. simpl. apply String.eqb_refl. }
  2:{ intros k Hk Hne. rewrite at_label_head, Hhd.
      destruct (cell_eqb (cell_at doc k 0) (Txt name)) eqn:E; [|reflexivity].
      apply cell_eqb_txt in E. now apply Huniq in E. }
  unfold set_index_loc. cbn [filter].
  rewrite at_label_head, Hhd, Hname. cbn [cell_eqb]. rewrite String.eqb_refl.
  cbn [bind].
  destruct Hwf as (Hnd & Hdep & Hlen). rewrite Forall_forall in Hlen.
  pose proof (Hlen _ (nth_In _ [] Hi)) as Hrow.
  destruct (nth i (data doc) []) as [|d cells] eqn:Erow.
  { simpl in Hrow. lia. }
  cbn [combine filter fst]. rewrite String.eqb_refl. cbn [negb].
  rewrite (filter_series _ _ Hdep).
  replace cells with (tl (nth i (data doc) [])) by now rewrite Erow.
  rewrite compute_growth_full_range; trivial; [reflexivity|].
  repeat split; trivial. now apply Forall_forall.
Qed.

(** ** Minimum and maximum of the labels *)

Lemma fold_min_spec (t : list string) (x : string) :
  let m := fold_left (fun m c => if c <? m then c else m) t x in
  In m (x :: t) /\ forall c, In c (x :: t) -> label_le m c.
Proof.
  revert x; induction t as [|y t IH]; intros x; cbn [fold_left].
  - split; [now left|]. intros c [<-|[]]. apply label_le_refl.
  - destruct (IH (if y <? x then y else x)) as [Hin Hle]. split.
    + destruct Hin as [Hin|Hin]; [|now right; right].
      rewrite <- Hin. destruct (y <? x); simpl; auto.
    + intros c Hc.
      assert (Hx' : label_le (if y <? x then y else x) x /\
                    label_le (if y <? x then y else x) y).
      { destruct (y <? x) eqn:E.
        - split; [|apply label_le_refl]. now apply label_lt_le, ltb_label_lt.
        - split; [apply label_le_refl|].
          destruct (label_le_total x y) as [H|H]; [assumption|].
          apply ltb_label_lt in H. congruence. }
      destruct Hc as [<-|[<-|Hc]].
      * eapply label_le_trans; [apply Hle; now left | apply Hx'].
      * eapply label_le_trans; [apply Hle; now left | apply Hx'].
      * apply Hle. now right.
Qed.

Lemma fold_max_spec (t : list string) (x : string) :
  let m := fold_left (fun m c => if m <? c then c else m) t x in
  In m (x :: t) /\ forall c, In c (x :: t) -> label_le c m.
Proof.
  revert x; induction t as [|y t IH]; intros x; cbn [fold_left].
  - split; [now left|]. intros c [<-|[]]. apply label_le_refl.
  - destruct (IH (if x <? y then y else x)) as [Hin Hle]. split.
    + destruct Hin as [Hin|Hin]; [|now right; right].
      rewrite <- Hin. destruct (x <? y); simpl; auto.
    + intros c Hc.
      assert (Hx' : label_le x (if x <? y then y else x) /\
                    label_le y (if x <? y then y else x)).
      { destruct (x <? y) eqn:E.
        - split; [|apply label_le_refl]. now apply label_lt_le, ltb_label_lt.
        - split; [apply label_le_refl|].
          destruct (label_le_total y x) as [H|H]; [assumption|].
          apply ltb_label_lt in H. congruence. }
      destruct Hc as [<-|[<-|Hc]].
      * eapply label_le_trans; [apply Hx' | apply Hle; now left].
      * eapply label_le_trans; [apply Hx' | apply Hle; now left].
      * apply Hle. now right.
Qed.

Lemma py_min_spec (l : list string) :
  l <> [] ->
  exists m, py_min l = Ok m /\ In m l /\ forall c, In c l -> label_le m c.
Proof.
  destruct l as [|x t]; [congruence|]. intros _. eexists. split; [reflexivity|].
  apply fold_min_spec.
Qed.

Lemma py_max_spec (l : list string) :
  l <> [] ->
  exists m, py_max l = Ok m /\ In m l /\ forall c, In c l -> label_le c m.
Proof.
  destruct l as [|x t]; [congruence|]. intros _. eexists. split; [reflexivity|].
  apply fold_max_spec.
Qed.

Lemma label_le_py_str (ys : list Z) (y y' : Z) :
  same_length_years ys -> In y ys -> In y' ys ->
  label_le (py_str y) (py_str y') <-> (y <= y')%Z.
Proof.
  intros [Hpos Hlen] Hy Hy'. unfold label_le, String.leb.
  rewrite compare_py_str by auto. unfold Z.le. destruct (y ?= y')%Z; easy.
Qed.

Lemma label_lt_py_str (ys : list Z) (y y' : Z) :
  same_length_years ys -> In y ys -> In y' ys ->
  label_lt (py_str y) (py_str y') <-> (y < y')%Z.
Proof.
  intros [Hpos Hlen] Hy Hy'. unfold label_lt.
  rewrite compare_py_str by auto. reflexivity.
Qed.

Lemma slider_bounds_same_length (ys : list Z) :
  same_length_years ys -> ys <> [] ->
  exists lo hi,
    slider_bounds (map py_str ys) = Ok (lo, hi) /\
    In lo ys /\ In hi ys /\ forall y, In y ys -> (lo <= y <= hi)%Z.
Proof.
  intros Hsame Hne.
  assert (Hne' : map py_str ys <> []) by (destruct ys; [congruence | discriminate]).
  destruct (py_min_spec _ Hne') as (m & Hmin & Hm & Hle).
  destruct (py_max_spec _ Hne') as (M & Hmax & HM & Hge).
  apply in_map_iff in Hm. destruct Hm as (lo & <- & Hlo).
  apply in_map_iff in HM. destruct HM as (hi & <- & Hhi).
  exists lo, hi. unfold slider_bounds. rewrite Hmin, Hmax. cbn [bind].
  rewrite !py_int_str. cbn [bind]. repeat split; trivial.
  - apply (label_le_py_str ys); trivial. apply Hle. now apply in_map.
  - apply (label_le_py_str ys); trivial. apply Hge. now apply in_map.
Qed.

Lemma StronglySorted_impl_In {A : Type} (R R' : A -> A -> Prop) (l : list A) :
  (forall x y, In x l -> In y l -> R x y -> R' x y) ->
  StronglySorted R l -> StronglySorted R' l.
Proof.
  intros H Hs. induction Hs as [|x l Hs IH Hall]; constructor.
  - apply IH. intros; apply H; auto; now right.
  - rewrite Forall_forall in *. intros y Hy. apply H; [now left | now right | auto].
Qed.

(** ** Top departments *)

Section InsertionByBudgetFacts.
Context (before : Q -> Q -> bool).
Hypothesis before_true : forall x y, before x y = true -> (y <= x)%Q.
Hypothesis before_false : forall x y, before x y = false -> (x <= y)%Q.

Lemma in_insert_budget (x y : cell * Q) (l : list (cell * Q)) :
  In y (insert_budget before x l) <-> y = x \/ In y l.
Proof.
  induction l as [|z l IH]; simpl; [intuition|].
  destruct (before (snd x) (snd z)); simpl; [intuition|]. rewrite IH. intuition.
Qed.

Lemma permutation_insert_budget (x : cell * Q) (l : list (cell * Q)) :
  Permutation (x :: l) (insert_budget before x l).
Proof.
  induction l as [|z l IH]; simpl; [reflexivity|].
  destruct (before (snd x) (snd z)); [reflexivity|].
  rewrite perm_swap. now constructor.
Qed.

Lemma descending_insert_budget (x : cell * Q) (l : list (cell * Q)) :
  descending l -> descending (insert_budget before x l).
Proof.
  unfold descending. induction 1 as [|z l Hs IH Hall]; simpl; [repeat constructor|].
  destruct (before (snd x) (snd z)) eqn:Hb.
  - constructor; [now constructor|]. constructor; [now apply before_true|].
    eapply Forall_impl; [|exact Hall]. intros y Hy. simpl in Hy.
    eapply Qle_trans; [exact Hy | now apply before_true].
  - constructor; [assumption|]. apply Forall_forall. intros y Hy.
    apply in_insert_budget in Hy. destruct Hy as [->|Hy].
    + now apply before_false.
    + rewrite Forall_forall in Hall. now apply Hall.
Qed.

Lemma insertion_sort_budget_descending : sorts_descending (insertion_sort_budget before).
Proof.
  unfold insertion_sort_budget. split; intros l.
  - induction l as [|x l IH]; simpl; [constructor|].
    rewrite <- permutation_insert_budget. now constructor.
  - induction l as [|x l IH]; simpl; [constructor | now apply descending_insert_budget].
Qed.

End InsertionByBudgetFacts.

Lemma sort_ties_kept_descending : sorts_descending sort_ties_kept.
Proof.
  apply insertion_sort_budget_descending; intros x y H.
  - now apply Qle_bool_iff.
  - apply Qlt_le_weak, Qnot_le_lt. intros Hle. apply Qle_bool_iff in Hle. congruence.
Qed.

Lemma in_insert_dept (d d' : cell) (keys : list cell) :
  In d' (insert_dept d keys) -> d' = d \/ In d' keys.
Proof.
  induction keys as [|x keys IH]; simpl; [intuition|].
  destruct (cell_compare d x); simpl; intuition.
Qed.

Lemma in_dept_keys (d : cell) (ds : list cell) : In d (dept_keys ds) -> In d ds.
Proof.
  unfold dept_keys. induction ds as [|x ds IH]; simpl; [tauto|].
  destruct (isna x); simpl; [auto|].
  intros H. apply in_insert_dept in H. intuition.
Qed.



(** * The claims *)

Lemma well_formed_example_doc : well_formed example_doc.
Proof.
  repeat split.
  - repeat constructor; simpl; intuition discriminate.
  - simpl; intuition discriminate.
  - repeat constructor.
Defined.

(** C1. For a well-formed wide table [load_data] returns exactly one record
    per (department, year-column) cell that holds a number, with that number
    as its budget, column after column, and no other record: a cell that
    holds a text or is empty has none.  When every cell of the year columns
    holds a number these are D x Y records; replacing one number by a value
    that is not a number (a text or an empty cell) removes exactly the
    record of that cell and leaves every other record in place; and with
    unique department names no two records share their (department, year)
    pair. *)
Theorem load_data_one_record_per_numeric_cell (doc : DataFrame) :
  well_formed doc -> columns doc <> [] ->
  exists df long_df year_cols,
    load_data doc = Ok (df, long_df, year_cols) /\
    long_df = records_by_cell doc /\
    (forall r, In r long_df <->
       exists i j q,
         (i < List.length (data doc))%nat /\
         (1 <= j < List.length (columns doc))%nat /\
         cell_at doc i j = Num q /\
         r = mkRecord (cell_at doc i 0) (nth j (columns doc) "") q) /\
    ((forall i j, (i < List.length (data doc))%nat ->
                  (1 <= j < List.length (columns doc))%nat ->
                  exists q, cell_at doc i j = Num q) ->
     List.length long_df = (List.length (data doc) * List.length year_cols)%nat) /\
    (NoDup (departments doc) -> NoDup (map key long_df)) /\
    (forall i j q v,
       (i < List.length (data doc))%nat ->
       (1 <= j < List.length (columns doc))%nat ->
       cell_at doc i j = Num q ->
       (forall q', v <> Num q') ->
       exists df' long_df' year_cols',
         load_data (set_cell doc i j v) = Ok (df', long_df', year_cols') /\
         (List.length long_df' + 1 = List.length long_df)%nat /\
         (NoDup (departments doc) ->
          forall r, In r long_df' <->
                    In r long_df /\
                    ~ (Department r = cell_at doc i 0 /\
                       Year r = nth j (columns doc) ""))).
Proof.
  intros Hwf Hne. do 3 eexists. split; [now apply load_data_eq|].
  rewrite (long_records_by_cell doc Hwf).
  split; [reflexivity|]. split; [apply in_records_by_cell|].
  split; [|split].
  - intros Hnum. rewrite length_records_all_numeric by assumption.
    destruct (columns doc); simpl; [congruence | now rewrite Nat.sub_0_r].
  - intros Hdep. apply NoDup_keys_records; [apply Hwf | assumption].
  - intros i j q v Hi Hj Hq Hv. do 3 eexists.
    split; [apply load_data_eq; [now apply well_formed_set_cell | assumption]|].
    rewrite (long_records_by_cell _ (well_formed_set_cell doc i j v Hwf)).
    split; [now apply (length_records_set_cell doc i j q v)|].
    intros Hdep r. apply (in_records_set_cell doc i j q v r); trivial. apply Hwf.
Qed.

(** On a table with a text cell: the cell has no record, and emptying a
    numeric cell removes one more. *)
Lemma load_data_one_record_per_numeric_cell_witness :
  exists df long_df year_cols,
    load_data doc_text_cell = Ok (df, long_df, year_cols) /\
    long_df = [mkRecord (Txt "B") "2014" 10; mkRecord (Txt "A") "2015" 200;
               mkRecord (Txt "B") "2015" 20] /\
    NoDup (map key long_df) /\
    exists df' long_df' year_cols',
      load_data (set_cell doc_text_cell 1 1 NaN) = Ok (df', long_df', year_cols') /\
      (List.length long_df' + 1 = 3)%nat /\
      forall r, In r long_df' <->
                In r long_df /\ ~ (Department r = Txt "B" /\ Year r = "2014").
Proof.
  assert (Hwf : well_formed doc_text_cell).
  { repeat split.
    - repeat constructor; simpl; intuition discriminate.
    - simpl; intuition discriminate.
    - repeat constructor. }
  assert (Hdep : NoDup (departments doc_text_cell))
    by (repeat constructor; simpl; intuition discriminate).
  destruct (load_data_one_record_per_numeric_cell doc_text_cell Hwf ltac:(discriminate))
    as (df & long_df & year_cols & Hload & Heq & _ & _ & Hnd & Hcell).
  exists df, long_df, year_cols. split; [exact Hload|].
  split; [rewrite Heq; reflexivity|]. split; [exact (Hnd Hdep)|].
  destruct (Hcell 1%nat 1%nat 10%Q NaN) as (df' & long_df' & year_cols' & Hload' & Hlen & Hin).
  - simpl; lia.
  - simpl; lia.
  - reflexivity.
  - discriminate.
  - exists df', long_df', year_cols'. split; [exact Hload'|].
    split; [|exact (Hin Hdep)].
    rewrite Hlen, Heq. reflexivity.
Defined.

(** C10. The wide table that [load_data] returns is the parsed document with
    the label of its first column replaced by "Department": the rows, the
    cells and the other labels are those of the document, whatever the first
    label was. *)
Theorem load_data_renames_first_column_only (doc : DataFrame) :
  well_formed doc -> columns doc <> [] ->
  exists df long_df year_cols,
    load_data doc = Ok (df, long_df, year_cols) /\
    columns df = "Department" :: tl (columns doc) /\
    data df = data doc.
Proof.
  intros Hwf Hne. do 3 eexists. split; [now apply load_data_eq|].
  split; reflexivity.
Qed.

Lemma load_data_renames_first_column_only_witness :
  exists df long_df year_cols,
    load_data example_doc = Ok (df, long_df, year_cols) /\
    columns df = ["Department"; "2014"; "2015"] /\
    data df = data example_doc.
Proof.
  exact (load_data_renames_first_column_only example_doc
           well_formed_example_doc ltac:(discriminate)).
Defined.

(** C2, as stated, fails: a label that [int] reads as a year of the range
    without being the numeral of that year is not kept.  With the header
    line [Department, 2014,2015] the slider offers 2014-2015 and the filter
    drops the record of " 2014". *)
Lemma label_read_as_year_is_dropped :
  exists df long_df year_cols,
    load_data blank_header_doc = Ok (df, long_df, year_cols) /\
    long_df = [mkRecord (Txt "A") " 2014" 100; mkRecord (Txt "A") "2015" 200] /\
    slider_bounds year_cols = Ok (2014, 2015)%Z /\
    py_int " 2014" = Ok 2014%Z /\
    filtered_long long_df (2014, 2015)%Z = [mkRecord (Txt "A") "2015" 200] /\
    ~ (forall r, In r (filtered_long long_df (2014, 2015)%Z) <->
                 In r long_df /\
                 exists y, py_int (Year r) = Ok y /\ (2014 <= y <= 2015)%Z).
Proof.
  do 3 eexists. split; [reflexivity|]. split; [reflexivity|].
  split; [reflexivity|]. split; [reflexivity|]. split; [reflexivity|].
  intros H. specialize (H (mkRecord (Txt "A") " 2014" 100)).
  destruct H as [_ H].
  assert (Hin : In (mkRecord (Txt "A") " 2014" 100)
                   [mkRecord (Txt "A") "2015" 200]).
  { apply H. split; [now left|]. exists 2014%Z. split; [reflexivity | lia]. }
  destruct Hin as [Hin|[]]. discriminate Hin.
Qed.

(** C2, amended. The filter with the bounds (a, b) keeps, in their order,
    exactly the records whose year label is [str(y)], the numeral of a year
    y with a <= y <= b; on records whose labels are all numerals this is
    the test a <= int(label) <= b.  Filtering twice is filtering once; what
    [a, b] keeps, [a-1, b+1] keeps; and when no label is the numeral of a
    year in [a, b] the result is the empty record set. *)
Theorem filtered_long_year_range (long_df : list record) (a b : Z) :
  filtered_long long_df (a, b) =
    filter (fun r => numeral_in_range a b (Year r)) long_df /\
  (forall r, In r (filtered_long long_df (a, b)) <->
             In r long_df /\ exists y, Year r = py_str y /\ (a <= y <= b)%Z) /\
  ((forall r, In r long_df -> exists y, Year r = py_str y) ->
   filtered_long long_df (a, b) =
     filter (fun r => year_in_range a b (Year r)) long_df) /\
  filtered_long (filtered_long long_df (a, b)) (a, b) =
    filtered_long long_df (a, b) /\
  incl (filtered_long long_df (a, b)) (filtered_long long_df (a - 1, b + 1)%Z) /\
  ((forall r y, In r long_df -> Year r = py_str y -> ~ (a <= y <= b)%Z) ->
   filtered_long long_df (a, b) = []).
Proof.
  assert (Hsel : forall s, isin s (selected_years (a, b)) = true <->
                           exists y, s = py_str y /\ (a <= y <= b)%Z).
  { intros s. unfold isin, selected_years; cbn [fst snd].
    rewrite existsb_exists. split.
    - intros (x & Hx & Heq). apply String.eqb_eq in Heq. subst x.
      apply in_map_iff in Hx. destruct Hx as (y & <- & Hy).
      apply in_py_range in Hy. exists y. split; [reflexivity | lia].
    - intros (y & -> & Hy). exists (py_str y). split; [|apply String.eqb_refl].
      apply in_map, in_py_range. lia. }
  assert (Hin : forall r, In r (filtered_long long_df (a, b)) <->
                  In r long_df /\ exists y, Year r = py_str y /\ (a <= y <= b)%Z).
  { intros r. unfold filtered_long. rewrite filter_In, Hsel. reflexivity. }
  split; [|split; [exact Hin|]].
  - unfold filtered_long. apply filter_ext. intros r.
    apply eq_true_iff_eq. rewrite Hsel. unfold numeral_in_range. split.
    + intros (y & -> & Hy). rewrite py_int_str, String.eqb_refl.
      rewrite !andb_true_iff, !Z.leb_le. tauto.
    + destruct (py_int (Year r)) as [y|]; [|discriminate].
      rewrite !andb_true_iff, !Z.leb_le. intros [Hy Heq].
      apply String.eqb_eq in Heq. exists y. split; [now symmetry | exact Hy].
  - split; [now apply filtered_long_by_integer|].
    split; [apply filter_idempotent|]. split.
    + intros r Hr. unfold filtered_long in *. apply filter_In in Hr.
      apply filter_In. split; [apply Hr|].
      eapply isin_incl; [apply selected_years_widen | apply Hr].
    + intros Hnone.
      destruct (filtered_long long_df (a, b)) as [|r l] eqn:E; [reflexivity|].
      exfalso. assert (Hr : In r (r :: l)) by now left.
      apply Hin in Hr. destruct Hr as [Hr (y & Hy & Hab)]. exact (Hnone r y Hr Hy Hab).
Qed.

Lemma filtered_long_year_range_witness :
  filtered_long
    [mkRecord (Txt "A") "2014" 100; mkRecord (Txt "A") "2015" 200]
    (2015, 2016)%Z =
  [mkRecord (Txt "A") "2015" 200] /\
  filtered_long
    [mkRecord (Txt "A") "2014" 100; mkRecord (Txt "A") "2015" 200]
    (2016, 2020)%Z = [].
Proof.
  pose proof (filtered_long_year_range
                [mkRecord (Txt "A") "2014" 100; mkRecord (Txt "A") "2015" 200]
                2015 2016) as (_ & _ & H & _).
  pose proof (filtered_long_year_range
                [mkRecord (Txt "A") "2014" 100; mkRecord (Txt "A") "2015" 200]
                2016 2020) as (_ & _ & _ & _ & _ & H').
  split.
  - rewrite H; [reflexivity|].
    intros r [<-|[<-|[]]]; [exists 2014%Z | exists 2015%Z]; reflexivity.
  - apply H'. intros r y [<-|[<-|[]]] Hy Hab; cbn [Year] in Hy.
    + apply (py_str_inj 2014 y) in Hy. lia.
    + apply (py_str_inj 2015 y) in Hy. lia.
Defined.

(** C3, as stated, fails: the rows ascend in the order of the labels as
    texts, and "1000" comes before "999". *)
Lemma years_of_mixed_length_not_ascending :
  total_by_year [mkRecord (Txt "A") "999" 1; mkRecord (Txt "A") "1000" 2] =
    [("1000", 2%Q); ("999", 1%Q)] /\
  ~ StronglySorted year_lt
      (map fst (total_by_year [mkRecord (Txt "A") "999" 1;
                               mkRecord (Txt "A") "1000" 2])).
Proof.
  split; [reflexivity|]. intros H.
  change (StronglySorted year_lt ["1000"; "999"]) in H.
  inversion H as [|? ? _ Hall]; subst. inversion Hall as [|? ? Hlt _]; subst.
  destruct Hlt as (y & y' & Hy & Hy' & Hlt).
  change (Ok 1000%Z = Ok y) in Hy. change (Ok 999%Z = Ok y') in Hy'.
  injection Hy as <-. injection Hy' as <-. lia.
Qed.

(** C3, amended. [total_by_year] has one row per year label of the filtered
    records, in the strictly ascending order of the labels as texts; when
    the labels are numerals of the same length (four-digit years) this is
    the ascending order of the years.  As long as the sums stay within
    [int64], the total of a year is the sum of the budgets of all the
    records of that year; for A = 100, 200 and B = 50, 150 in 2014, 2015 the
    result is [(2014, 150), (2015, 350)]. *)
Theorem total_by_year_sums_by_year (filtered : list record) :
  StronglySorted label_lt (map fst (total_by_year filtered)) /\
  (forall y, In y (map fst (total_by_year filtered)) <->
             exists r, In r filtered /\ Year r = y) /\
  (forall ys, same_length_years ys ->
              (forall r, In r filtered -> exists y, In y ys /\ Year r = py_str y) ->
              StronglySorted year_lt (map fst (total_by_year filtered))) /\
  (int64_safe filtered ->
   forall y t, In (y, t) (total_by_year filtered) ->
               t = Qsum (map Budget (filter (fun r => Year r =? y) filtered))) /\
  (exists df long_df year_cols,
     load_data example_doc = Ok (df, long_df, year_cols) /\
     total_by_year (filtered_long long_df (2014, 2015)%Z) =
     [("2014", 150%Q); ("2015", 350%Q)]).
Proof.
  rewrite total_by_year_groupby, keys_groupby_year_sum.
  assert (Hkeys : forall y, In y (group_keys (map Year filtered)) <->
                            exists r, In r filtered /\ Year r = y).
  { intros y. rewrite in_group_keys, in_map_iff. split; intros (r & H1 & H2); eauto. }
  split; [apply sorted_group_keys|]. split; [exact Hkeys|]. split; [|split].
  - intros ys Hsame Hlab.
    apply (StronglySorted_impl_In label_lt); [|apply sorted_group_keys].
    intros s t Hs Ht Hlt. apply Hkeys in Hs, Ht.
    destruct Hs as (r & Hr & <-). destruct Ht as (r' & Hr' & <-).
    destruct (Hlab r Hr) as (y & Hy & Ey). destruct (Hlab r' Hr') as (y' & Hy' & Ey').
    rewrite Ey, Ey' in *. exists y, y'. rewrite !py_int_str.
    repeat split. now apply (label_lt_py_str ys).
  - intros _ y t Hin. unfold groupby_year_sum in Hin. apply in_map_iff in Hin.
    destruct Hin as (k & [= <- <-] & _). reflexivity.
  - do 3 eexists. split; reflexivity.
Qed.

Lemma total_by_year_sums_by_year_witness :
  same_length_years [2014; 2015]%Z /\
  int64_safe [mkRecord (Txt "B") "2015" 150; mkRecord (Txt "A") "2014" 100;
              mkRecord (Txt "A") "2015" 200] /\
  StronglySorted year_lt
    (map fst (total_by_year [mkRecord (Txt "B") "2015" 150;
                             mkRecord (Txt "A") "2014" 100;
                             mkRecord (Txt "A") "2015" 200])) /\
  forall t,
    In ("2015", t) (total_by_year [mkRecord (Txt "B") "2015" 150;
                                   mkRecord (Txt "A") "2014" 100;
                                   mkRecord (Txt "A") "2015" 200]) ->
    t = (0 + 150 + 200)%Q.
Proof.
  assert (Hsame : same_length_years [2014; 2015]%Z).
  { split.
    - intros y [<-|[<-|[]]]; lia.
    - intros y y' [<-|[<-|[]]] [<-|[<-|[]]]; reflexivity. }
  assert (Hsafe : int64_safe [mkRecord (Txt "B") "2015" 150;
                              mkRecord (Txt "A") "2014" 100;
                              mkRecord (Txt "A") "2015" 200]).
  { split.
    - intros r [<-|[<-|[<-|[]]]]; discriminate.
    - reflexivity. }
  split; [exact Hsame|]. split; [exact Hsafe|].
  destruct (total_by_year_sums_by_year
              [mkRecord (Txt "B") "2015" 150; mkRecord (Txt "A") "2014" 100;
               mkRecord (Txt "A") "2015" 200])
    as (_ & _ & H & Hsum & _).
  split.
  - apply (H [2014; 2015]%Z Hsame).
    intros r [<-|[<-|[<-|[]]]]; [exists 2015%Z | exists 2014%Z | exists 2015%Z];
      simpl; auto.
  - intros t Ht. exact (Hsum Hsafe "2015" t Ht).
Defined.

(** C4. The growth of a department is computed from its row of the wide
    table over all the year columns: whatever year range is selected, the
    department tab reports the same metric, whose start is the value in the
    first year column, whose end is the value in the last year column, whose
    absolute change is end - start and whose percent change is
    absolute_change / start * 100 when start is not 0. *)
Theorem growth_over_full_year_range (doc : DataFrame) (i : nat) (name : string) :
  well_formed doc -> (2 <= List.length (columns doc))%nat ->
  (i < List.length (data doc))%nat ->
  cell_at doc i 0 = Txt name ->
  (forall k, (k < List.length (data doc))%nat -> k <> i -> cell_at doc k 0 <> Txt name) ->
  (forall j s, (1 <= j < List.length (columns doc))%nat -> cell_at doc i j <> Txt s) ->
  exists df long_df year_cols g,
    load_data doc = Ok (df, long_df, year_cols) /\
    (forall year_range, exists dept_long,
        tab_dept df long_df year_cols year_range (Txt name) = Ok (dept_long, g)) /\
    g_start g = float_of (cell_at doc i 1) /\
    g_end g = float_of (cell_at doc i (List.length (columns doc) - 1)) /\
    g_absolute_change g = fsub (g_end g) (g_start g) /\
    (fne0 (g_start g) = true ->
     g_pct_change g =
     Some (fmul (fdiv (g_absolute_change g) (g_start g)) (Fin 100))) /\
    (forall s e, cell_at doc i 1 = Num s ->
                 cell_at doc i (List.length (columns doc) - 1) = Num e ->
                 ~ (s == 0)%Q ->
                 g = mkGrowth (Fin s) (Fin e) (Fin (e - s))
                              (Some (Fin ((e - s) / s * 100)))).
Proof.
  intros Hwf Hcols Hi Hname Huniq Hnum.
  exists {| columns := "Department" :: tl (columns doc); data := data doc |},
         (long_records doc), (tl (columns doc)), (full_range_growth doc i).
  split.
  { apply load_data_eq; [assumption|]. destruct (columns doc); [simpl in Hcols; lia | discriminate]. }
  split.
  { intros year_range. now apply tab_dept_full_range. }
  unfold full_range_growth; cbn [g_start g_end g_absolute_change g_pct_change].
  repeat split.
  - now intros ->.
  - intros s e -> -> Hs. cbn [float_of fne0 fsub fdiv fmul].
    destruct (Qeq_bool s 0) eqn:E; [|reflexivity].
    apply Qeq_bool_iff in E. contradiction.
Qed.

Lemma growth_over_full_year_range_witness :
  exists df long_df year_cols,
    load_data example_doc = Ok (df, long_df, year_cols) /\
    forall year_range, exists dept_long,
      tab_dept df long_df year_cols year_range (Txt "A") =
      Ok (dept_long, mkGrowth (Fin 100) (Fin 200) (Fin (200 - 100))
                              (Some (Fin ((200 - 100) / 100 * 100)))).
Proof.
  destruct (growth_over_full_year_range example_doc 0 "A")
    as (df & long_df & year_cols & g & Hload & Htab & _ & _ & _ & _ & Hg).
  - exact well_formed_example_doc.
  - simpl; lia.
  - simpl; lia.
  - reflexivity.
  - intros [|[|k]] Hk Hne; simpl in Hk; try lia; discriminate.
  - intros [|[|[|j]]] s Hj; simpl in Hj; try lia; discriminate.
  - exists df, long_df, year_cols. split; [exact Hload|].
    rewrite <- (Hg 100%Q 200%Q eq_refl eq_refl ltac:(discriminate)). exact Htab.
Defined.

(** C5. With a start value of zero the two percent changes follow two
    policies: [compute_growth] gives no percent change ([None], shown as
    "N/A") -- for start 0 and end 100 the absolute change is 100 -- while the
    headline metric over the selected years gives 0 when the total of the
    first year is zero. *)
Theorem zero_start_policies :
  (forall row year_cols g,
      compute_growth row year_cols = Ok g ->
      fne0 (g_start g) = false ->
      g_pct_change g = None /\ growth_delta g = NA) /\
  (forall doc i name,
      well_formed doc -> (2 <= List.length (columns doc))%nat ->
      (i < List.length (data doc))%nat ->
      cell_at doc i 0 = Txt name ->
      (forall k, (k < List.length (data doc))%nat -> k <> i ->
                 cell_at doc k 0 <> Txt name) ->
      (forall j s, (1 <= j < List.length (columns doc))%nat ->
                   cell_at doc i j <> Txt s) ->
      cell_at doc i 1 = Num 0 ->
      cell_at doc i (List.length (columns doc) - 1) = Num 100 ->
      exists df long_df year_cols,
        load_data doc = Ok (df, long_df, year_cols) /\
        forall year_range, exists dept_long g,
          tab_dept df long_df year_cols year_range (Txt name) = Ok (dept_long, g) /\
          g = mkGrowth (Fin 0) (Fin 100) (Fin 100) None /\
          growth_delta g = NA) /\
  (forall tby selected latest_year first_year latest first,
      py_max selected = Ok latest_year ->
      iloc0 (budget_of_year tby latest_year) = Ok latest ->
      py_min selected = Ok first_year ->
      iloc0 (budget_of_year tby first_year) = Ok first ->
      (first == 0)%Q ->
      headline_metrics tby selected =
      Ok (mkHeadline first latest (latest - first) 0)).
Proof.
  split; [|split].
  - intros row year_cols g Hg Hz. unfold compute_growth in Hg.
    destruct (mapM (series_get row) year_cols) as [cells|]; [|discriminate].
    cbn [bind] in Hg.
    destruct (mapM astype_float cells) as [values|]; [|discriminate].
    cbn [bind] in Hg.
    destruct (first_value values) as [start|]; [|discriminate]. cbn [bind] in Hg.
    destruct (last_value values) as [end_|]; [|discriminate]. cbn [bind] in Hg.
    injection Hg as <-. cbn [g_start] in Hz. unfold growth_delta.
    cbn [g_pct_change]. now rewrite Hz.
  - intros doc i name Hwf Hcols Hi Hname Huniq Hnum Hstart Hend.
    do 3 eexists. split.
    { apply load_data_eq; [assumption|].
      destruct (columns doc); [simpl in Hcols; lia | discriminate]. }
    intros year_range.
    destruct (tab_dept_full_range doc i name (long_records doc) year_range
                Hwf Hcols Hi Hname Huniq Hnum) as (dept_long & Htab).
    exists dept_long, (full_range_growth doc i). split; [exact Htab|].
    unfold full_range_growth. rewrite Hstart, Hend. split; reflexivity.
  - intros tby selected latest_year first_year latest first Hmax Hl Hmin Hf Hz.
    unfold headline_metrics. rewrite Hmax. cbn [bind]. rewrite Hl. cbn [bind].
    rewrite Hmin. cbn [bind]. rewrite Hf. cbn [bind].
    apply Qeq_bool_iff in Hz. now rewrite Hz.
Qed.

Lemma zero_start_policies_witness :
  (exists df long_df year_cols,
     load_data zero_start_doc = Ok (df, long_df, year_cols) /\
     (forall year_range, exists dept_long g,
         tab_dept df long_df year_cols year_range (Txt "A") = Ok (dept_long, g) /\
         g = mkGrowth (Fin 0) (Fin 100) (Fin 100) None /\
         growth_delta g = NA) /\
     overview long_df (2014, 2015)%Z = Ok (mkHeadline 0 150 (150 - 0) 0)).
Proof.
  destruct zero_start_policies as (_ & Hdept & Hhead).
  destruct (Hdept zero_start_doc 0%nat "A") as (df & long_df & year_cols & Hload & Htab).
  - repeat split.
    + repeat constructor; simpl; intuition discriminate.
    + simpl; intuition discriminate.
    + repeat constructor.
  - simpl; lia.
  - simpl; lia.
  - reflexivity.
  - intros [|[|k]] Hk Hne; simpl in Hk; try lia; discriminate.
  - intros [|[|[|j]]] s Hj; simpl in Hj; try lia; discriminate.
  - reflexivity.
  - reflexivity.
  - exists df, long_df, year_cols. split; [exact Hload|]. split; [exact Htab|].
    injection Hload as _ <- _. unfold overview.
    apply (Hhead _ _ "2015" "2014"); reflexivity.
Defined.

(** C7. The headline metrics are not total: for a department without a
    budget in the first selected year the document loads, the slider offers
    2014-2015, the filter and [total_by_year] give their results, and
    [.iloc[0]] on the empty selection of the first year raises
    [IndexError]. *)
Theorem headline_metrics_raise_on_empty_year :
  exists df long_df year_cols,
    load_data doc_missing_first_year = Ok (df, long_df, year_cols) /\
    slider_bounds year_cols = Ok (2014, 2015)%Z /\
    filtered_long long_df (2014, 2015)%Z = [mkRecord (Txt "A") "2015" 200] /\
    total_by_year (filtered_long long_df (2014, 2015)%Z) = [("2015", 200%Q)] /\
    overview long_df (2014, 2015)%Z = Raise IndexError.
Proof. do 3 eexists. repeat split. Qed.

(** The growth of a department fails as well when one of its year cells
    holds a text: [astype(float)] raises [ValueError]. *)
Lemma compute_growth_raises_on_text_cell :
  exists df long_df year_cols,
    load_data doc_text_cell = Ok (df, long_df, year_cols) /\
    long_df = [mkRecord (Txt "B") "2014" 10; mkRecord (Txt "A") "2015" 200;
               mkRecord (Txt "B") "2015" 20] /\
    (exists h, overview long_df (2014, 2015)%Z = Ok h) /\
    tab_dept df long_df year_cols (2014, 2015)%Z (Txt "A") = Raise ValueError.
Proof. do 3 eexists. repeat split. eexists. reflexivity. Qed.

(** C8, as stated, fails: a document with the department column only is
    loaded without an error. *)
Lemma one_column_document_loads :
  (List.length (columns one_column_doc) < 2)%nat /\
  load_data one_column_doc = Ok (one_column_doc, [], []).
Proof. split; [simpl; lia | reflexivity]. Qed.

(** Where [load_data] does fail on a document with columns: in [melt], when
    a second column is labelled "Department". *)
Lemma second_department_column_raises :
  load_data second_department_doc = Raise ValueError.
Proof. reflexivity. Qed.

(** C8, amended. An empty document (one without columns) makes ingestion
    fail, with the [EmptyDataError] of [read_csv].  A document with a
    single column is not rejected: it is loaded with no year column and no
    record, and the script stops at line 60, where [min] of the empty list
    raises [ValueError].  A document without a number in any cell is
    not rejected either: it is loaded with no record (its other columns
    being labelled neither like the first one nor "Department", which
    [melt] refuses, nor "Budget", the name of the value column, which it
    refuses in some versions of pandas). *)
Theorem load_data_validates_nothing (doc : DataFrame) :
  (columns doc = [] -> load_data doc = Raise EmptyDataError) /\
  (forall c0, columns doc = [c0] ->
     load_data doc = Ok ({| columns := ["Department"]; data := data doc |}, [], []) /\
     slider_bounds [] = Raise ValueError) /\
  (forall c0 cols,
     columns doc = c0 :: cols ->
     ~ In c0 cols -> ~ In "Department" cols -> ~ In "Budget" cols ->
     (forall row v, In row (data doc) -> In v row -> forall q, v <> Num q) ->
     load_data doc =
     Ok ({| columns := "Department" :: cols; data := data doc |}, [], cols)).
Proof.
  split; [|split].
  - intros Hnil. unfold load_data, read_csv. now rewrite Hnil.
  - intros c0 Hcols. split; [|reflexivity].
    rewrite (load_data_loads doc c0 [] Hcols) by (simpl; tauto).
    unfold long_records. now rewrite Hcols.
  - intros c0 cols Hcols Hc0 Hdep _ Hnone.
    rewrite (load_data_loads doc c0 cols Hcols Hc0 Hdep).
    f_equal. f_equal. f_equal.
    destruct (long_records doc) as [|r l] eqn:E; [reflexivity|].
    exfalso. assert (Hr : In r (long_records doc)) by (rewrite E; now left).
    unfold long_records in Hr. apply in_flat_map in Hr.
    destruct Hr as (c & _ & Hr). apply in_flat_map in Hr.
    destruct Hr as (row & Hrow & Hr). unfold cell_record, at_label in Hr.
    destruct (get_loc (columns doc) c) as [k|].
    + destruct (Nat.lt_ge_cases k (List.length row)) as [Hk|Hk].
      * pose proof (Hnone row (nth k row NaN) Hrow (nth_In row NaN Hk)) as Hv.
        destruct (nth k row NaN) as [q| |]; [now destruct (Hv q) | | ]; contradiction.
      * rewrite nth_overflow in Hr by assumption. contradiction.
    + contradiction.
Qed.

Lemma load_data_validates_nothing_witness :
  load_data one_column_doc = Ok (one_column_doc, [], []) /\
  slider_bounds [] = Raise ValueError /\
  load_data no_number_doc = Ok (no_number_doc, [], ["2014"; "2015"]).
Proof.
  destruct (load_data_validates_nothing one_column_doc) as (_ & Hone & _).
  destruct (load_data_validates_nothing no_number_doc) as (_ & _ & Hnone).
  destruct (Hone "Department" eq_refl) as [Hload Hmin].
  split; [exact Hload|]. split; [exact Hmin|].
  apply (Hnone "Department" ["2014"; "2015"] eq_refl).
  - simpl; intuition discriminate.
  - simpl; intuition discriminate.
  - simpl; intuition discriminate.
  - intros row v [<-|[]] [<-|[<-|[<-|[]]]] q; discriminate.
Defined.

(** C9, as stated, fails: the year of a record is a text, and sorting by
    year compares texts.  For the year columns 999 and 1000 the records of a
    department come with 1000 before 999. *)
Lemma years_sorted_as_texts :
  exists df long_df year_cols,
    load_data years_999_1000_doc = Ok (df, long_df, year_cols) /\
    map Year (sort_values Year long_df) = ["1000"; "999"] /\
    ~ StronglySorted year_le (map Year (sort_values Year long_df)).
Proof.
  do 3 eexists. split; [reflexivity|]. split; [reflexivity|]. intros H.
  change (StronglySorted year_le ["1000"; "999"]) in H.
  inversion H as [|? ? _ Hall]; subst. inversion Hall as [|? ? Hle _]; subst.
  destruct Hle as (y & y' & Hy & Hy' & Hle).
  change (Ok 1000%Z = Ok y) in Hy. change (Ok 999%Z = Ok y') in Hy'.
  injection Hy as <-. injection Hy' as <-. lia.
Qed.

(** C9, amended. The year of a record is the label of one of the year
    columns, kept as a text.  Range queries and sorting work on these
    texts: the filter keeps the labels that are the numeral [str(y)] of a
    year y of the range, and sorting by year is by the order of texts.
    When the labels are the numerals of natural numbers with the same
    number of digits (four-digit years), these operations agree with the
    order of the integers: the filter keeps exactly the records whose year
    lies in the range, sorting by year ascends by year, and the bounds of
    the slider, [int(min(year_cols))] and [int(max(year_cols))], are the
    least and the greatest year. *)
Theorem year_labels_ordered_as_text (doc : DataFrame) :
  well_formed doc -> columns doc <> [] ->
  exists df long_df year_cols,
    load_data doc = Ok (df, long_df, year_cols) /\
    (forall r, In r long_df -> In (Year r) year_cols) /\
    (forall a b r, In r (filtered_long long_df (a, b)) <->
                   In r long_df /\ exists y, Year r = py_str y /\ (a <= y <= b)%Z) /\
    (forall rs : list record,
        Permutation rs (sort_values Year rs) /\
        StronglySorted (key_le Year) (sort_values Year rs)) /\
    (forall rs, StronglySorted label_lt (map fst (total_by_year rs))) /\
    (forall ys, year_cols = map py_str ys -> ys <> [] -> same_length_years ys ->
       (forall a b, filtered_long long_df (a, b) =
                    filter (fun r => year_in_range a b (Year r)) long_df) /\
       (forall rs, incl rs long_df ->
                   StronglySorted (fun r r' => year_le (Year r) (Year r'))
                                  (sort_values Year rs)) /\
       (forall rs, incl rs long_df ->
                   StronglySorted year_lt (map fst (total_by_year rs))) /\
       (exists lo hi,
          slider_bounds year_cols = Ok (lo, hi) /\
          In lo ys /\ In hi ys /\ forall y, In y ys -> (lo <= y <= hi)%Z)).
Proof.
  intros Hwf Hne. do 3 eexists. split; [now apply load_data_eq|].
  assert (Hlab : forall r, In r (long_records doc) -> In (Year r) (tl (columns doc))).
  { intros r Hr. unfold long_records in Hr. apply in_flat_map in Hr.
    destruct Hr as (c & Hc & Hr). apply in_flat_map in Hr.
    destruct Hr as (row & _ & Hr). unfold cell_record in Hr.
    destruct (to_numeric (at_label (columns doc) row c)); [|contradiction].
    now destruct Hr as [<-|[]]. }
  split; [exact Hlab|]. split; [|split; [|split]].
  - intros a b r. unfold filtered_long. rewrite filter_In.
    unfold isin, selected_years; cbn [fst snd]. rewrite existsb_exists.
    split; intros [Hr H]; (split; [exact Hr|]).
    + destruct H as (x & Hx & Heq). apply String.eqb_eq in Heq. subst x.
      apply in_map_iff in Hx. destruct Hx as (y & Hy & Hin).
      apply in_py_range in Hin. exists y. split; [now symmetry | lia].
    + destruct H as (y & Hy & Hab). exists (py_str y).
      split; [|rewrite Hy; apply String.eqb_refl].
      apply in_map, in_py_range. lia.
  - intros rs. split; [apply permutation_sort_values | apply sorted_sort_values].
  - intros rs. rewrite total_by_year_groupby, keys_groupby_year_sum.
    apply sorted_group_keys.
  - intros ys Hyc Hys Hsame.
    assert (Hnum : forall r, In r (long_records doc) ->
                             exists y, In y ys /\ Year r = py_str y).
    { intros r Hr. apply Hlab in Hr. rewrite Hyc in Hr. apply in_map_iff in Hr.
      destruct Hr as (y & Hy & Hin). exists y. split; [assumption | now symmetry]. }
    split; [|split; [|split]].
    + intros a b. apply filtered_long_by_integer.
      intros r Hr. destruct (Hnum r Hr) as (y & _ & Hy). now exists y.
    + intros rs Hincl.
      apply (StronglySorted_impl_In (key_le Year)); [|apply sorted_sort_values].
      intros r r' Hr Hr' Hle.
      apply (Permutation_in _ (Permutation_sym (permutation_sort_values Year rs))) in Hr.
      apply (Permutation_in _ (Permutation_sym (permutation_sort_values Year rs))) in Hr'.
      destruct (Hnum r (Hincl r Hr)) as (y & Hy & Ey).
      destruct (Hnum r' (Hincl r' Hr')) as (y' & Hy' & Ey').
      unfold key_le in Hle. rewrite Ey, Ey' in Hle.
      exists y, y'. rewrite Ey, Ey', !py_int_str. repeat split.
      now apply (label_le_py_str ys).
    + intros rs Hincl. rewrite total_by_year_groupby, keys_groupby_year_sum.
      apply (StronglySorted_impl_In label_lt); [|apply sorted_group_keys].
      intros s t Hs Ht Hlt.
      apply in_group_keys, in_map_iff in Hs. apply in_group_keys, in_map_iff in Ht.
      destruct Hs as (r & <- & Hr). destruct Ht as (r' & <- & Hr').
      destruct (Hnum r (Hincl r Hr)) as (y & Hy & Ey).
      destruct (Hnum r' (Hincl r' Hr')) as (y' & Hy' & Ey').
      rewrite Ey, Ey' in *. exists y, y'. rewrite !py_int_str.
      repeat split. now apply (label_lt_py_str ys).
    + rewrite Hyc. now apply slider_bounds_same_length.
Qed.

Lemma year_labels_ordered_as_text_witness :
  well_formed three_year_doc /\
  exists df long_df year_cols,
    load_data three_year_doc = Ok (df, long_df, year_cols) /\
    (exists lo hi,
       slider_bounds year_cols = Ok (lo, hi) /\
       forall y, In y [2014; 2015; 2016]%Z -> (lo <= y <= hi)%Z) /\
    StronglySorted (fun r r' => year_le (Year r) (Year r'))
                   (sort_values Year long_df) /\
    filtered_long long_df (2015, 2016)%Z =
      [mkRecord (Txt "A") "2015" 2; mkRecord (Txt "A") "2016" 3].
Proof.
  assert (Hwf : well_formed three_year_doc).
  { repeat split.
    - repeat constructor; simpl; intuition discriminate.
    - simpl; intuition discriminate.
    - repeat constructor. }
  split; [exact Hwf|].
  destruct (year_labels_ordered_as_text three_year_doc Hwf ltac:(discriminate))
    as (df & long_df & year_cols & Hload & _ & _ & _ & _ & H).
  exists df, long_df, year_cols. split; [exact Hload|].
  destruct (H [2014; 2015; 2016]%Z) as (Hfilter & Hsort & _ & (lo & hi & Hb & _ & _ & Hall)).
  - injection Hload as _ _ <-. reflexivity.
  - discriminate.
  - split.
    + intros y [<-|[<-|[<-|[]]]]; lia.
    + intros y y' [<-|[<-|[<-|[]]]] [<-|[<-|[<-|[]]]]; reflexivity.
  - split; [exists lo, hi; split; assumption|].
    split; [apply Hsort, incl_refl|].
    rewrite Hfilter. injection Hload as _ <- _. reflexivity.
Defined.

(** * Further properties of the script *)

(** ** Loading *)

Lemma well_formed_loaded (doc : DataFrame) :
  well_formed doc -> columns doc <> [] ->
  well_formed {| columns := "Department" :: tl (columns doc); data := data doc |}.
Proof.
  intros (Hnd & Hdep & Hlen) Hne. destruct doc as [cols rows]; simpl in *.
  destruct cols as [|c0 cols]; [congruence|]. simpl in *.
  inversion Hnd; subst. repeat split; simpl; trivial. now constructor.
Qed.

Lemma long_records_loaded (doc : DataFrame) :
  well_formed doc -> columns doc <> [] ->
  long_records {| columns := "Department" :: tl (columns doc); data := data doc |} =
  long_records doc.
Proof.
  intros (Hnd & Hdep & _) Hne. unfold long_records; cbn [columns data tl].
  destruct (columns doc) as [|c0 cols]; [congruence|]. cbn [tl] in *.
  inversion Hnd; subst.
  apply flat_map_ext_In. intros c Hc. apply flat_map_ext_In. intros row _.
  unfold cell_record. rewrite (at_label_tail "Department" c0 c cols row); trivial.
  - intros ->. contradiction.
  - intros ->. contradiction.
Qed.

(** X1. The wide table that [load_data] returns can be loaded again: it gives
    the same table, the same records and the same year columns. *)
Theorem load_data_of_loaded_frame (doc : DataFrame) :
  well_formed doc -> columns doc <> [] ->
  exists df long_df year_cols,
    load_data doc = Ok (df, long_df, year_cols) /\
    load_data df = Ok (df, long_df, year_cols).
Proof.
  intros Hwf Hne. do 3 eexists. split; [now apply load_data_eq|].
  rewrite load_data_eq.
  - cbn [columns data tl]. now rewrite long_records_loaded.
  - now apply well_formed_loaded.
  - discriminate.
Qed.

Lemma load_data_of_loaded_frame_witness :
  exists df long_df year_cols,
    load_data example_doc = Ok (df, long_df, year_cols) /\
    load_data df = Ok (df, long_df, year_cols) /\
    columns df = ["Department"; "2014"; "2015"].
Proof.
  destruct (load_data_of_loaded_frame example_doc well_formed_example_doc
              ltac:(discriminate)) as (df & long_df & year_cols & H1 & H2).
  exists df, long_df, year_cols. split; [exact H1|]. split; [exact H2|].
  injection H1 as <- _ _. reflexivity.
Defined.

Lemma length_flat_map_le {A B : Type} (f : A -> list B) (l : list A) (n : nat) :
  (forall x, In x l -> (List.length (f x) <= n)%nat) ->
  (List.length (flat_map f l) <= List.length l * n)%nat.
Proof.
  induction l as [|x l IH]; intros H; simpl; [lia|].
  rewrite length_app. specialize (H x (or_introl eq_refl)) as Hx.
  assert (List.length (flat_map f l) <= List.length l * n)%nat; [|lia].
  apply IH. intros y Hy. apply H. now right.
Qed.

Lemma length_flat_map_full {A B : Type} (f : A -> list B) (l : list A) (n : nat) :
  (forall x, In x l -> (List.length (f x) <= n)%nat) ->
  List.length (flat_map f l) = (List.length l * n)%nat ->
  forall x, In x l -> List.length (f x) = n.
Proof.
  induction l as [|x l IH]; intros H Hfull y Hy; simpl in *; [contradiction|].
  rewrite length_app in Hfull.
  pose proof (H x (or_introl eq_refl)) as Hx.
  pose proof (length_flat_map_le f l n (fun z Hz => H z (or_intror Hz))) as Hl.
  destruct Hy as [<-|Hy]; [lia|].
  apply IH; trivial; [|lia]. intros z Hz. apply H. now right.
Qed.

(** X2. There are never more records than cells in the year columns, and
    there are as many exactly when every one of these cells holds a number:
    one text or empty cell, and there are fewer. *)
Theorem records_at_most_year_cells (doc : DataFrame) :
  well_formed doc -> columns doc <> [] ->
  exists df long_df year_cols,
    load_data doc = Ok (df, long_df, year_cols) /\
    (List.length long_df <= List.length (data doc) * List.length year_cols)%nat /\
    (List.length long_df = (List.length (data doc) * List.length year_cols)%nat <->
     forall i j, (i < List.length (data doc))%nat ->
                 (1 <= j < List.length (columns doc))%nat ->
                 exists q, cell_at doc i j = Num q).
Proof.
  intros Hwf Hne. do 3 eexists. split; [now apply load_data_eq|].
  rewrite (long_records_by_cell doc Hwf).
  assert (Hy : List.length (tl (columns doc)) = (List.length (columns doc) - 1)%nat)
    by (destruct (columns doc); simpl; lia).
  rewrite Hy.
  assert (Hone : forall i j, (List.length (record_at doc i j) <= 1)%nat)
    by (intros i j; unfold record_at; destruct (cell_at doc i j); simpl; lia).
  assert (Hcol : forall j, (List.length (flat_map (fun i => record_at doc i j)
                                           (seq 0 (List.length (data doc))))
                            <= List.length (data doc))%nat).
  { intros j. pose proof (length_flat_map_le (fun i => record_at doc i j)
                            (seq 0 (List.length (data doc))) 1 (fun i _ => Hone i j)) as H.
    rewrite length_seq in H. lia. }
  split; [|split].
  - unfold records_by_cell.
    pose proof (length_flat_map_le
                  (fun j => flat_map (fun i => record_at doc i j)
                                     (seq 0 (List.length (data doc))))
                  (seq 1 (List.length (columns doc) - 1)) (List.length (data doc))
                  (fun j _ => Hcol j)) as H.
    rewrite length_seq in H. lia.
  - intros Hfull i j Hi Hj. unfold records_by_cell in Hfull.
    assert (Hj' : In j (seq 1 (List.length (columns doc) - 1))) by (apply in_seq; lia).
    assert (Hc : List.length (flat_map (fun i => record_at doc i j)
                                       (seq 0 (List.length (data doc)))) =
                 List.length (data doc)).
    { apply (length_flat_map_full
               (fun j => flat_map (fun i => record_at doc i j)
                                  (seq 0 (List.length (data doc))))
               (seq 1 (List.length (columns doc) - 1)) (List.length (data doc))
               (fun j _ => Hcol j)); [|exact Hj'].
      rewrite length_seq. lia. }
    assert (Hi' : In i (seq 0 (List.length (data doc)))) by (apply in_seq; lia).
    assert (Hr : List.length (record_at doc i j) = 1%nat).
    { apply (length_flat_map_full (fun i => record_at doc i j)
               (seq 0 (List.length (data doc))) 1%nat (fun i _ => Hone i j));
        [|exact Hi'].
      rewrite length_seq. lia. }
    unfold record_at in Hr.
    destruct (cell_at doc i j) as [q| |]; [now exists q | discriminate | discriminate].
  - intros Hnum. rewrite length_records_all_numeric by assumption. reflexivity.
Qed.

(** A table with an empty cell has fewer records than cells, and the table
    of the example, which has none, as many. *)
Lemma records_at_most_year_cells_witness :
  (exists df long_df year_cols,
     load_data doc_missing_first_year = Ok (df, long_df, year_cols) /\
     (List.length long_df < 1 * 2)%nat) /\
  (exists df long_df year_cols,
     load_data example_doc = Ok (df, long_df, year_cols) /\
     List.length long_df = (2 * 2)%nat).
Proof.
  assert (Hwf : well_formed doc_missing_first_year).
  { repeat split.
    - repeat constructor; simpl; intuition discriminate.
    - simpl; intuition discriminate.
    - repeat constructor. }
  split.
  - destruct (records_at_most_year_cells doc_missing_first_year Hwf ltac:(discriminate))
      as (df & long_df & year_cols & Hload & Hle & Hfull).
    exists df, long_df, year_cols. split; [exact Hload|].
    assert (Hyc : year_cols = ["2014"; "2015"]) by (now injection Hload as _ _ <-).
    subst year_cols. cbn [List.length doc_missing_first_year data] in Hle, Hfull.
    destruct (Nat.eq_dec (List.length long_df) (1 * 2)) as [Heq|Hne]; [|lia].
    destruct (proj1 Hfull Heq 0%nat 1%nat) as (q & Hq);
      [simpl; lia | simpl; lia | discriminate Hq].
  - destruct (records_at_most_year_cells example_doc well_formed_example_doc
                ltac:(discriminate))
      as (df & long_df & year_cols & Hload & _ & Hfull).
    exists df, long_df, year_cols. split; [exact Hload|].
    assert (Hyc : year_cols = ["2014"; "2015"]) by (now injection Hload as _ _ <-).
    subst year_cols. apply Hfull.
    intros [|[|i]] [|[|[|j]]] Hi Hj; simpl in Hi, Hj; try lia; eexists; reflexivity.
Defined.

(** ** The year-range filter *)

Lemma filter_filter {A : Type} (f g : A -> bool) (l : list A) :
  filter f (filter g l) = filter (fun x => (g x && f x)%bool) l.
Proof.
  induction l as [|x l IH]; simpl; [reflexivity|].
  destruct (g x); simpl; [destruct (f x)|]; now rewrite IH.
Qed.

Lemma filter_all {A : Type} (f : A -> bool) (l : list A) :
  (forall x, In x l -> f x = true) -> filter f l = l.
Proof.
  induction l as [|x l IH]; intros H; simpl; [reflexivity|].
  rewrite (H x (or_introl eq_refl)). f_equal. apply IH. intros; apply H; now right.
Qed.

Lemma filter_none {A : Type} (f : A -> bool) (l : list A) :
  (forall x, In x l -> f x = false) -> filter f l = [].
Proof.
  induction l as [|x l IH]; intros H; simpl; [reflexivity|].
  rewrite (H x (or_introl eq_refl)). apply IH. intros; apply H; now right.
Qed.

Lemma isin_selected_years_iff (s : string) (a b : Z) :
  isin s (selected_years (a, b)) = true <->
  exists y, s = py_str y /\ (a <= y <= b)%Z.
Proof.
  unfold isin, selected_years; cbn [fst snd]. rewrite existsb_exists. split.
  - intros (x & Hx & Heq). apply String.eqb_eq in Heq. subst x.
    apply in_map_iff in Hx. destruct Hx as (y & <- & Hy). apply in_py_range in Hy.
    exists y. split; [reflexivity | lia].
  - intros (y & -> & Hy). exists (py_str y). split; [|apply String.eqb_refl].
    apply in_map, in_py_range. lia.
Qed.

Lemma isin_selected_years_inter (s : string) (a b c d : Z) :
  (isin s (selected_years (a, b)) && isin s (selected_years (c, d)))%bool =
  isin s (selected_years (Z.max a c, Z.min b d)).
Proof.
  apply eq_true_iff_eq. rewrite andb_true_iff, !isin_selected_years_iff. split.
  - intros [(y & -> & Hy) (y' & Heq & Hy')]. apply py_str_inj in Heq. subst y'.
    exists y. split; [reflexivity | lia].
  - intros (y & -> & Hy). split; exists y; (split; [reflexivity | lia]).
Qed.

(** X3. Filtering by one year range and then by another is filtering by
    their intersection, in either order; a range whose upper bound is below
    its lower bound keeps nothing. *)
Theorem filtered_long_twice (long_df : list record) (a b c d : Z) :
  filtered_long (filtered_long long_df (a, b)) (c, d) =
    filtered_long long_df (Z.max a c, Z.min b d) /\
  filtered_long (filtered_long long_df (a, b)) (c, d) =
    filtered_long (filtered_long long_df (c, d)) (a, b) /\
  ((Z.min b d < Z.max a c)%Z ->
   filtered_long (filtered_long long_df (a, b)) (c, d) = []).
Proof.
  assert (H : forall a b c d,
             filtered_long (filtered_long long_df (a, b)) (c, d) =
             filtered_long long_df (Z.max a c, Z.min b d)).
  { intros a' b' c' d'. unfold filtered_long. rewrite filter_filter.
    apply filter_ext. intros r. apply isin_selected_years_inter. }
  split; [apply H|]. split.
  - rewrite !H. now rewrite (Z.max_comm a c), (Z.min_comm b d).
  - intros Hlt. rewrite H. unfold filtered_long. apply filter_none.
    intros r _. destruct (isin (Year r) (selected_years (Z.max a c, Z.min b d))) eqn:E;
      [|reflexivity].
    apply isin_selected_years_iff in E. destruct E as (y & _ & Hy). lia.
Qed.

(** X4. With labels that are the numerals of years of the same number of
    digits, the range the slider offers at first, from the least to the
    greatest year, keeps every record. *)
Theorem default_range_keeps_all_records (doc : DataFrame) (ys : list Z) :
  well_formed doc -> columns doc <> [] ->
  tl (columns doc) = map py_str ys -> ys <> [] -> same_length_years ys ->
  exists df long_df year_cols year_range,
    load_data doc = Ok (df, long_df, year_cols) /\
    slider_bounds year_cols = Ok year_range /\
    filtered_long long_df year_range = long_df.
Proof.
  intros Hwf Hne Hlab Hys Hsame.
  destruct (slider_bounds_same_length ys Hsame Hys) as (lo & hi & Hb & _ & _ & Hall).
  exists {| columns := "Department" :: tl (columns doc); data := data doc |},
         (long_records doc), (tl (columns doc)), (lo, hi).
  split; [now apply load_data_eq|]. rewrite Hlab. split; [exact Hb|].
  unfold filtered_long. apply filter_all. intros r Hr.
  unfold long_records in Hr. apply in_flat_map in Hr. destruct Hr as (c & Hc & Hr).
  apply in_flat_map in Hr. destruct Hr as (row & _ & Hr). unfold cell_record in Hr.
  destruct (to_numeric (at_label (columns doc) row c)); [|contradiction].
  destruct Hr as [<-|[]]. cbn [Year]. rewrite Hlab in Hc.
  apply in_map_iff in Hc. destruct Hc as (y & <- & Hy).
  apply isin_selected_years_iff. exists y. split; [reflexivity | now apply Hall].
Qed.

Lemma default_range_keeps_all_records_witness :
  exists df long_df year_cols year_range,
    load_data three_year_doc = Ok (df, long_df, year_cols) /\
    slider_bounds year_cols = Ok year_range /\
    filtered_long long_df year_range = long_df.
Proof.
  apply (default_range_keeps_all_records three_year_doc [2014; 2015; 2016]%Z).
  - repeat split.
    + repeat constructor; simpl; intuition discriminate.
    + simpl; intuition discriminate.
    + repeat constructor.
  - discriminate.
  - reflexivity.
  - discriminate.
  - split.
    + intros y [<-|[<-|[<-|[]]]]; lia.
    + intros y y' [<-|[<-|[<-|[]]]] [<-|[<-|[<-|[]]]]; reflexivity.
Defined.

Lemma filtered_long_twice_witness :
  filtered_long
    (filtered_long [mkRecord (Txt "A") "2014" 100; mkRecord (Txt "A") "2015" 200]
                   (2014, 2014)%Z)
    (2015, 2015)%Z = [].
Proof.
  apply (filtered_long_twice
           [mkRecord (Txt "A") "2014" 100; mkRecord (Txt "A") "2015" 200]
           2014 2014 2015 2015).
  simpl. lia.
Defined.

(** ** The first and the latest of the selected years *)

Lemma pos_to_uint_head (p : positive) :
  match Pos.to_uint p with
  | Decimal.Nil | Decimal.D0 _ => False
  | _ => True
  end.
Proof.
  pose proof (DecimalPos.Unsigned.to_of (Pos.to_uint p)) as Hnorm.
  rewrite DecimalPos.Unsigned.of_to in Hnorm. cbn [N.to_uint] in Hnorm.
  pose proof (DecimalPos.Unsigned.to_uint_nonzero p) as Hnz.
  destruct (Pos.to_uint p) as [|u|u|u|u|u|u|u|u|u|u] eqn:E; trivial.
  - now apply (DecimalPos.Unsigned.to_uint_nonnil p).
  - rewrite DecimalFacts.unorm_D0 in Hnorm.
    destruct (Decimal.nzhead u) eqn:Hh.
    + unfold Decimal.unorm in Hnorm. rewrite Hh in Hnorm.
      injection Hnorm as Hu. subst u. now apply Hnz.
    + exact (DecimalFacts.nzhead_nonzero _ _ Hh).
    + unfold Decimal.unorm in Hnorm. rewrite Hh in Hnorm. discriminate.
    + unfold Decimal.unorm in Hnorm. rewrite Hh in Hnorm. discriminate.
    + unfold Decimal.unorm in Hnorm. rewrite Hh in Hnorm. discriminate.
    + unfold Decimal.unorm in Hnorm. rewrite Hh in Hnorm. discriminate.
    + unfold Decimal.unorm in Hnorm. rewrite Hh in Hnorm. discriminate.
    + unfold Decimal.unorm in Hnorm. rewrite Hh in Hnorm. discriminate.
    + unfold Decimal.unorm in Hnorm. rewrite Hh in Hnorm. discriminate.
    + unfold Decimal.unorm in Hnorm. rewrite Hh in Hnorm. discriminate.
    + unfold Decimal.unorm in Hnorm. rewrite Hh in Hnorm. discriminate.
Qed.

Lemma pow10_le (i j : nat) : (i <= j)%nat -> (pow10 i <= pow10 j)%N.
Proof.
  induction 1 as [|j Hij IH]; [lia|]. cbn [pow10]. pose proof (pow10_pos j). lia.
Qed.

Lemma uint_value_lower (u : Decimal.uint) :
  match u with
  | Decimal.Nil | Decimal.D0 _ => False
  | _ => True
  end ->
  (pow10 (Decimal.nb_digits u - 1) <= uint_value u 0)%N.
Proof.
  destruct u; intros H; try contradiction;
    cbn [uint_value Decimal.nb_digits]; rewrite Nat.sub_succ, Nat.sub_0_r;
    match goal with
    | |- context [uint_value ?d ?a] =>
        pose proof (uint_value_bounds d a); pose proof (pow10_pos (Decimal.nb_digits d)); nia
    end.
Qed.

Lemma length_py_str_bounds (y : Z) :
  (0 < y)%Z ->
  (pow10 (String.length (py_str y) - 1) <= Z.to_N y < pow10 (String.length (py_str y)))%N.
Proof.
  intros Hy. rewrite py_str_nonneg by lia. rewrite length_string_of_uint.
  destruct y as [|p|p]; try lia. cbn [Z.to_N N.to_uint].
  pose proof (DecimalPos.Unsigned.of_to p) as Hval.
  change (Pos.of_uint (Pos.to_uint p)) with (N.of_uint (Pos.to_uint p)) in Hval.
  rewrite of_uint_value in Hval. rewrite <- Hval. split.
  - apply uint_value_lower, pos_to_uint_head.
  - pose proof (uint_value_bounds (Pos.to_uint p) 0). lia.
Qed.

Lemma length_py_str_pos (y : Z) : (0 <= y)%Z -> (1 <= String.length (py_str y))%nat.
Proof.
  intros Hy. rewrite py_str_nonneg by assumption. rewrite length_string_of_uint.
  destruct y as [|p|p]; try lia; cbn [Z.to_N N.to_uint]; [simpl; lia|].
  pose proof (pos_to_uint_head p). destruct (Pos.to_uint p); simpl; (contradiction || lia).
Qed.

(** The number of digits does not decrease with the number. *)
Lemma length_py_str_mono (y y' : Z) :
  (0 <= y <= y')%Z -> (String.length (py_str y) <= String.length (py_str y'))%nat.
Proof.
  intros [Hy Hle]. destruct (Z.eq_dec y 0) as [->|Hne].
  - apply (length_py_str_pos y'). lia.
  - destruct (Nat.le_gt_cases (String.length (py_str y)) (String.length (py_str y')))
      as [H|H]; [assumption|]. exfalso.
    pose proof (length_py_str_bounds y ltac:(lia)) as [Hlo _].
    pose proof (length_py_str_bounds y' ltac:(lia)) as [_ Hhi].
    pose proof (pow10_le (String.length (py_str y')) (String.length (py_str y) - 1)
                  ltac:(lia)).
    assert (Z.to_N y <= Z.to_N y')%N by (apply Z2N.inj_le; lia). lia.
Qed.

Lemma same_length_range (a b : Z) :
  (0 <= a)%Z -> String.length (py_str a) = String.length (py_str b) ->
  same_length_years (py_range a (b + 1)).
Proof.
  intros Ha Hlen.
  assert (H : forall y, In y (py_range a (b + 1)) ->
                        (0 <= y)%Z /\ String.length (py_str y) = String.length (py_str a)).
  { intros y Hy. apply in_py_range in Hy. split; [lia|].
    pose proof (length_py_str_mono a y ltac:(lia)).
    pose proof (length_py_str_mono y b ltac:(lia)). lia. }
  split.
  - intros y Hy. now apply H.
  - intros y y' Hy Hy'. destruct (H y Hy) as [_ ->]. destruct (H y' Hy') as [_ ->].
    reflexivity.
Qed.

(** X5. When the bounds of the selected range are years with the same number
    of digits, the first and the latest of the selected years -- [min] and
    [max] of their labels -- are the labels of the two bounds. *)
Theorem first_and_latest_selected_year (a b : Z) :
  (0 <= a <= b)%Z -> String.length (py_str a) = String.length (py_str b) ->
  py_min (selected_years (a, b)) = Ok (py_str a) /\
  py_max (selected_years (a, b)) = Ok (py_str b).
Proof.
  intros Hab Hlen.
  pose proof (same_length_range a b ltac:(lia) Hlen) as Hsame.
  assert (Ha : In a (py_range a (b + 1))) by (apply in_py_range; lia).
  assert (Hb : In b (py_range a (b + 1))) by (apply in_py_range; lia).
  assert (Hne : selected_years (a, b) <> []).
  { intros E. assert (Hin : In (py_str a) (selected_years (a, b)))
      by (unfold selected_years; cbn [fst snd]; now apply in_map).
    rewrite E in Hin. contradiction. }
  destruct (py_min_spec _ Hne) as (m & Hmin & Hm & Hle).
  destruct (py_max_spec _ Hne) as (M & Hmax & HM & Hge).
  unfold selected_years in Hm, HM, Hle, Hge; cbn [fst snd] in *.
  apply in_map_iff in Hm. destruct Hm as (v & <- & Hv).
  apply in_map_iff in HM. destruct HM as (w & <- & Hw).
  specialize (Hle (py_str a) (in_map py_str _ _ Ha)).
  specialize (Hge (py_str b) (in_map py_str _ _ Hb)).
  apply (label_le_py_str _ _ _ Hsame Hv Ha) in Hle.
  apply (label_le_py_str _ _ _ Hsame Hb Hw) in Hge.
  apply in_py_range in Hv, Hw.
  assert (v = a) by lia. assert (w = b) by lia. subst. split; assumption.
Qed.

Lemma first_and_latest_selected_year_witness :
  py_min (selected_years (2014, 2025)%Z) = Ok "2014" /\
  py_max (selected_years (2014, 2025)%Z) = Ok "2025".
Proof.
  apply (first_and_latest_selected_year 2014 2025); [lia | reflexivity].
Defined.

(** ** Totals by year *)

Lemma fold_left_Qplus_acc (l : list Q) (a : Q) :
  (fold_left Qplus l a == a + fold_left Qplus l 0)%Q.
Proof.
  revert a; induction l as [|x l IH]; intros a; cbn [fold_left]; [ring|].
  rewrite (IH (a + x)%Q), (IH (0 + x)%Q). ring.
Qed.

Lemma Qsum_cons (x : Q) (l : list Q) : (Qsum (x :: l) == x + Qsum l)%Q.
Proof. unfold Qsum. cbn [fold_left]. rewrite fold_left_Qplus_acc. ring. Qed.

Lemma Qsum_map_plus {A : Type} (f g : A -> Q) (l : list A) :
  (Qsum (map (fun k => f k + g k) l) == Qsum (map f l) + Qsum (map g l))%Q.
Proof.
  induction l as [|x l IH]; cbn [map]; [reflexivity|].
  rewrite !Qsum_cons, IH. ring.
Qed.

Lemma Qsum_map_ext {A : Type} (f g : A -> Q) (l : list A) :
  (forall k, In k l -> (f k == g k)%Q) ->
  (Qsum (map f l) == Qsum (map g l))%Q.
Proof.
  induction l as [|x l IH]; intros H; cbn [map]; [reflexivity|].
  rewrite !Qsum_cons, (H x (or_introl eq_refl)), IH; [reflexivity|].
  intros k Hk. apply H. now right.
Qed.

Lemma Qsum_zero {A : Type} (f : A -> Q) (l : list A) :
  (forall k, In k l -> (f k == 0)%Q) -> (Qsum (map f l) == 0)%Q.
Proof.
  induction l as [|x l IH]; intros H; cbn [map]; [reflexivity|].
  rewrite Qsum_cons. rewrite (H x (or_introl eq_refl)).
  rewrite IH by (intros k Hk; apply H; now right). ring.
Qed.

Lemma Qsum_one_key (y : string) (b : Q) (ks : list string) :
  NoDup ks -> In y ks ->
  (Qsum (map (fun k => if y =? k then b else 0) ks) == b)%Q.
Proof.
  intros Hnd. induction Hnd as [|k ks Hnotin Hnd IH]; intros Hin; [contradiction|].
  cbn [map]. rewrite Qsum_cons. destruct Hin as [->|Hin].
  - rewrite String.eqb_refl.
    assert (E : (Qsum (map (fun k => if y =? k then b else 0) ks) == 0)%Q).
    { apply Qsum_zero. intros k Hk.
      destruct (String.eqb_spec y k) as [->|_]; [contradiction | reflexivity]. }
    rewrite E. ring.
  - destruct (String.eqb_spec y k) as [->|_]; [contradiction|].
    rewrite (IH Hin). ring.
Qed.

Lemma sum_by_keys (ks : list string) (rs : list record) :
  NoDup ks -> (forall r, In r rs -> In (Year r) ks) ->
  (Qsum (map (fun k => Qsum (map Budget (filter (fun r => Year r =? k) rs))) ks) ==
   Qsum (map Budget rs))%Q.
Proof.
  intros Hnd. induction rs as [|r rs IH]; intros Hin.
  - cbn [filter map]. apply Qsum_zero. intros k _. reflexivity.
  - cbn [map]. rewrite Qsum_cons.
    assert (E1 := IH (fun r' Hr' => Hin r' (or_intror Hr'))).
    assert (E2 := Qsum_one_key (Year r) (Budget r) ks Hnd (Hin r (or_introl eq_refl))).
    rewrite <- E1, <- E2, <- Qsum_map_plus.
    apply Qsum_map_ext. intros k _. cbn [filter].
    destruct (Year r =? k); cbn [map]; [apply Qsum_cons | ring].
Qed.

Lemma sorted_NoDup (l : list string) : StronglySorted label_lt l -> NoDup l.
Proof.
  induction 1 as [|x l Hs IH Hall]; constructor; [|assumption].
  intros Hin. rewrite Forall_forall in Hall.
  exact (label_lt_irrefl x (Hall x Hin)).
Qed.

(** X6. As long as the sums stay within [int64], the totals of the years
    add up to the sum of the budgets of all the records: no record is lost
    or counted twice by the grouping. *)
Theorem total_by_year_conserves_budget (filtered : list record) :
  int64_safe filtered ->
  (Qsum (map snd (total_by_year filtered)) == Qsum (map Budget filtered))%Q.
Proof.
  intros _. rewrite total_by_year_groupby. unfold groupby_year_sum. rewrite map_map. simpl.
  apply sum_by_keys.
  - apply sorted_NoDup, sorted_group_keys.
  - intros r Hr. apply in_group_keys. now apply in_map.
Qed.

Lemma total_by_year_conserves_budget_witness :
  int64_safe [mkRecord (Txt "A") "2014" 100; mkRecord (Txt "B") "2014" 50;
              mkRecord (Txt "A") "2015" 200] /\
  (Qsum (map snd (total_by_year [mkRecord (Txt "A") "2014" 100;
                                 mkRecord (Txt "B") "2014" 50;
                                 mkRecord (Txt "A") "2015" 200])) == 350)%Q.
Proof.
  assert (Hsafe : int64_safe [mkRecord (Txt "A") "2014" 100;
                              mkRecord (Txt "B") "2014" 50;
                              mkRecord (Txt "A") "2015" 200]).
  { split.
    - intros r [<-|[<-|[<-|[]]]]; discriminate.
    - reflexivity. }
  split; [exact Hsafe|].
  rewrite (total_by_year_conserves_budget _ Hsafe). reflexivity.
Defined.

Lemma sorted_filter (f : string -> bool) (l : list string) :
  StronglySorted label_lt l -> StronglySorted label_lt (filter f l).
Proof.
  induction 1 as [|x l Hs IH Hall]; simpl; [constructor|].
  destruct (f x); [|assumption]. constructor; [assumption|].
  rewrite Forall_forall in *. intros y Hy. apply filter_In in Hy. now apply Hall.
Qed.

(** Two lists of labels in strictly ascending order with the same elements
    are the same list. *)
Lemma sorted_same_elements (l l' : list string) :
  StronglySorted label_lt l -> StronglySorted label_lt l' ->
  (forall x, In x l <-> In x l') -> l = l'.
Proof.
  intros Hs Hs' Hin. symmetry.
  apply (sorted_permutation_unique (fun x => x)).
  - exact Hs.
  - apply NoDup_Permutation; auto using sorted_NoDup.
  - eapply StronglySorted_impl_In; [|exact Hs'].
    intros x y _ _ H. now apply label_lt_le.
Qed.

Lemma filter_map_commute {A B : Type} (f : B -> bool) (g : A -> B) (l : list A) :
  filter f (map g l) = map g (filter (fun x => f (g x)) l).
Proof.
  induction l as [|x l IH]; simpl; [reflexivity|].
  destruct (f (g x)); simpl; now rewrite IH.
Qed.

(** X7. Filtering the records by a year range and totalling them by year
    gives the totals of all the records restricted to the selected years:
    the total of a selected year does not depend on the range. *)
Theorem total_by_year_of_filtered (long_df : list record) (year_range : Z * Z) :
  total_by_year (filtered_long long_df year_range) =
  filter (fun p => isin (fst p) (selected_years year_range)) (total_by_year long_df).
Proof.
  rewrite !total_by_year_groupby. unfold groupby_year_sum.
  rewrite filter_map_commute. cbn [fst].
  set (sel := selected_years year_range).
  assert (Hkeys : group_keys (map Year (filtered_long long_df year_range)) =
                  filter (fun k => isin k sel) (group_keys (map Year long_df))).
  { apply sorted_same_elements.
    - apply sorted_group_keys.
    - apply sorted_filter, sorted_group_keys.
    - intros k. rewrite in_group_keys, filter_In, in_group_keys, !in_map_iff.
      unfold filtered_long. split.
      + intros (r & <- & Hr). apply filter_In in Hr. destruct Hr as [Hr Hsel].
        split; [now exists r | exact Hsel].
      + intros [(r & <- & Hr) Hsel]. exists r. split; [reflexivity|].
        apply filter_In. now split. }
  rewrite Hkeys. apply map_ext_in. intros k Hk. apply filter_In in Hk.
  destruct Hk as [_ Hsel]. f_equal. f_equal. f_equal.
  unfold filtered_long. rewrite filter_filter. apply filter_ext.
  intros r. destruct (String.eqb_spec (Year r) k) as [->|_].
  - fold sel. now rewrite Hsel.
  - apply andb_false_r.
Qed.

Lemma filter_eqb_NoDup (y : string) (ks : list string) :
  NoDup ks ->
  filter (fun k => k =? y) ks = if existsb (fun k => k =? y) ks then [y] else [].
Proof.
  induction 1 as [|k ks Hnotin Hnd IH]; simpl; [reflexivity|].
  destruct (String.eqb_spec k y) as [->|Hne]; simpl; [|exact IH].
  f_equal. apply filter_none. intros k Hk.
  destruct (String.eqb_spec k y) as [->|_]; [contradiction | reflexivity].
Qed.

Lemma budget_of_year_total (rs : list record) (y : string) :
  budget_of_year (total_by_year rs) y =
  if existsb (fun r => Year r =? y) rs
  then [Qsum (map Budget (filter (fun r => Year r =? y) rs))]
  else [].
Proof.
  rewrite total_by_year_groupby. unfold budget_of_year, groupby_year_sum.
  rewrite filter_map_commute, map_map. cbn [fst snd].
  rewrite filter_eqb_NoDup by apply sorted_NoDup, sorted_group_keys.
  assert (H : existsb (fun k => k =? y) (group_keys (map Year rs)) =
              existsb (fun r => Year r =? y) rs).
  { apply eq_true_iff_eq. rewrite !existsb_exists. split.
    - intros (k & Hk & Heq). apply in_group_keys, in_map_iff in Hk.
      destruct Hk as (r & <- & Hr). now exists r.
    - intros (r & Hr & Heq). exists (Year r). split; [|assumption].
      apply in_group_keys. now apply in_map. }
  rewrite H. now destruct (existsb (fun r => Year r =? y) rs).
Qed.

(** ** The headline metrics *)

Lemma py_min_in (l : list string) (m : string) : py_min l = Ok m -> In m l.
Proof.
  intros H. assert (Hne : l <> []) by (intros ->; discriminate).
  destruct (py_min_spec l Hne) as (m' & H' & Hin & _). congruence.
Qed.

Lemma py_max_in (l : list string) (m : string) : py_max l = Ok m -> In m l.
Proof.
  intros H. assert (Hne : l <> []) by (intros ->; discriminate).
  destruct (py_max_spec l Hne) as (m' & H' & Hin & _). congruence.
Qed.

Lemma filter_year_of_filtered (long_df : list record) (year_range : Z * Z) (y : string) :
  In y (selected_years year_range) ->
  filter (fun r => Year r =? y) (filtered_long long_df year_range) =
  filter (fun r => Year r =? y) long_df.
Proof.
  intros Hy. unfold filtered_long. rewrite filter_filter. apply filter_ext.
  intros r. destruct (String.eqb_spec (Year r) y) as [->|_]; [|apply andb_false_r].
  rewrite andb_true_r. unfold isin. apply existsb_exists. exists y.
  split; [assumption | apply String.eqb_refl].
Qed.

Lemma existsb_year_of_filtered (long_df : list record) (year_range : Z * Z) (y : string) :
  In y (selected_years year_range) ->
  existsb (fun r => Year r =? y) (filtered_long long_df year_range) = true <->
  exists r, In r long_df /\ Year r = y.
Proof.
  intros Hy. rewrite existsb_exists. split.
  - intros (r & Hr & Heq). apply String.eqb_eq in Heq. apply filter_In in Hr.
    exists r. now split.
  - intros (r & Hr & <-). exists r. split; [|apply String.eqb_refl].
    apply filter_In. split; [assumption|]. apply existsb_exists.
    exists (Year r). split; [assumption | apply String.eqb_refl].
Qed.

(** X8. The headline metrics are computed exactly when the first and the
    latest of the selected years each have a record; when one of the two
    years has no record, [IndexError] is raised, and nothing else can go
    wrong.  As long as the sums stay within [int64], the two totals are the
    sums of the budgets of these years over all the loaded records, the
    change is latest - first and the growth (latest - first) / first * 100,
    or 0 for a first total of 0. *)
Theorem overview_succeeds_iff (long_df : list record) (year_range : Z * Z)
  (first_year latest_year : string) :
  py_min (selected_years year_range) = Ok first_year ->
  py_max (selected_years year_range) = Ok latest_year ->
  let first := Qsum (map Budget (filter (fun r => Year r =? first_year) long_df)) in
  let latest := Qsum (map Budget (filter (fun r => Year r =? latest_year) long_df)) in
  ((exists r, In r long_df /\ Year r = first_year) /\
   (exists r, In r long_df /\ Year r = latest_year) ->
   exists h,
     overview long_df year_range = Ok h /\
     (int64_safe long_df ->
      h = mkHeadline first latest (latest - first)
            (if negb (Qeq_bool first 0) then (latest - first) / first * 100 else 0)%Q)) /\
  (~ ((exists r, In r long_df /\ Year r = first_year) /\
      (exists r, In r long_df /\ Year r = latest_year)) ->
   overview long_df year_range = Raise IndexError).
Proof.
  intros Hmin Hmax first latest.
  pose proof (py_min_in _ _ Hmin) as Hfy. pose proof (py_max_in _ _ Hmax) as Hly.
  unfold overview, headline_metrics. rewrite Hmax, Hmin. cbn [bind].
  rewrite !budget_of_year_total.
  rewrite !filter_year_of_filtered by assumption.
  pose proof (existsb_year_of_filtered long_df year_range first_year Hfy) as Ef.
  pose proof (existsb_year_of_filtered long_df year_range latest_year Hly) as El.
  destruct (existsb (fun r => Year r =? latest_year) (filtered_long long_df year_range));
    destruct (existsb (fun r => Year r =? first_year) (filtered_long long_df year_range));
    cbn [iloc0 bind]; split; trivial.
  - intros _. eexists. split; [reflexivity|]. intros _. reflexivity.
  - intros H. exfalso. apply H. split; [now apply Ef | now apply El].
  - intros [H _]. apply Ef in H. discriminate.
  - intros [_ H]. apply El in H. discriminate.
  - intros [_ H]. apply El in H. discriminate.
Qed.

Lemma overview_succeeds_iff_witness :
  int64_safe [mkRecord (Txt "A") "2014" 100; mkRecord (Txt "B") "2014" 50;
              mkRecord (Txt "A") "2015" 200] /\
  overview [mkRecord (Txt "A") "2014" 100; mkRecord (Txt "B") "2014" 50;
            mkRecord (Txt "A") "2015" 200]
           (2014, 2015)%Z =
  Ok (mkHeadline (0 + 100 + 50) (0 + 200) (0 + 200 - (0 + 100 + 50))
                 ((0 + 200 - (0 + 100 + 50)) / (0 + 100 + 50) * 100))%Q.
Proof.
  assert (Hsafe : int64_safe [mkRecord (Txt "A") "2014" 100;
                              mkRecord (Txt "B") "2014" 50;
                              mkRecord (Txt "A") "2015" 200]).
  { split.
    - intros r [<-|[<-|[<-|[]]]]; discriminate.
    - reflexivity. }
  split; [exact Hsafe|].
  destruct (overview_succeeds_iff
              [mkRecord (Txt "A") "2014" 100; mkRecord (Txt "B") "2014" 50;
               mkRecord (Txt "A") "2015" 200]
              (2014, 2015)%Z "2014" "2015" eq_refl eq_refl) as [H _].
  destruct H as (h & Hh & Heq).
  - split; [exists (mkRecord (Txt "A") "2014" 100)
           | exists (mkRecord (Txt "A") "2015" 200)]; simpl; auto.
  - rewrite Hh, (Heq Hsafe). reflexivity.
Defined.

(** ** [compute_growth] *)

Lemma mapM_ok_iff {A B : Type} (f : A -> result B) (l : list A) (ys : list B) :
  mapM f l = Ok ys <-> Forall2 (fun x y => f x = Ok y) l ys.
Proof.
  revert ys; induction l as [|x l IH]; intros ys; simpl.
  - split; [intros [= <-]; constructor | intros H; now inversion H].
  - split.
    + destruct (f x) as [y|] eqn:Hx; [|discriminate]. cbn [bind].
      destruct (mapM f l) as [ys'|] eqn:Hl; [|discriminate]. cbn [bind].
      intros [= <-]. constructor; [assumption | now apply IH].
    + intros H. inversion H as [|? y ? ys' Hx Hl]; subst.
      rewrite Hx. cbn [bind]. apply IH in Hl. rewrite Hl. reflexivity.
Qed.

Lemma mapM_raise {A B : Type} (f : A -> result B) (l : list A) (e : exn) :
  mapM f l = Raise e -> exists x, In x l /\ f x = Raise e.
Proof.
  induction l as [|x l IH]; simpl; [discriminate|].
  destruct (f x) as [y|e'] eqn:Hx; cbn [bind].
  - destruct (mapM f l) as [ys|e''] eqn:Hl; cbn [bind]; [discriminate|].
    intros [= <-]. destruct (IH eq_refl) as (x' & Hin & Hx'). exists x'. auto.
  - intros [= <-]. exists x. auto.
Qed.

Lemma mapM_some_raise {A B : Type} (f : A -> result B) (l : list A) (x : A) (e : exn) :
  In x l -> f x = Raise e -> exists e', mapM f l = Raise e'.
Proof.
  induction l as [|z l IH]; simpl; [contradiction|].
  intros [->|Hin] Hx.
  - rewrite Hx. cbn [bind]. eauto.
  - destruct (f z); cbn [bind]; [|eauto].
    destruct (IH Hin Hx) as (e' & ->). cbn [bind]. eauto.
Qed.

Lemma series_get_ok (row : Series) (c : string) :
  In c (map fst row) -> exists v, series_get row c = Ok v /\ In (c, v) row.
Proof.
  induction row as [|[c' v'] row IH]; simpl; [contradiction|].
  destruct (String.eqb_spec c' c) as [->|Hne].
  - intros _. exists v'. auto.
  - intros [H|H]; [contradiction|]. destruct (IH H) as (v & Hv & Hin). exists v. auto.
Qed.

Lemma series_get_raise (row : Series) (c : string) (e : exn) :
  series_get row c = Raise e -> e = KeyError /\ ~ In c (map fst row).
Proof.
  induction row as [|[c' v'] row IH]; simpl.
  - intros [= <-]. auto.
  - destruct (String.eqb_spec c' c) as [->|Hne]; [discriminate|].
    intros H. destruct (IH H) as [-> Hnotin]. split; [reflexivity|]. tauto.
Qed.

Lemma astype_float_raise (v : cell) (e : exn) :
  astype_float v = Raise e -> e = ValueError /\ exists s, v = Txt s.
Proof. destruct v; simpl; try discriminate. intros [= <-]. eauto. Qed.

Lemma series_get_ok_in (row : Series) (c : string) (v : cell) :
  series_get row c = Ok v -> In c (map fst row).
Proof.
  induction row as [|[c' v'] row IH]; simpl; [discriminate|].
  destruct (String.eqb_spec c' c) as [->|_]; [now left|]. right. now apply IH.
Qed.

Lemma Forall2_length_eq {A B : Type} (R : A -> B -> Prop) (l : list A) (l' : list B) :
  Forall2 R l l' -> List.length l = List.length l'.
Proof. induction 1; simpl; congruence. Qed.

Lemma Forall2_in_l {A B : Type} (R : A -> B -> Prop) (l : list A) (l' : list B) (x : A) :
  Forall2 R l l' -> In x l -> exists y, In y l' /\ R x y.
Proof.
  induction 1 as [|a b l l' Hab _ IH]; [contradiction|].
  intros [->|Hx]; [exists b; split; [now left | assumption]|].
  destruct (IH Hx) as (y & Hy & Hxy). exists y. split; [now right | assumption].
Qed.

Lemma Forall2_in_r {A B : Type} (R : A -> B -> Prop) (l : list A) (l' : list B) (y : B) :
  Forall2 R l l' -> In y l' -> exists x, In x l /\ R x y.
Proof.
  induction 1 as [|a b l l' Hab _ IH]; [contradiction|].
  intros [->|Hy]; [exists a; split; [now left | assumption]|].
  destruct (IH Hy) as (x & Hx & Hxy). exists x. split; [now right | assumption].
Qed.

(** X9. On a row with distinct labels [compute_growth] fails in three ways
    only, told apart by the exception: [KeyError] exactly when a year column
    is missing from the row, [ValueError] exactly when all are there and one
    of them holds a text, [IndexError] exactly when there is no year column
    at all; otherwise it returns the metric. *)
Theorem compute_growth_failures (row : Series) (year_cols : list string) :
  NoDup (map fst row) ->
  (compute_growth row year_cols = Raise KeyError <->
   exists c, In c year_cols /\ ~ In c (map fst row)) /\
  (compute_growth row year_cols = Raise ValueError <->
   (forall c, In c year_cols -> In c (map fst row)) /\
   exists c s, In c year_cols /\ series_get row c = Ok (Txt s)) /\
  (compute_growth row year_cols = Raise IndexError <-> year_cols = []) /\
  compute_growth row year_cols <> Raise EmptyDataError /\
  ((exists g, compute_growth row year_cols = Ok g) <->
   year_cols <> [] /\
   forall c, In c year_cols ->
             exists v, series_get row c = Ok v /\ forall s, v <> Txt s).
Proof.
  intros _. unfold compute_growth.
  destruct (mapM (series_get row) year_cols) as [cells|e] eqn:Hcells; cbn [bind].
  - (* every year column is in the row *)
    apply mapM_ok_iff in Hcells.
    assert (Hall : forall c, In c year_cols -> In c (map fst row)).
    { intros c Hc. destruct (Forall2_in_l _ _ _ c Hcells Hc) as (v & _ & Hv).
      now apply series_get_ok_in in Hv. }
    pose proof (Forall2_length_eq _ _ _ Hcells) as Hlen.
    destruct (mapM astype_float cells) as [values|e] eqn:Hvalues; cbn [bind].
    + apply mapM_ok_iff in Hvalues.
      pose proof (Forall2_length_eq _ _ _ Hvalues) as Hlen'.
      assert (Hnotxt : forall c, In c year_cols ->
                 exists v, series_get row c = Ok v /\ forall s, v <> Txt s).
      { intros c Hc. destruct (Forall2_in_l _ _ _ c Hcells Hc) as (v & Hv & Hget).
        exists v. split; [assumption|]. intros s ->.
        destruct (Forall2_in_l _ _ _ _ Hvalues Hv) as (w & _ & Hw). discriminate. }
      assert (Hkey : ~ exists c, In c year_cols /\ ~ In c (map fst row))
        by (intros (c & Hc & Hnotin); now apply Hnotin, Hall).
      assert (Hval : ~ exists c s, In c year_cols /\ series_get row c = Ok (Txt s)).
      { intros (c & s & Hc & Hget). destruct (Hnotxt c Hc) as (v & Hv & Hno).
        rewrite Hget in Hv. injection Hv as <-. now apply (Hno s). }
      destruct year_cols as [|c0 year_cols].
      * destruct cells; [|discriminate]. destruct values; [|discriminate].
        cbn [first_value iloc0 bind].
        split; [|split; [|split; [|split]]].
        -- split; [discriminate | intros H; now apply Hkey in H].
        -- split; [discriminate | intros [_ H]; now apply Hval in H].
        -- split; reflexivity.
        -- discriminate.
        -- split; [intros (g & Hg); discriminate | intros [Hne _]; congruence].
      * destruct cells as [|v0 cells]; [discriminate|].
        destruct values as [|w0 values]; [discriminate|].
        unfold first_value, last_value. cbn [iloc0 bind].
        destruct (rev (w0 :: values)) as [|wl rest] eqn:Hrev.
        { apply (f_equal (@List.length float)) in Hrev. rewrite length_rev in Hrev.
          discriminate. }
        cbn [iloc0 bind].
        split; [|split; [|split; [|split]]].
        -- split; [discriminate | intros H; now apply Hkey in H].
        -- split; [discriminate | intros [_ H]; now apply Hval in H].
        -- split; discriminate.
        -- discriminate.
        -- split; [intros _; split; [discriminate | exact Hnotxt] | eauto].
    + destruct (mapM_raise _ _ _ Hvalues) as (v & Hv & Hraise).
      apply astype_float_raise in Hraise. destruct Hraise as [-> (s & ->)].
      destruct (Forall2_in_r _ _ _ _ Hcells Hv) as (c & Hc & Hget).
      split; [|split; [|split; [|split]]].
      * split; [discriminate|]. intros (c' & Hc' & Hnotin). exfalso.
        now apply Hnotin, Hall.
      * split; [intros _; split; [exact Hall | now exists c, s] | reflexivity].
      * split; [discriminate | intros ->; contradiction].
      * discriminate.
      * split; [intros (g & Hg); discriminate|]. intros [_ H].
        destruct (H c Hc) as (v & Hv' & Hno). rewrite Hget in Hv'.
        injection Hv' as <-. now destruct (Hno s).
  - destruct (mapM_raise _ _ _ Hcells) as (c & Hc & Hraise).
    apply series_get_raise in Hraise. destruct Hraise as [-> Hnotin].
    split; [|split; [|split; [|split]]].
    + split; [intros _; now exists c | reflexivity].
    + split; [discriminate|]. intros [Hall _]. exfalso. now apply Hnotin, Hall.
    + split; [discriminate | intros ->; contradiction].
    + discriminate.
    + split; [intros (g & Hg); discriminate|]. intros [_ H].
      destruct (H c Hc) as (v & Hv & _). exfalso.
      now apply Hnotin, (series_get_ok_in row c v).
Qed.

Lemma compute_growth_failures_witness :
  compute_growth [("2014", Txt "TBD"); ("2015", Num 200)] ["2014"; "2015"] =
  Raise ValueError.
Proof.
  apply (compute_growth_failures [("2014", Txt "TBD"); ("2015", Num 200)]
                                 ["2014"; "2015"]).
  { repeat constructor; simpl; intuition discriminate. }
  split.
  - intros c [<-|[<-|[]]]; simpl; auto.
  - exists "2014", "TBD". split; [now left | reflexivity].
Defined.

Lemma iloc0_rev_map {A B : Type} (f : A -> B) (l : list A) (d : A) :
  l <> [] -> iloc0 (rev (map f l)) = Ok (f (last l d)).
Proof.
  destruct l as [|x l] using rev_ind; [congruence|]. intros _.
  rewrite map_app, rev_app_distr, last_last. reflexivity.
Qed.

Lemma compute_growth_series (labels : list string) (values : list cell) :
  NoDup labels -> List.length labels = List.length values -> labels <> [] ->
  (forall v s, In v values -> v <> Txt s) ->
  compute_growth (combine labels values) labels =
  Ok (let start := float_of (hd NaN values) in
      let end_ := float_of (last values NaN) in
      mkGrowth start end_ (fsub end_ start)
        (if fne0 start then Some (fmul (fdiv (fsub end_ start) start) (Fin 100))
         else None)).
Proof.
  intros Hnd Hlen Hne Hnum. unfold compute_growth.
  rewrite mapM_series_get by assumption. cbn [bind].
  rewrite (mapM_ok_map astype_float float_of).
  2:{ intros v Hv. destruct v; trivial. now destruct (Hnum (Txt s) s Hv). }
  cbn [bind]. unfold first_value, last_value.
  assert (Hv : values <> []) by (destruct values, labels; simpl in *; congruence).
  rewrite (iloc0_rev_map float_of values NaN Hv).
  destruct values as [|v values]; [congruence|]. reflexivity.
Qed.

(** X10. The growth of a row whose year cells hold no text depends on the
    values of the first and the last year column only: rows that agree on
    these two values have the same metric, whatever lies between them. *)
Theorem compute_growth_first_and_last_only
  (labels : list string) (values values' : list cell) :
  NoDup labels -> labels <> [] ->
  List.length labels = List.length values ->
  List.length labels = List.length values' ->
  (forall v s, In v values -> v <> Txt s) ->
  (forall v s, In v values' -> v <> Txt s) ->
  hd NaN values = hd NaN values' -> last values NaN = last values' NaN ->
  exists g,
    compute_growth (combine labels values) labels = Ok g /\
    compute_growth (combine labels values') labels = Ok g /\
    g_start g = float_of (hd NaN values) /\
    g_end g = float_of (last values NaN).
Proof.
  intros Hnd Hne Hlen Hlen' Hnum Hnum' Hhd Hlast.
  eexists. split; [now apply compute_growth_series|].
  rewrite compute_growth_series by assumption. rewrite <- Hhd, <- Hlast.
  split; [reflexivity|]. split; reflexivity.
Qed.

Lemma compute_growth_first_and_last_only_witness :
  exists g,
    compute_growth (combine ["2014"; "2015"; "2016"] [Num 100; Num 7; Num 200])
                   ["2014"; "2015"; "2016"] = Ok g /\
    compute_growth (combine ["2014"; "2015"; "2016"] [Num 100; NaN; Num 200])
                   ["2014"; "2015"; "2016"] = Ok g.
Proof.
  destruct (compute_growth_first_and_last_only
              ["2014"; "2015"; "2016"] [Num 100; Num 7; Num 200]
              [Num 100; NaN; Num 200]) as (g & H1 & H2 & _).
  - repeat constructor; simpl; intuition discriminate.
  - discriminate.
  - reflexivity.
  - reflexivity.
  - intros v s [<-|[<-|[<-|[]]]]; discriminate.
  - intros v s [<-|[<-|[<-|[]]]]; discriminate.
  - reflexivity.
  - reflexivity.
  - exists g. split; assumption.
Defined.

(** X11. An empty cell in the first year column does not give "N/A": the
    start is NaN, which is not equal to 0, so that absolute and percent
    change are computed and are NaN; the same holds for an empty cell in the
    last year column when the start is a number other than 0.  Nothing is
    raised. *)
Theorem compute_growth_of_missing_value (labels : list string) (values : list cell) :
  NoDup labels -> labels <> [] ->
  List.length labels = List.length values ->
  (forall v s, In v values -> v <> Txt s) ->
  hd NaN values = NaN \/
  (last values NaN = NaN /\ fne0 (float_of (hd NaN values)) = true) ->
  exists g,
    compute_growth (combine labels values) labels = Ok g /\
    g_absolute_change g = FNaN /\
    g_pct_change g = Some FNaN /\
    growth_delta g = Formatted FNaN FNaN.
Proof.
  intros Hnd Hne Hlen Hnum Hmiss.
  eexists. split; [now apply compute_growth_series|].
  unfold growth_delta. cbn [g_absolute_change g_pct_change].
  destruct Hmiss as [-> | [-> Hstart]].
  - cbn [float_of fne0 fsub fdiv fmul]. destruct (float_of (last values NaN)); auto.
  - rewrite Hstart. cbn [float_of fsub fdiv fmul].
    destruct (float_of (hd NaN values)); auto.
Qed.

Lemma compute_growth_of_missing_value_witness :
  exists g,
    compute_growth (combine ["2014"; "2015"] [NaN; Num 200]) ["2014"; "2015"] = Ok g /\
    growth_delta g = Formatted FNaN FNaN.
Proof.
  destruct (compute_growth_of_missing_value ["2014"; "2015"] [NaN; Num 200])
    as (g & Hg & _ & _ & Hd).
  - repeat constructor; simpl; intuition discriminate.
  - discriminate.
  - reflexivity.
  - intros v s [<-|[<-|[]]]; discriminate.
  - now left.
  - exists g. split; assumption.
Defined.

(** ** The department tab *)

Lemma map_fst_combine {A B : Type} (l : list A) (l' : list B) :
  (List.length l <= List.length l')%nat -> map fst (combine l l') = l.
Proof.
  revert l'; induction l as [|x l IH]; intros [|y l'] H; simpl in *; try lia; trivial.
  f_equal. apply IH. lia.
Qed.

Lemma compute_growth_no_key_error (labels : list string) (values : list cell) :
  NoDup labels -> List.length labels = List.length values ->
  compute_growth (combine labels values) labels <> Raise KeyError.
Proof.
  intros Hnd Hlen. unfold compute_growth.
  rewrite mapM_series_get by assumption. cbn [bind].
  destruct (mapM astype_float values) as [floats|e] eqn:Hf; cbn [bind].
  - destruct (first_value floats) as [start|e] eqn:Hs; cbn [bind].
    + destruct (last_value floats) as [end_|e] eqn:He; cbn [bind]; [discriminate|].
      unfold last_value in He. destruct (rev floats); simpl in He; [|discriminate].
      injection He as <-. discriminate.
    + unfold first_value in Hs. destruct floats; simpl in Hs; [|discriminate].
      injection Hs as <-. discriminate.
  - destruct (mapM_raise _ _ _ Hf) as (v & _ & Hv).
    apply astype_float_raise in Hv. destruct Hv as [-> _]. discriminate.
Qed.

(** X12. A department named in the first column of a text never makes the
    department tab fail for a missing key: whenever one of the loaded
    records carries the name, its row is found in the wide table and every
    year column is found in the row. *)
Theorem tab_dept_finds_department (doc : DataFrame) :
  well_formed doc -> columns doc <> [] ->
  exists df long_df year_cols,
    load_data doc = Ok (df, long_df, year_cols) /\
    forall r name year_range,
      In r long_df -> Department r = Txt name ->
      tab_dept df long_df year_cols year_range (Txt name) <> Raise KeyError.
Proof.
  intros Hwf Hne. do 3 eexists. split; [now apply load_data_eq|].
  intros r name year_range Hr Hname.
  rewrite (long_records_by_cell doc Hwf) in Hr. apply in_records_by_cell in Hr.
  destruct Hr as (i & j & q & Hi & _ & _ & ->). cbn [Department] in Hname.
  unfold tab_dept. cbn [columns data].
  set (f := fun row => cell_eqb (at_label ("Department" :: tl (columns doc)) row "Department")
                                (Txt name)).
  assert (Hin : In (nth i (data doc) []) (filter f (data doc))).
  { apply filter_In. split; [now apply nth_In|]. unfold f.
    rewrite at_label_head. unfold cell_at in Hname.
    replace (hd NaN (nth i (data doc) [])) with (nth 0 (nth i (data doc) []) NaN)
      by now destruct (nth i (data doc) []).
    rewrite Hname. simpl. apply String.eqb_refl. }
  unfold set_index_loc. fold f. rewrite filter_idempotent.
  destruct (filter f (data doc)) as [|row [|row' rows]] eqn:Hf; [contradiction| |].
  - cbn [bind].
    assert (Hrow : In row (data doc)).
    { assert (H : In row (filter f (data doc))) by (rewrite Hf; now left).
      now apply filter_In in H. }
    destruct Hwf as (Hnd & Hdep & Hlen). rewrite Forall_forall in Hlen.
    specialize (Hlen row Hrow).
    destruct (columns doc) as [|c0 cols] eqn:Ecols; [congruence|]. cbn [tl] in *.
    destruct row as [|d cells]; [discriminate|]. cbn [combine filter fst].
    rewrite String.eqb_refl. cbn [negb]. rewrite (filter_series _ _ Hdep).
    destruct (compute_growth (combine cols cells) cols) as [g|e] eqn:Hg; cbn [bind];
      [discriminate|].
    intros [= ->]. inversion Hnd; subst.
    apply (compute_growth_no_key_error cols cells) in Hg; trivial.
    simpl in Hlen. lia.
  - cbn [bind]. discriminate.
Qed.

Lemma tab_dept_finds_department_witness :
  exists df long_df year_cols,
    load_data doc_text_cell = Ok (df, long_df, year_cols) /\
    tab_dept df long_df year_cols (2014, 2015)%Z (Txt "A") <> Raise KeyError.
Proof.
  assert (Hwf : well_formed doc_text_cell).
  { repeat split.
    - repeat constructor; simpl; intuition discriminate.
    - simpl; intuition discriminate.
    - repeat constructor. }
  destruct (tab_dept_finds_department doc_text_cell Hwf ltac:(discriminate))
    as (df & long_df & year_cols & Hload & H).
  exists df, long_df, year_cols. split; [exact Hload|].
  apply (H (mkRecord (Txt "A") "2015" 200) "A"); [|reflexivity].
  injection Hload as _ <- _. simpl. auto.
Defined.

Lemma label_le_neq_lt (s t : string) : label_le s t -> s <> t -> label_lt s t.
Proof.
  unfold label_le, label_lt, String.leb. intros Hle Hne.
  destruct (s ?= t) eqn:E; try discriminate; [|reflexivity].
  apply String.compare_eq_iff in E. contradiction.
Qed.

Lemma sorted_le_NoDup_lt {A : Type} (key : A -> string) (l : list A) :
  StronglySorted (key_le key) l -> NoDup (map key l) ->
  StronglySorted (key_lt key) l.
Proof.
  induction 1 as [|x l Hs IH Hall]; intros Hnd; [constructor|].
  simpl in Hnd. inversion Hnd as [|? ? Hnotin Hnd']; subst.
  constructor; [now apply IH|]. rewrite Forall_forall in *.
  intros y Hy. apply label_le_neq_lt; [now apply Hall|].
  intros Heq. apply Hnotin. rewrite Heq. now apply in_map.
Qed.

Lemma NoDup_map_filter {A B : Type} (g : A -> B) (f : A -> bool) (l : list A) :
  NoDup (map g l) -> NoDup (map g (filter f l)).
Proof.
  induction l as [|x l IH]; simpl; intros Hnd; [constructor|].
  inversion Hnd as [|? ? Hnotin Hnd']; subst.
  destruct (f x); simpl; [|now apply IH]. constructor; [|now apply IH].
  intros Hin. apply Hnotin. apply in_map_iff in Hin. destruct Hin as (y & Hy & Hin).
  apply filter_In in Hin. rewrite <- Hy. apply in_map. apply Hin.
Qed.

Lemma NoDup_years_of_department (d : cell) (l : list record) :
  (forall r, In r l -> Department r = d) ->
  NoDup (map key l) -> NoDup (map Year l).
Proof.
  induction l as [|x l IH]; simpl; intros Hd Hnd; [constructor|].
  inversion Hnd as [|? ? Hnotin Hnd']; subst. constructor.
  - intros Hin. apply Hnotin. apply in_map_iff in Hin. destruct Hin as (y & Hy & Hin).
    apply in_map_iff. exists y. split; [|assumption].
    unfold key. rewrite Hy, (Hd y), (Hd x); auto.
  - apply IH; [|assumption]. intros r Hr. apply Hd. now right.
Qed.

(** X13. When no two records share their (department, year) pair, the
    records that the department tab charts are exactly the records of the
    department in the selected years, in strictly ascending order of their
    year labels, at most one for each selected year. *)
Theorem tab_dept_records (df : DataFrame) (long_df : list record)
  (year_cols : list string) (year_range : Z * Z) (name : string)
  (dept_long : list record) (g : growth) :
  tab_dept df long_df year_cols year_range (Txt name) = Ok (dept_long, g) ->
  NoDup (map key long_df) ->
  (forall r, In r dept_long <->
             In r long_df /\ Department r = Txt name /\
             isin (Year r) (selected_years year_range) = true) /\
  StronglySorted (key_lt Year) dept_long /\
  (List.length dept_long <= List.length (selected_years year_range))%nat.
Proof.
  intros Htab Hnd. unfold tab_dept in Htab.
  destruct (set_index_loc _ _ _) as [row|]; [|discriminate]. cbn [bind] in Htab.
  destruct (compute_growth row year_cols) as [g'|]; [|discriminate]. cbn [bind] in Htab.
  injection Htab as <- _.
  set (l := filter (fun r => cell_eqb (Department r) (Txt name))
                   (filtered_long long_df year_range)).
  assert (Hl : forall r, In r l <->
                 In r long_df /\ Department r = Txt name /\
                 isin (Year r) (selected_years year_range) = true).
  { intros r. unfold l, filtered_long. rewrite !filter_In, cell_eqb_txt. tauto. }
  assert (Hperm := permutation_sort_values Year l).
  assert (Hyears : NoDup (map Year (sort_values Year l))).
  { apply (Permutation_NoDup (Permutation_map Year Hperm)).
    apply (NoDup_years_of_department (Txt name)); [intros r Hr; now apply Hl|].
    unfold l, filtered_long. now do 2 apply NoDup_map_filter. }
  split; [|split].
  - intros r. rewrite <- Hl. split; apply Permutation_in;
      [now apply Permutation_sym | assumption].
  - apply sorted_le_NoDup_lt; [apply sorted_sort_values | assumption].
  - rewrite <- (length_map Year). apply NoDup_incl_length; [assumption|].
    intros y Hy. apply in_map_iff in Hy. destruct Hy as (r & <- & Hr).
    apply (Permutation_in _ (Permutation_sym Hperm)), Hl in Hr.
    destruct Hr as (_ & _ & Hsel). unfold isin in Hsel.
    apply existsb_exists in Hsel. destruct Hsel as (x & Hx & Heq).
    apply String.eqb_eq in Heq. now subst.
Qed.

Lemma tab_dept_records_witness :
  exists df long_df year_cols dept_long g,
    load_data example_doc = Ok (df, long_df, year_cols) /\
    tab_dept df long_df year_cols (2014, 2015)%Z (Txt "B") = Ok (dept_long, g) /\
    StronglySorted (key_lt Year) dept_long /\
    (List.length dept_long <= 2)%nat.
Proof.
  do 5 eexists. split; [reflexivity|].
  assert (Htab : tab_dept {| columns := ["Department"; "2014"; "2015"];
                             data := data example_doc |}
                   [mkRecord (Txt "A") "2014" 100; mkRecord (Txt "B") "2014" 50;
                    mkRecord (Txt "A") "2015" 200; mkRecord (Txt "B") "2015" 150]
                   ["2014"; "2015"] (2014, 2015)%Z (Txt "B") =
                 Ok ([mkRecord (Txt "B") "2014" 50; mkRecord (Txt "B") "2015" 150],
                     mkGrowth (Fin 50) (Fin 150) (Fin (150 - 50))
                              (Some (Fin ((150 - 50) / 50 * 100)))))
    by reflexivity.
  split; [exact Htab|].
  destruct (tab_dept_records _ _ _ _ _ _ _ Htab) as (_ & Hs & Hlen).
  - repeat constructor; simpl; intuition discriminate.
  - split; [exact Hs | exact Hlen].
Defined.

(** ** Departments: groups, their number and the top five *)

Lemma cell_compare_refl (d : cell) : cell_compare d d = Eq.
Proof.
  destruct d; simpl; trivial.
  - apply Qeq_alt. reflexivity.
  - apply compare_refl.
Qed.

Lemma cell_compare_gt_lt (a b : cell) : cell_compare a b = Gt -> cell_lt b a.
Proof.
  unfold cell_lt. destruct a, b; simpl; try discriminate; trivial.
  - intros H. rewrite <- Qcompare_antisym, H. reflexivity.
  - intros H. rewrite String.compare_antisym, H. reflexivity.
Qed.

Lemma cell_lt_trans (a b c : cell) : cell_lt a b -> cell_lt b c -> cell_lt a c.
Proof.
  unfold cell_lt. destruct a, b, c; simpl; try discriminate; trivial.
  - rewrite <- !Qlt_alt. apply Qlt_trans.
  - apply label_lt_trans.
Qed.

Lemma cell_lt_not_eqb (a b : cell) : cell_lt a b -> cell_eqb a b = false.
Proof.
  unfold cell_lt. destruct a, b; simpl; try discriminate; trivial.
  - intros H. destruct (Qeq_bool q q0) eqn:E; [|reflexivity].
    apply Qeq_bool_iff, Qeq_alt in E. congruence.
  - intros H. destruct (String.eqb_spec s s0) as [->|_]; [|reflexivity].
    rewrite compare_refl in H. discriminate.
Qed.

Lemma cell_compare_eq_txt (d : cell) (name : string) :
  cell_compare (Txt name) d = Eq -> d = Txt name.
Proof.
  destruct d; simpl; try discriminate. intros H.
  apply String.compare_eq_iff in H. now subst.
Qed.

Lemma in_insert_dept_old (d d' : cell) (keys : list cell) :
  In d' keys -> In d' (insert_dept d keys).
Proof.
  induction keys as [|x keys IH]; simpl; [contradiction|].
  destruct (cell_compare d x); simpl; intuition.
Qed.

Lemma in_insert_dept_new (d : cell) (keys : list cell) :
  exists d', In d' (insert_dept d keys) /\ cell_compare d d' = Eq.
Proof.
  induction keys as [|x keys IH]; simpl.
  - exists d. split; [now left | apply cell_compare_refl].
  - destruct (cell_compare d x) eqn:E.
    + exists x. split; [now left | assumption].
    + exists d. split; [now left | apply cell_compare_refl].
    + destruct IH as (d' & Hin & Heq). exists d'. split; [now right | assumption].
Qed.

Lemma sorted_insert_dept (d : cell) (keys : list cell) :
  StronglySorted cell_lt keys -> StronglySorted cell_lt (insert_dept d keys).
Proof.
  induction 1 as [|x keys Hs IH Hall]; simpl; [repeat constructor|].
  destruct (cell_compare d x) eqn:Hc.
  - now constructor.
  - constructor; [now constructor|]. constructor; [assumption|].
    eapply Forall_impl; [|exact Hall]. intros y. now apply cell_lt_trans.
  - constructor; [assumption|]. apply Forall_forall. intros y Hy.
    apply in_insert_dept in Hy. destruct Hy as [->|Hy].
    + now apply cell_compare_gt_lt.
    + rewrite Forall_forall in Hall. now apply Hall.
Qed.

Lemma sorted_dept_keys (ds : list cell) : StronglySorted cell_lt (dept_keys ds).
Proof.
  unfold dept_keys. induction (filter (fun d => negb (isna d)) ds) as [|d l IH]; simpl;
    [constructor | now apply sorted_insert_dept].
Qed.

Lemma NoDup_dept_keys (ds : list cell) : NoDup (dept_keys ds).
Proof.
  pose proof (sorted_dept_keys ds) as Hs.
  induction Hs as [|x l Hs IH Hall]; constructor; [|assumption].
  intros Hin. rewrite Forall_forall in Hall. specialize (Hall x Hin).
  unfold cell_lt in Hall. rewrite cell_compare_refl in Hall. discriminate.
Qed.

Lemma dept_keys_not_nan (ds : list cell) (d : cell) :
  In d (dept_keys ds) -> d <> NaN /\ In d ds.
Proof.
  intros Hin. split; [|now apply in_dept_keys].
  unfold dept_keys in Hin.
  assert (H : forall l, (forall x, In x l -> x <> NaN) ->
                        In d (fold_right insert_dept [] l) -> d <> NaN).
  { induction l as [|x l IH]; simpl; intros Hl Hd; [contradiction|].
    apply in_insert_dept in Hd. destruct Hd as [->|Hd]; [apply Hl; now left|].
    apply IH; [|assumption]. intros; apply Hl; now right. }
  apply (H (filter (fun d => negb (isna d)) ds)); [|exact Hin].
  intros x Hx. apply filter_In in Hx. destruct Hx as [_ Hx]. now destruct x.
Qed.

Lemma dept_keys_text (ds : list cell) (name : string) :
  In (Txt name) ds -> In (Txt name) (dept_keys ds).
Proof.
  unfold dept_keys. induction ds as [|x ds IH]; simpl; [contradiction|].
  intros [->|Hin]; simpl.
  - destruct (in_insert_dept_new (Txt name)
                (fold_right insert_dept [] (filter (fun d => negb (isna d)) ds)))
      as (d' & Hd' & Heq).
    apply cell_compare_eq_txt in Heq. now subst.
  - destruct (isna x); simpl; [now apply IH|]. apply in_insert_dept_old. now apply IH.
Qed.

(** X14. Grouping by department gives one row per department: the rows
    ascend by department, no two rows are of the same department, none is of
    the missing department (NaN), every department of a row has a record,
    and every department named by a text in a record has its row. *)
Theorem groupby_department_one_row_each (rs : list record) :
  StronglySorted cell_lt (map fst (groupby_department_sum rs)) /\
  StronglySorted (fun a b => cell_eqb a b = false)
                 (map fst (groupby_department_sum rs)) /\
  (forall d, In d (map fst (groupby_department_sum rs)) ->
             d <> NaN /\ exists r, In r rs /\ Department r = d) /\
  (forall r name, In r rs -> Department r = Txt name ->
                  In (Txt name) (map fst (groupby_department_sum rs))).
Proof.
  assert (Hkeys : map fst (groupby_department_sum rs) = dept_keys (map Department rs)).
  { unfold groupby_department_sum. rewrite map_map. simpl. apply map_id. }
  rewrite Hkeys. split; [apply sorted_dept_keys|]. split; [|split].
  - eapply StronglySorted_impl_In; [|apply sorted_dept_keys].
    intros a b _ _. apply cell_lt_not_eqb.
  - intros d Hd. apply dept_keys_not_nan in Hd. destruct Hd as [Hnan Hd].
    split; [assumption|]. apply in_map_iff in Hd. destruct Hd as (r & <- & Hr). eauto.
  - intros r name Hr Hname. apply dept_keys_text. rewrite <- Hname. now apply in_map.
Qed.

Lemma groupby_department_one_row_each_witness :
  In (Txt "B")
     (map fst (groupby_department_sum
                 [mkRecord (Txt "B") "2015" 1; mkRecord (Txt "A") "2015" 2;
                  mkRecord (Txt "B") "2015" 3])).
Proof.
  apply (groupby_department_one_row_each
           [mkRecord (Txt "B") "2015" 1; mkRecord (Txt "A") "2015" 2;
            mkRecord (Txt "B") "2015" 3])
    with (r := mkRecord (Txt "B") "2015" 1); [now left | reflexivity].
Defined.

Lemma in_departments_cell_at (doc : DataFrame) (i : nat) :
  (i < List.length (data doc))%nat -> In (cell_at doc i 0) (departments doc).
Proof.
  intros Hi. rewrite <- departments_nth. apply nth_In.
  unfold departments. now rewrite length_map.
Qed.

(** X15. The number of departments that the overview shows is at most the
    number of rows of the table, and, when the departments are named by
    texts, no greater than the number over all the records: narrowing the
    year range can only lower it. *)
Theorem nunique_departments_bounds (doc : DataFrame) :
  well_formed doc -> columns doc <> [] ->
  exists df long_df year_cols,
    load_data doc = Ok (df, long_df, year_cols) /\
    forall year_range,
      (nunique_departments (filtered_long long_df year_range)
       <= List.length (data doc))%nat /\
      ((forall r q, In r long_df -> Department r <> Num q) ->
       (nunique_departments (filtered_long long_df year_range)
        <= nunique_departments long_df)%nat).
Proof.
  intros Hwf Hne. do 3 eexists. split; [now apply load_data_eq|].
  intros year_range. unfold nunique_departments.
  assert (Hsub : forall d, In d (dept_keys (map Department
                                   (filtered_long (long_records doc) year_range))) ->
                           d <> NaN /\ exists r, In r (long_records doc) /\ Department r = d).
  { intros d Hd. apply dept_keys_not_nan in Hd. destruct Hd as [Hnan Hd].
    split; [assumption|]. apply in_map_iff in Hd. destruct Hd as (r & <- & Hr).
    apply filter_In in Hr. exists r. split; [apply Hr | reflexivity]. }
  split.
  - replace (List.length (data doc)) with (List.length (departments doc))
      by (unfold departments; apply length_map).
    apply NoDup_incl_length; [apply NoDup_dept_keys|].
    intros d Hd. destruct (Hsub d Hd) as (_ & r & Hr & <-).
    rewrite (long_records_by_cell doc Hwf) in Hr. apply in_records_by_cell in Hr.
    destruct Hr as (i & j & q & Hi & _ & _ & ->). cbn [Department].
    now apply in_departments_cell_at.
  - intros Htext. apply NoDup_incl_length; [apply NoDup_dept_keys|].
    intros d Hd. destruct (Hsub d Hd) as (Hnan & r & Hr & <-).
    destruct (Department r) as [q|name|] eqn:E.
    + now destruct (Htext r q Hr).
    + apply dept_keys_text. rewrite <- E. now apply in_map.
    + congruence.
Qed.

Lemma nunique_departments_bounds_witness :
  exists df long_df year_cols,
    load_data example_doc = Ok (df, long_df, year_cols) /\
    (nunique_departments (filtered_long long_df (2015, 2015)%Z) <= 2)%nat.
Proof.
  destruct (nunique_departments_bounds example_doc well_formed_example_doc
              ltac:(discriminate)) as (df & long_df & year_cols & Hload & H).
  exists df, long_df, year_cols. split; [exact Hload|].
  exact (proj1 (H (2015, 2015)%Z)).
Defined.

Lemma sorted_app_le (l1 l2 : list (cell * Q)) :
  descending (l1 ++ l2) ->
  forall x y, In x l1 -> In y l2 -> (snd y <= snd x)%Q.
Proof.
  unfold descending. induction l1 as [|z l1 IH]; simpl; intros Hs x y Hx Hy;
    [contradiction|].
  inversion Hs as [|? ? Hs' Hall]; subst. destruct Hx as [->|Hx].
  - rewrite Forall_forall in Hall. apply Hall, in_or_app. now right.
  - now apply IH.
Qed.

(** X16. The top departments are the greatest: when the rows of the
    departments are split into the rows returned and the rows left out, no
    row left out has a greater total than a row returned; with five
    departments or fewer no row is left out. *)
Theorem top5_keeps_greatest
  (sort : list (cell * Q) -> list (cell * Q))
  (filtered : list record) (selected : list string) (latest_year : string) :
  sorts_descending sort ->
  py_max selected = Ok latest_year ->
  let groups :=
    groupby_department_sum (filter (fun r => Year r =? latest_year) filtered) in
  exists top rest,
    top5 sort filtered selected = Ok top /\
    Permutation groups (top ++ rest) /\
    (forall x y, In x top -> In y rest -> (snd y <= snd x)%Q) /\
    ((List.length groups <= 5)%nat -> rest = []).
Proof.
  intros [Hperm Hdesc] Hmax groups. unfold top5. rewrite Hmax. cbn [bind].
  fold groups. exists (firstn 5 (sort groups)), (skipn 5 (sort groups)).
  split; [reflexivity|]. rewrite firstn_skipn. split; [apply Hperm|]. split.
  - apply sorted_app_le. rewrite firstn_skipn. apply Hdesc.
  - intros Hlen. apply skipn_all2.
    rewrite <- (Permutation_length (Hperm groups)). exact Hlen.
Qed.

Lemma top5_keeps_greatest_witness :
  exists top rest,
    top5 sort_ties_kept
         [mkRecord (Txt "A") "2015" 200; mkRecord (Txt "B") "2015" 350]
         (selected_years (2014, 2015)%Z) = Ok top /\
    rest = [] /\
    Permutation
      (groupby_department_sum
         [mkRecord (Txt "A") "2015" 200; mkRecord (Txt "B") "2015" 350])
      (top ++ rest).
Proof.
  destruct (top5_keeps_greatest sort_ties_kept
              [mkRecord (Txt "A") "2015" 200; mkRecord (Txt "B") "2015" 350]
              (selected_years (2014, 2015)%Z) "2015"
              sort_ties_kept_descending eq_refl)
    as (top & rest & Htop & Hperm & _ & Hrest).
  exists top, rest. split; [exact Htop|]. split; [|exact Hperm].
  apply Hrest. simpl. lia.
Defined.

(** ** The selected years *)

(** X17. The labels selected for the range from [a] to [b] are the numerals
    of the b - a + 1 years of the range, each once: [int] of a selected label
    gives a year of the range back, and [str] of that year is the label. *)
Theorem selected_years_labels (a b : Z) :
  (a <= b + 1)%Z ->
  List.length (selected_years (a, b)) = Z.to_nat (b - a + 1) /\
  NoDup (selected_years (a, b)) /\
  (forall s, In s (selected_years (a, b)) <->
             exists y, py_int s = Ok y /\ (a <= y <= b)%Z /\ py_str y = s).
Proof.
  intros Hab. unfold selected_years; cbn [fst snd]. split; [|split].
  - unfold py_range. rewrite !length_map, length_seq. f_equal. lia.
  - unfold py_range. rewrite map_map.
    assert (H : forall n m, NoDup (map (fun i => py_str (a + Z.of_nat i)) (seq m n))).
    { induction n as [|n IH]; intros m; simpl; constructor; [|apply IH].
      intros Hin. apply in_map_iff in Hin. destruct Hin as (i & Heq & Hi).
      apply py_str_inj in Heq. apply in_seq in Hi. lia. }
    apply H.
  - intros s. rewrite in_map_iff. split.
    + intros (y & <- & Hy). apply in_py_range in Hy. exists y.
      split; [apply py_int_str|]. split; [lia | reflexivity].
    + intros (y & _ & Hy & <-). exists y. split; [reflexivity|].
      apply in_py_range. lia.
Qed.

Lemma selected_years_labels_witness :
  List.length (selected_years (2014, 2025)%Z) = 12%nat /\
  NoDup (selected_years (2014, 2025)%Z).
Proof.
  destruct (selected_years_labels 2014 2025 ltac:(lia)) as (Hlen & Hnd & _).
  split; [exact Hlen | exact Hnd].
Defined.

(** X18. With the range narrowed to one year that has a record, the
    headline metrics are computed, the first and the latest total are the
    same total, and the change and the growth shown are zero. *)
Theorem overview_of_one_year (long_df : list record) (a : Z) :
  (exists r, In r long_df /\ Year r = py_str a) ->
  exists h,
    overview long_df (a, a) = Ok h /\
    total_budget_latest h = total_budget_first h /\
    (abs_change h == 0)%Q /\ (pct_change h == 0)%Q.
Proof.
  intros Hrec.
  assert (Hsel : selected_years (a, a) = [py_str a]).
  { unfold selected_years, py_range; cbn [fst snd].
    replace (Z.to_nat (a + 1 - a)) with 1%nat by lia. simpl. now rewrite Z.add_0_r. }
  assert (Hin : In (py_str a) (selected_years (a, a))) by (rewrite Hsel; now left).
  assert (Hmax : py_max (selected_years (a, a)) = Ok (py_str a))
    by now rewrite Hsel.
  assert (Hmin : py_min (selected_years (a, a)) = Ok (py_str a))
    by now rewrite Hsel.
  unfold overview, headline_metrics. rewrite Hmax, Hmin. cbn [bind].
  rewrite budget_of_year_total, filter_year_of_filtered by assumption.
  replace (existsb (fun r => Year r =? py_str a) (filtered_long long_df (a, a)))
    with true by (symmetry; now apply existsb_year_of_filtered).
  cbn [iloc0 bind]. eexists. split; [reflexivity|].
  cbn [total_budget_first total_budget_latest abs_change pct_change].
  split; [reflexivity|]. split; [ring|].
  destruct (Qeq_bool _ 0) eqn:E; cbn [negb]; [reflexivity|].
  apply Qeq_bool_neq in E. field. exact E.
Qed.

Lemma overview_of_one_year_witness :
  exists h,
    overview [mkRecord (Txt "A") "2014" 100; mkRecord (Txt "A") "2015" 200]
             (2015, 2015)%Z = Ok h /\
    (pct_change h == 0)%Q.
Proof.
  destruct (overview_of_one_year
              [mkRecord (Txt "A") "2014" 100; mkRecord (Txt "A") "2015" 200] 2015)
    as (h & Hh & _ & _ & Hp).
  - exists (mkRecord (Txt "A") "2015" 200). simpl. auto.
  - exists h. split; assumption.
Defined.

(** * The order of the top departments *)





(** Two departments with the same budget come in their order. *)
Lemma tied_departments_keep_their_order :
  top5 sort_values_descending tied_records (selected_years (2015, 2015)%Z) =
  Ok [(Txt "A", 5%Q); (Txt "B", 5%Q)].
Proof. reflexivity. Qed.


